(** * dydx-alerts: risk metrics, market normalisation and alert evaluation

    A shallow embedding of the core of the dYdX alerting backend:

    - [Py]: the fragment of Python's data model the services rely on
      (JSON-like values, truthiness, [or], [dict.get], [Decimal(str(v))]);
    - [RiskCalculator]: [app/services/risk_calculator.py];
    - [MonitorService]: the per-market body of
      [MonitorService._normalize_market_info], the counters of
      [polling_loop] and the merge of [process_markets_update];
    - [AlertRuleEvaluator]: [app/services/alert_rule_evaluator.py];
    - [AlertEngine]: [app/services/alert_engine.py].

    Numbers.  A finite [Decimal] or [float] is modelled by the rational
    number it denotes ([Q]).  [Rounding] rounds a rational to a number of
    digits in a base, half to even; [Ctx] is the arithmetic of the default
    decimal context on top of it (28 digits, exponents from -999999 to
    999999, [Overflow], [DivisionByZero] and [InvalidOperation] trapped)
    and [round64] is the rounding to binary64.  The two liquidation-price
    functions, the comparison of a rule and the conversion of the account
    metrics to [float] go through them.  The other sums, products and
    quotients of the calculator, and the conversion [_safe_float] of the
    position metrics, are kept exact: a statement about one of them is a
    statement up to the rounding of the code.

    The only non-finite numbers the code itself creates are the
    [Decimal("inf")] sentinels of the margin ratio and of the liquidation
    distance, so [Decimal] is [Q] extended with the two infinities and
    [float] is [Q] extended with the infinities and NaN.  Numeric strings
    are read by [Py.read_literal].  It recognises the spellings of infinity
    and NaN, but the services are modelled on finite numerals only:
    [Py.decimal_of] answers a special value the way it answers a malformed
    numeral.

    Exceptions.  Code that can raise returns a [result]; a [try] block is
    [try_except] around its body.

    State.  The rules table and the cooldown map are passed explicitly:
    an operation that mutates them returns the new state with its value.
    The clock is an argument. *)

From Stdlib Require Import ZArith QArith Qabs Qminmax Qround Qpower.
From Stdlib Require Import String Ascii List Bool Lia Lqa.
Import ListNotations.

Local Open Scope Q_scope.

(** ** Booleans tests on rationals *)

Definition Qeqb (a b : Q) : bool := Qeq_bool a b.
Definition Qleb (a b : Q) : bool := Qle_bool a b.
Definition Qltb (a b : Q) : bool := negb (Qle_bool b a).

(** Python's [max(a, b)] and [min(a, b)]: the first argument wins a tie. *)
Definition Qmaxb (a b : Q) : Q := if Qltb a b then b else a.
Definition Qminb (a b : Q) : Q := if Qltb b a then b else a.

(** ** Exceptions *)

Inductive exn : Type :=
| AttributeError   (* [.get], [.items] or [.upper] on a value without it *)
| InvalidOperation (* [Decimal(s)] on a malformed numeral, 0 / 0 *)
| DivisionByZero   (* x / 0 on decimals *)
| Overflow.        (* a decimal result beyond the largest exponent *)

Inductive result (A : Type) : Type :=
| Ok (a : A)
| Raise (e : exn).
Arguments Ok {A} a.
Arguments Raise {A} e.

Definition bind {A B} (r : result A) (k : A -> result B) : result B :=
  match r with
  | Ok a => k a
  | Raise e => Raise e
  end.

Notation "x <- c ;; k" := (bind c (fun x => k))
  (at level 61, c at next level, right associativity).

(** [try: c  except Exception: handler]. *)
Definition try_except {A} (c : result A) (handler : A) : A :=
  match c with
  | Ok a => a
  | Raise _ => handler
  end.

(** ** Rounding

    [round b prec emin q] is the multiple of [b ^ e] nearest to [q], where
    [e] is the exponent of the last of the [prec] leading digits of [q] in
    base [b], or [emin] if that is larger; a tie goes to the even
    multiple. *)

Module Rounding.

(** The integer nearest to [x]; a tie goes to the even neighbour. *)
Definition half_even (x : Q) : Z :=
  let f := Qfloor x in
  match Qcompare (x - inject_Z f) (1 # 2) with
  | Lt => f
  | Gt => (f + 1)%Z
  | Eq => if Z.even f then f else (f + 1)%Z
  end.

(** The number of digits of [n >= 1] in base [b]. *)
Fixpoint digits_fuel (fuel : nat) (b n : Z) : Z :=
  match fuel with
  | O => 0
  | S fuel' =>
      if (n <? b)%Z then 1%Z else (1 + digits_fuel fuel' b (n / b))%Z
  end.

Definition digits (b n : Z) : Z :=
  digits_fuel (S (Z.to_nat (Z.log2 n))) b n.

(** [floor (log_b q)] for [q > 0]. *)
Definition ilog (b : Z) (q : Q) : Z :=
  let k := (digits b (Qnum q) - digits b (Zpos (Qden q)))%Z in
  if Qle_bool (inject_Z b ^ k) q then k else (k - 1)%Z.

(** The exponent of the last digit kept when [q > 0] is written with
    [prec] digits in base [b], no lower than [emin]. *)
Definition quantum (b prec emin : Z) (q : Q) : Z :=
  Z.max (ilog b q - prec + 1) emin.

(** [q > 0] rounded to [prec] digits in base [b], half to even. *)
Definition round_pos (b prec emin : Z) (q : Q) : Q :=
  let unit := inject_Z b ^ quantum b prec emin q in
  inject_Z (half_even (q / unit)) * unit.

Definition round (b prec emin : Z) (q : Q) : Q :=
  match Qcompare q 0 with
  | Eq => 0
  | Gt => Qred (round_pos b prec emin q)
  | Lt => Qred (- round_pos b prec emin (- q))
  end.

(** The exponent of the leading digit of [r] exceeds [emax]. *)
Definition above (b emax : Z) (r : Q) : bool :=
  negb (Qeq_bool r 0) && (emax <? ilog b (Qabs r))%Z.

End Rounding.

(** ** Python values *)

Module Py.

#[warnings="-register-all"] Inductive value : Type :=
| VNone
| VBool (b : bool)
| VNum (q : Q)
| VStr (s : string)
| VDict (items : list (string * value))
| VList (elems : list value).

Definition dict : Type := list (string * value).

(** [bool(v)]. *)
Definition truthy (v : value) : bool :=
  match v with
  | VNone => false
  | VBool b => b
  | VNum q => negb (Qeqb q 0)
  | VStr s => negb (String.eqb s "")
  | VDict items => match items with [] => false | _ => true end
  | VList elems => match elems with [] => false | _ => true end
  end.

(** [a or b]. *)
Definition or_ (a b : value) : value := if truthy a then a else b.

Definition is_none (v : value) : bool :=
  match v with VNone => true | _ => false end.

(** Association lists stand for dicts; the first binding of a key is the
    live one and insertion keeps the position of an existing key. *)
Fixpoint lookup {A} (d : list (string * A)) (k : string) : option A :=
  match d with
  | [] => None
  | (k', v) :: rest => if String.eqb k k' then Some v else lookup rest k
  end.

Fixpoint store {A} (d : list (string * A)) (k : string) (v : A)
  : list (string * A) :=
  match d with
  | [] => [(k, v)]
  | (k', v') :: rest =>
      if String.eqb k k' then (k, v) :: rest else (k', v') :: store rest k v
  end.

(** [d.get(k)]. *)
Definition dict_get (d : dict) (k : string) : value :=
  match lookup d k with Some v => v | None => VNone end.

(** [d.get(k, default)]. *)
Definition dict_get_default (d : dict) (k : string) (default : value) : value :=
  match lookup d k with Some v => v | None => default end.

(** [v.get(k)] on an arbitrary value: only dicts have [get]. *)
Definition get (v : value) (k : string) : result value :=
  match v with
  | VDict d => Ok (dict_get d k)
  | _ => Raise AttributeError
  end.

Definition get_default (v : value) (k : string) (default : value)
  : result value :=
  match v with
  | VDict d => Ok (dict_get_default d k default)
  | _ => Raise AttributeError
  end.

(** [v.items()]. *)
Definition items (v : value) : result dict :=
  match v with
  | VDict d => Ok d
  | _ => Raise AttributeError
  end.

(** [s.upper()] on ASCII letters. *)
Definition upper_ascii (c : ascii) : ascii :=
  let n := nat_of_ascii c in
  if (97 <=? n)%nat && (n <=? 122)%nat then ascii_of_nat (n - 32) else c.

Fixpoint upper (s : string) : string :=
  match s with
  | EmptyString => EmptyString
  | String c rest => String (upper_ascii c) (upper rest)
  end.

(** *** Decimal numerals

    [Decimal(s)] strips the white space around [s], drops every
    underscore, and then expects an optional sign followed by

    - digits with an optional decimal point (at least one digit in all)
      and an optional exponent introduced by e or E, or
    - Inf or Infinity, or
    - NaN or sNaN with optional diagnostic digits,

    letters in either case.  Strings are sequences of characters with
    code points below 256. *)

Inductive literal : Type :=
| Finite (q : Q)
| Infinity (negative : bool)
| NaN.

Definition digit_of (c : ascii) : option Z :=
  let n := nat_of_ascii c in
  if (48 <=? n)%nat && (n <=? 57)%nat then Some (Z.of_nat (n - 48)) else None.

Fixpoint read_digits (s : string) (acc : Z) (count : nat)
  : Z * nat * string :=
  match s with
  | EmptyString => (acc, count, s)
  | String c rest =>
      match digit_of c with
      | Some d => read_digits rest (10 * acc + d)%Z (S count)
      | None => (acc, count, s)
      end
  end.

Definition read_sign (s : string) : bool * string :=
  match s with
  | String "-" rest => (true, rest)
  | String "+" rest => (false, rest)
  | _ => (false, s)
  end.

(** The characters [str.strip] removes. *)
Definition is_space (c : ascii) : bool :=
  let n := nat_of_ascii c in
  (n =? 32)%nat || ((9 <=? n)%nat && (n <=? 13)%nat)
  || ((28 <=? n)%nat && (n <=? 31)%nat) || (n =? 133)%nat || (n =? 160)%nat.

Fixpoint lstrip (s : string) : string :=
  match s with
  | String c rest => if is_space c then lstrip rest else s
  | EmptyString => s
  end.

Fixpoint rstrip (s : string) : string :=
  match s with
  | EmptyString => EmptyString
  | String c rest =>
      match rstrip rest with
      | EmptyString => if is_space c then EmptyString else String c EmptyString
      | rest' => String c rest'
      end
  end.

Definition strip (s : string) : string := rstrip (lstrip s).

Fixpoint remove_underscores (s : string) : string :=
  match s with
  | EmptyString => EmptyString
  | String c rest =>
      if Ascii.eqb c "_" then remove_underscores rest
      else String c (remove_underscores rest)
  end.

(** [mantissa * 10 ^ exponent]. *)
Definition scale10 (mantissa exponent : Z) : Q :=
  match exponent with
  | Z0 => inject_Z mantissa
  | Zpos p => inject_Z (mantissa * 10 ^ Zpos p)
  | Zneg p => Qred (mantissa # (10 ^ p))
  end.

Definition signed (negative : bool) (z : Z) : Z :=
  if negative then (- z)%Z else z.

(** The exponents a [Decimal] can hold at all (64-bit builds): the
    exponent of the last digit is at least -1999999999999999997 and that
    of the leading digit at most 999999999999999999. *)
Definition holds (mantissa exponent : Z) : bool :=
  let leading :=
    if (mantissa =? 0)%Z then exponent
    else (exponent + Rounding.digits 10 mantissa - 1)%Z in
  (-1999999999999999997 <=? exponent)%Z && (leading <=? 999999999999999999)%Z.

Definition finite (negative : bool) (mantissa exponent : Z)
  : option literal :=
  if holds mantissa exponent
  then Some (Finite (scale10 (signed negative mantissa) exponent))
  else None.

Definition read_number (negative : bool) (s : string) : option literal :=
  let '(int_part, n_int, s2) := read_digits s 0%Z 0%nat in
  let '(mantissa, n_frac, s3) :=
    match s2 with
    | String "." rest => read_digits rest int_part 0%nat
    | _ => (int_part, 0%nat, s2)
    end in
  if (n_int + n_frac =? 0)%nat then None
  else
    match s3 with
    | EmptyString => finite negative mantissa (- Z.of_nat n_frac)
    | String c rest =>
        if Ascii.eqb c "e" || Ascii.eqb c "E" then
          let (exp_negative, r1) := read_sign rest in
          let '(e, n_exp, r2) := read_digits r1 0%Z 0%nat in
          match r2 with
          | EmptyString =>
              if (n_exp =? 0)%nat then None
              else finite negative mantissa
                          (signed exp_negative e - Z.of_nat n_frac)
          | _ => None
          end
        else None
    end.

Definition read_nan (s : string) : option literal :=
  let '(_, _, rest) := read_digits s 0%Z 0%nat in
  match rest with
  | EmptyString => Some NaN
  | _ => None
  end.

Definition read_special (negative : bool) (s : string) : option literal :=
  let u := upper s in
  if String.eqb u "INF" || String.eqb u "INFINITY" then Some (Infinity negative)
  else
    match u with
    | String "N" (String "A" (String "N" rest)) => read_nan rest
    | String "S" (String "N" (String "A" (String "N" rest))) => read_nan rest
    | _ => None
    end.

Definition read_literal (s : string) : option literal :=
  let (negative, body) := read_sign (remove_underscores (strip s)) in
  match read_number negative body with
  | Some l => Some l
  | None => read_special negative body
  end.

(** The finite numerals. *)
Definition parse_decimal (s : string) : option Q :=
  match read_literal s with
  | Some (Finite q) => Some q
  | _ => None
  end.

(** [Decimal(str(v))]: numbers print to a numeral of their own value,
    strings are parsed, everything else prints to a non-numeral.  Only a
    finite numeral is answered with its value. *)
Definition decimal_of (v : value) : result Q :=
  match v with
  | VNum q => Ok q
  | VStr s =>
      match parse_decimal s with
      | Some q => Ok q
      | None => Raise InvalidOperation
      end
  | _ => Raise InvalidOperation
  end.

End Py.


(** ** The decimal context

    [decimal.getcontext()] is never changed by the services: precision 28,
    [ROUND_HALF_EVEN], [Emin = -999999], [Emax = 999999].  An operation
    rounds its exact result; a result too large for [Emax] raises, one
    too small for [Emin] loses digits down to zero without raising. *)

Module Ctx.

Definition prec : Z := 28.
Definition Emax : Z := 999999.
Definition Emin : Z := -999999.
Definition Etiny : Z := Emin - prec + 1.

Definition round (q : Q) : result Q :=
  let r := Rounding.round 10 prec Etiny q in
  if Rounding.above 10 Emax r then Raise Overflow else Ok r.

(** [abs(x)], [x + y], [x - y], [x * y], [x / y]. *)
Definition abs (x : Q) : result Q := round (Qabs x).
Definition add (x y : Q) : result Q := round (x + y).
Definition sub (x y : Q) : result Q := round (x - y).
Definition mul (x y : Q) : result Q := round (x * y).

Definition div (x y : Q) : result Q :=
  if Qeqb y 0 then
    Raise (if Qeqb x 0 then InvalidOperation else DivisionByZero)
  else round (x / y).

(** The result of an operation on [q] is [q] itself. *)
Definition exact (q : Q) : bool :=
  match round q with
  | Ok r => Qeqb r q
  | Raise _ => false
  end.

End Ctx.

(** ** Extended numbers *)

(** [Decimal]: a finite value, or [Decimal("inf")] / [Decimal("-inf")]. *)
Inductive Decimal : Type :=
| Fin (q : Q)
| Inf (negative : bool).

Definition Decimal_inf : Decimal := Inf false.

(** [a == b] on decimals. *)
Definition dec_eqb (a b : Decimal) : bool :=
  match a, b with
  | Fin x, Fin y => Qeqb x y
  | Inf s, Inf t => Bool.eqb s t
  | _, _ => false
  end.

(** [a <= b] on decimals. *)
Definition dec_leb (a b : Decimal) : bool :=
  match a, b with
  | Fin x, Fin y => Qleb x y
  | Inf true, _ => true
  | _, Inf false => true
  | _, _ => false
  end.

(** [a < b] on decimals. *)
Definition dec_ltb (a b : Decimal) : bool := negb (dec_leb b a).

(** Python [float]: a finite value, an infinity or NaN. *)
Inductive float : Type :=
| FFin (q : Q)
| FInf (negative : bool)
| FNaN.

(** The binary64 number nearest to [q], half to even: 53 digits, the
    exponent of the last one no lower than -1074, and an infinity when
    the leading exponent would exceed 1023. *)
Definition round64 (q : Q) : float :=
  let r := Rounding.round 2 53 (-1074) q in
  if Rounding.above 2 1023 r then FInf (negb (Qleb 0 q)) else FFin r.

(** [float(d)]. *)
Definition float_of_Decimal (d : Decimal) : float :=
  match d with
  | Fin q => round64 q
  | Inf s => FInf s
  end.

(** IEEE comparisons: every comparison with NaN is false. *)
Definition fle (a b : float) : bool :=
  match a, b with
  | FNaN, _ | _, FNaN => false
  | FFin x, FFin y => Qleb x y
  | FInf true, _ => true
  | _, FInf false => true
  | _, _ => false
  end.

Definition flt (a b : float) : bool :=
  match a, b with
  | FNaN, _ | _, FNaN => false
  | FFin x, FFin y => Qltb x y
  | FInf s, FInf t => s && negb t
  | FInf s, FFin _ => s
  | FFin _, FInf t => negb t
  end.

(** [a - b]. *)
Definition fsub (a b : float) : float :=
  match a, b with
  | FNaN, _ | _, FNaN => FNaN
  | FFin x, FFin y => round64 (x - y)
  | FInf s, FFin _ => FInf s
  | FFin _, FInf t => FInf (negb t)
  | FInf s, FInf t => if Bool.eqb s t then FNaN else FInf s
  end.

(** [abs(a)]. *)
Definition fabs (a : float) : float :=
  match a with
  | FFin x => FFin (Qabs x)
  | FInf _ => FInf false
  | FNaN => FNaN
  end.

Definition fadd (a b : float) : float :=
  match a, b with
  | FNaN, _ | _, FNaN => FNaN
  | FFin x, FFin y => round64 (x + y)
  | FInf s, FFin _ => FInf s
  | FFin _, FInf t => FInf t
  | FInf s, FInf t => if Bool.eqb s t then FInf s else FNaN
  end.

(** Truthiness of a float: zero is false (NaN and the infinities are true). *)
Definition float_truthy (a : float) : bool :=
  match a with
  | FFin x => negb (Qeqb x 0)
  | _ => true
  end.

(** ** app/services/risk_calculator.py *)

Module RiskCalculator.

(** One entry of [position_metrics]; every number went through
    [_safe_float].  The keys that [RiskMetrics] has as well carry the
    prefix [pm_] here. *)
Record PositionRiskMetrics : Type := {
  margin_mode : Py.value;
  size : option float;
  entry_price : option float;
  oracle_price : option float;
  maintenance_margin_fraction : option float;
  initial_margin_fraction : option float;
  pm_maintenance_requirement : option float;
  pm_initial_requirement : option float;
  pm_maintenance_margin_percent : option float;
  pm_initial_margin_percent : option float;
  position_value : option float;
  unrealized_pnl : option float;
  unrealized_pnl_percent : option float;
  funding_payment : option float;
  realized_pnl : option float;
  leverage : option float;
  leverage_on_equity : option float;
  leverage_on_initial_margin : option float;
  pm_liquidation_distance_percent : option float;
  isolated_liquidation_price : option float;
  cross_liquidation_price : option float;
  fillable_price : option float;
  protocol_liquidation_price : option float
}.

(** class RiskMetrics *)
Record RiskMetrics : Type := {
  equity : Decimal;
  maintenance_requirement : Decimal;
  initial_requirement : Decimal;
  margin_ratio : Decimal;
  liquidation_distance_percent : Decimal;
  free_collateral : Decimal;
  positions : Py.dict;
  position_metrics : list (string * PositionRiskMetrics);
  max_liquidation_penalty : option Decimal;
  initial_margin_percent : option Decimal;
  maintenance_margin_percent : option Decimal
}.

(** The dictionary built by [RiskMetrics.to_dict]. *)
Record MetricsDict : Type := {
  d_equity : option float;
  d_maintenance_requirement : option float;
  d_initial_requirement : option float;
  d_margin_ratio : option float;
  d_liquidation_distance_percent : option float;
  d_free_collateral : option float;
  d_initial_margin_percent : option float;
  d_maintenance_margin_percent : option float;
  d_positions : Py.dict;
  d_position_metrics : list (string * PositionRiskMetrics);
  d_max_liquidation_penalty : option float
}.

(** [safe_float] local to [to_dict]: infinities become [None]. *)
Definition safe_float (value : option Decimal) : option float :=
  match value with
  | None => None
  | Some v =>
      if dec_eqb v (Inf false) || dec_eqb v (Inf true) then None
      else Some (float_of_Decimal v)
  end.

Definition to_dict (self : RiskMetrics) : MetricsDict :=
  {| d_equity := safe_float (Some (equity self));
     d_maintenance_requirement := safe_float (Some (maintenance_requirement self));
     d_initial_requirement := safe_float (Some (initial_requirement self));
     d_margin_ratio := safe_float (Some (margin_ratio self));
     d_liquidation_distance_percent :=
       safe_float (Some (liquidation_distance_percent self));
     d_free_collateral := safe_float (Some (free_collateral self));
     d_initial_margin_percent :=
       match initial_margin_percent self with
       | Some v => safe_float (Some v)
       | None => None
       end;
     d_maintenance_margin_percent :=
       match maintenance_margin_percent self with
       | Some v => safe_float (Some v)
       | None => None
       end;
     d_positions := positions self;
     d_position_metrics := position_metrics self;
     d_max_liquidation_penalty := safe_float (max_liquidation_penalty self) |}.

Definition default_maintenance_margin_fraction : Q := 3 # 100.
Definition default_initial_margin_fraction : Q := 5 # 100.

(** [_safe_decimal]. *)
Definition _safe_decimal (value : Py.value) : option Q :=
  match value with
  | Py.VNone => None
  | _ => try_except (q <- Py.decimal_of value ;; Ok (Some q)) None
  end.

(** [_safe_float] of the calculator: finite decimals convert. *)
Definition _safe_float (value : option Q) : option float :=
  match value with
  | None => None
  | Some q => Some (FFin q)
  end.

(** [markets.get(market)] behind the [if not markets] guard: [None] when
    the table is missing or empty. *)
Definition market_entry (market : string) (markets : option Py.dict)
  : option Py.value :=
  match markets with
  | None => None
  | Some [] => None
  | Some table => Some (Py.dict_get table market)
  end.

Definition _resolve_market_fraction (market : string)
  (markets : option Py.dict) : result Q :=
  match market_entry market markets with
  | None => Ok default_maintenance_margin_fraction
  | Some market_info =>
      if negb (Py.truthy market_info) then Ok default_maintenance_margin_fraction
      else
        fraction <- Py.get market_info "maintenance_margin_fraction" ;;
        if Py.is_none fraction then Ok default_maintenance_margin_fraction
        else Ok (try_except (Py.decimal_of fraction)
                            default_maintenance_margin_fraction)
  end.

Definition _resolve_initial_fraction (market : string)
  (markets : option Py.dict) : result Q :=
  match market_entry market markets with
  | None => Ok default_initial_margin_fraction
  | Some market_info =>
      if negb (Py.truthy market_info) then Ok default_initial_margin_fraction
      else
        a <- Py.get market_info "initial_margin_fraction" ;;
        b <- Py.get market_info "initialMarginFraction" ;;
        let fraction := Py.or_ a b in
        if Py.is_none fraction then
          c <- Py.get market_info "initial_margin_fraction_ppm" ;;
          d <- Py.get market_info "initialMarginFractionPpm" ;;
          let ppm_value := Py.or_ c d in
          if Py.is_none ppm_value then Ok default_initial_margin_fraction
          else
            match Py.decimal_of ppm_value with
            | Ok ppm => Ok (ppm / 1000000)
            | Raise _ => Ok default_initial_margin_fraction
            end
        else Ok (try_except (Py.decimal_of fraction)
                            default_initial_margin_fraction)
  end.

(** [_safe_decimal(info.get(k1) or info.get(k2))]. *)
Definition get_decimal2 (info : Py.value) (k1 k2 : string)
  : result (option Q) :=
  a <- Py.get info k1 ;;
  b <- Py.get info k2 ;;
  Ok (_safe_decimal (Py.or_ a b)).

(** The arithmetic of [calculate_effective_imf] once its inputs are read. *)
Definition scaled_imf (base_imf open_notional lower_cap upper_cap : Q) : Q :=
  let scaling_factor := (open_notional - lower_cap) / (upper_cap - lower_cap) in
  let scaling_factor := Qmaxb 0 (Qminb 1 scaling_factor) in
  let imf_increase := scaling_factor * (1 - base_imf) in
  let imf_increase := Qmaxb 0 imf_increase in
  Qminb (base_imf + imf_increase) 1.

Definition calculate_effective_imf (market : string)
  (markets : option Py.dict) : result Q :=
  base_imf <- _resolve_initial_fraction market markets ;;
  match market_entry market markets with
  | None => Ok base_imf
  | Some market_info =>
      if negb (Py.truthy market_info) then Ok base_imf
      else
        Ok (try_except
              (open_interest <- get_decimal2 market_info "openInterest" "open_interest" ;;
               oracle <- get_decimal2 market_info "oraclePrice" "oracle_price" ;;
               match open_interest, oracle with
               | Some open_interest, Some oracle =>
                   let open_notional := Qabs (open_interest * oracle) in
                   lower_cap <- get_decimal2 market_info "openInterestLowerCap"
                                             "open_interest_lower_cap" ;;
                   upper_cap <- get_decimal2 market_info "openInterestUpperCap"
                                             "open_interest_upper_cap" ;;
                   match lower_cap, upper_cap with
                   | Some lower_cap, Some upper_cap =>
                       if Qeqb upper_cap lower_cap then Ok base_imf
                       else Ok (scaled_imf base_imf open_notional lower_cap upper_cap)
                   | _, _ => Ok base_imf
                   end
               | _, _ => Ok base_imf
               end)
              base_imf)
  end.

Definition calculate_margin_ratio (equity maintenance_requirement : Q)
  : Decimal :=
  if Qeqb maintenance_requirement 0 then Decimal_inf
  else Fin (equity / maintenance_requirement).

Definition calculate_liquidation_distance (margin_ratio : Decimal) : Decimal :=
  if dec_eqb margin_ratio Decimal_inf then Decimal_inf
  else
    match margin_ratio with
    | Fin r => Fin ((r - 1) * 100)
    | Inf s => Inf s
    end.

(** The price lookup shared by the two requirement loops: the market
    table first, then the first price-like field of the position. *)
Fixpoint first_price_field (position : Py.value) (fields : list string)
  : result (option Q) :=
  match fields with
  | [] => Ok None
  | field :: rest =>
      field_value <- Py.get position field ;;
      if Py.is_none field_value then first_price_field position rest
      else
        price_value <- Py.decimal_of field_value ;;
        Ok (Some price_value)
  end.

Definition price_fields : list string :=
  ["oraclePrice"; "indexPrice"; "markPrice"; "entryPrice"; "price"]%string.

Definition requirement_price (market : string) (markets : option Py.dict)
  (position : Py.value) : result (option Q) :=
  from_market <-
    match market_entry market markets with
    | Some market_info =>
        if Py.truthy market_info
        then get_decimal2 market_info "oracle_price" "oraclePrice"
        else Ok None
    | None => Ok None
    end ;;
  match from_market with
  | Some price_value => Ok (Some price_value)
  | None => first_price_field position price_fields
  end.

(** [abs(Decimal(str(position.get("size", "0"))))]. *)
Definition abs_size (position : Py.value) : result Q :=
  raw <- Py.get_default position "size" (Py.VStr "0") ;;
  size <- Py.decimal_of raw ;;
  Ok (Qabs size).

(** Body of the [try] block of [calculate_maintenance_requirement] for one
    position: [Ok None] is [continue], [Raise] is caught by the loop. *)
Definition maintenance_requirement_of (markets : option Py.dict)
  (market : string) (position : Py.value) : result (option Q) :=
  size <- abs_size position ;;
  price <- requirement_price market markets position ;;
  match price with
  | None => Ok None
  | Some price_value =>
      let notional := size * price_value in
      if Qeqb notional 0 then Ok None
      else
        fraction <- _resolve_market_fraction market markets ;;
        fraction <-
          (if Qeqb fraction default_maintenance_margin_fraction then
             direct <- Py.get position "maintenanceMarginFraction" ;;
             ppm <- Py.get position "maintenanceMarginFractionPpm" ;;
             let override_fraction : option (result Q) :=
               if Py.is_none direct then
                 if Py.is_none ppm then None
                 else
                   match Py.decimal_of ppm with
                   | Ok q => Some (Ok (q / 1000000))
                   | Raise _ => None
                   end
               else Some (Py.decimal_of direct) in
             match override_fraction with
             | Some (Ok q) => Ok q
             | _ => Ok fraction
             end
           else Ok fraction) ;;
        Ok (Some (notional * fraction))
  end.

Definition initial_requirement_of (markets : option Py.dict)
  (market : string) (position : Py.value) : result (option Q) :=
  size <- abs_size position ;;
  price <- requirement_price market markets position ;;
  match price with
  | None => Ok None
  | Some price_value =>
      let notional := size * price_value in
      if Qeqb notional 0 then Ok None
      else
        fraction <- calculate_effective_imf market markets ;;
        fraction <-
          (if Qeqb fraction default_initial_margin_fraction then
             a <- Py.get position "initialMarginFraction" ;;
             b <- Py.get position "initial_margin_fraction" ;;
             let override_fraction := Py.or_ a b in
             if Py.is_none override_fraction then Ok fraction
             else Ok (try_except (Py.decimal_of override_fraction) fraction)
           else Ok fraction) ;;
        Ok (Some (notional * fraction))
  end.

(** The [for market, position in positions.items()] loop of both
    requirement functions; an exception in the body skips the position. *)
Fixpoint requirement_loop (body : string -> Py.value -> result (option Q))
  (items : Py.dict) (total_requirement : Q) (details : list (string * Q))
  : Q * list (string * Q) :=
  match items with
  | [] => (total_requirement, details)
  | (market, position) :: rest =>
      match body market position with
      | Ok (Some requirement) =>
          requirement_loop body rest (total_requirement + requirement)
                           (Py.store details market requirement)
      | _ => requirement_loop body rest total_requirement details
      end
  end.

Definition calculate_maintenance_requirement (positions : Py.value)
  (markets : option Py.dict) (details : list (string * Q))
  : result (Q * list (string * Q)) :=
  items <- Py.items positions ;;
  Ok (requirement_loop (maintenance_requirement_of markets) items 0 details).

Definition calculate_initial_requirement (positions : Py.value)
  (markets : option Py.dict) (details : list (string * Q))
  : result (Q * list (string * Q)) :=
  items <- Py.items positions ;;
  Ok (requirement_loop (initial_requirement_of markets) items 0 details).

(** The denominator is computed outside the [try] of the two
    liquidation-price functions: an overflow there reaches the caller,
    an overflow under the [try] gives [None]. *)
Definition calculate_isolated_liquidation_price (equity size : Q)
  (oracle_price : option Q) (maintenance_fraction : Q) : result (option Q) :=
  match oracle_price with
  | None => Ok None
  | Some oracle_price =>
      magnitude <- Ctx.abs size ;;
      scaled <- Ctx.mul magnitude maintenance_fraction ;;
      denominator <- Ctx.sub scaled size ;;
      if Qeqb denominator 0 then Ok None
      else
        Ok (try_except
              (value <- Ctx.mul size oracle_price ;;
               numerator <- Ctx.sub equity value ;;
               price <- Ctx.div numerator denominator ;;
               Ok (Some price))
              None)
  end.

Definition calculate_cross_liquidation_price (equity size oracle_price
  maintenance_fraction other_requirements : Q) : result (option Q) :=
  magnitude <- Ctx.abs size ;;
  scaled <- Ctx.mul magnitude maintenance_fraction ;;
  denominator <- Ctx.sub scaled size ;;
  if Qeqb denominator 0 then Ok None
  else
    Ok (try_except
          (value <- Ctx.mul size oracle_price ;;
           own <- Ctx.sub equity value ;;
           numerator <- Ctx.sub own other_requirements ;;
           price <- Ctx.div numerator denominator ;;
           Ok (Some price))
          None).

(** [not x or x <= 0] for an optional decimal. *)
Definition missing_or_nonpositive (x : option Q) : bool :=
  match x with
  | None => true
  | Some q => Qeqb q 0 || Qleb q 0
  end.

Definition calculate_fillable_price (oracle_price : option Q)
  (maintenance_fraction equity total_requirement : Q)
  (market_info : Py.value) : result (option Q) :=
  match oracle_price with
  | None => Ok None
  | Some oracle_price =>
      if Qleb oracle_price 0 then Ok None
      else if Py.is_none market_info then Ok None
      else
        s <- Py.get market_info "spread_to_mmr_ratio" ;;
        b <- Py.get market_info "bankruptcy_adjustment" ;;
        let spread_ratio := _safe_decimal s in
        let bankruptcy_adjustment := _safe_decimal b in
        if missing_or_nonpositive spread_ratio then Ok None
        else if missing_or_nonpositive bankruptcy_adjustment then Ok None
        else
          match spread_ratio, bankruptcy_adjustment with
          | Some spread_ratio, Some bankruptcy_adjustment =>
              let Q0 := if Qltb 0 total_requirement
                        then equity / total_requirement else 0 in
              let Q1 := Qminb (Qmaxb Q0 0) 1 in
              let adjustment :=
                (spread_ratio * maintenance_fraction)
                * (bankruptcy_adjustment * (1 - Q1)) in
              Ok (Some (oracle_price * (1 - adjustment)))
          | _, _ => Ok None
          end
  end.

(** [_sanitize], the closure defined inside [calculate_risk_metrics]. *)
Definition _sanitize (price : option Q) : option Q :=
  match price with
  | None => None
  | Some p =>
      if Qleb p 0 then None
      else if Qltb 10000000 p then None
      else Some p
  end.

(** *** calculate_risk_metrics *)

(** The dictionaries the position loop reads and updates. *)
Record LoopState : Type := {
  ls_position_metrics : list (string * PositionRiskMetrics);
  ls_total_position_notional : Q;
  per_position_requirements : list (string * Q);
  per_position_initial_requirements : list (string * Q);
  per_position_raw_maintenance : list (string * Q);
  per_position_raw_initial : list (string * Q)
}.

(** Side and sign resolution of the position size. *)
Definition signed_size (position : Py.value) (raw_size : Q) : result Q :=
  a <- Py.get position "side" ;;
  b <- Py.get position "positionSide" ;;
  is_long <- Py.get position "isLong" ;;
  is_short <- Py.get position "isShort" ;;
  match Py.or_ a b with
  | Py.VStr side =>
      let normalized := Py.upper side in
      if String.eqb normalized "SHORT" || String.eqb normalized "SELL"
      then Ok (- Qabs raw_size)
      else if String.eqb normalized "LONG" || String.eqb normalized "BUY"
      then Ok (Qabs raw_size)
      else Ok raw_size
  | _ =>
      if negb (Py.is_none is_long) then
        Ok (if Py.truthy is_long then Qabs raw_size else - Qabs raw_size)
      else if negb (Py.is_none is_short) then
        Ok (if Py.truthy is_short then - Qabs raw_size else Qabs raw_size)
      else Ok raw_size
  end.

(** [(position.get("marginMode") or "CROSS").upper()]. *)
Definition margin_mode_of (position : Py.value) : result string :=
  raw <- Py.get position "marginMode" ;;
  match Py.or_ raw (Py.VStr "CROSS") with
  | Py.VStr mode => Ok (Py.upper mode)
  | _ => Raise AttributeError
  end.

Definition lookup_or_zero (d : list (string * Q)) (k : string) : Q :=
  match Py.lookup d k with Some q => q | None => 0 end.

(** [x if c else None] for a decimal truthiness test [c]. *)
Definition nonzero (q : Q) : bool := negb (Qeqb q 0).

(** One iteration of the position loop once the size is known to be
    present and non-zero. *)
Definition position_step (markets : option Py.dict)
  (equity maintenance_requirement : Q)
  (market : string) (position : Py.value) (raw_size : Q) (st : LoopState)
  : result LoopState :=
  size <- signed_size position raw_size ;;
  entry_price <- get_decimal2 position "entryPrice" "averageEntryPrice" ;;
  maintenance_fraction <- _resolve_market_fraction market markets ;;
  let market_info :=
    match market_entry market markets with
    | Some info => info
    | None => Py.VNone
    end in
  from_market <-
    (if Py.truthy market_info
     then get_decimal2 market_info "oracle_price" "oraclePrice"
     else Ok None) ;;
  from_position <-
    match from_market with
    | Some p => Ok (Some p)
    | None => get_decimal2 position "oraclePrice" "indexPrice"
    end ;;
  let oracle_price :=
    match from_position with
    | Some p => Some p
    | None => entry_price
    end in
  initial_fraction <- calculate_effective_imf market markets ;;
  let requirement := lookup_or_zero (per_position_requirements st) market in
  let initial_req :=
    lookup_or_zero (per_position_initial_requirements st) market in
  let other_requirements :=
    let o := maintenance_requirement - requirement in
    if Qltb o 0 then 0 else o in
  n1 <- Py.get position "openNotional" ;;
  n2 <- Py.get position "positionValue" ;;
  n3 <- Py.get position "notional" ;;
  n4 <- Py.get position "notionalValue" ;;
  let position_notional :=
    match oracle_price with
    | Some p => Some (Qabs size * p)
    | None =>
        match _safe_decimal (Py.or_ (Py.or_ (Py.or_ n1 n2) n3) n4) with
        | Some raw_position_value => Some (Qabs raw_position_value)
        | None => None
        end
    end in
  raw_m <- Py.get position "maintenanceMarginRequirement" ;;
  let raw_maintenance_req := _safe_decimal raw_m in
  let requirement :=
    match raw_maintenance_req with Some r => r | None => requirement end in
  let requirements' :=
    match raw_maintenance_req with
    | Some r => Py.store (per_position_requirements st) market r
    | None => per_position_requirements st
    end in
  let raw_maintenance' :=
    match raw_maintenance_req with
    | Some r => Py.store (per_position_raw_maintenance st) market r
    | None => per_position_raw_maintenance st
    end in
  raw_i <- Py.get position "initialMarginRequirement" ;;
  let raw_initial_req := _safe_decimal raw_i in
  let initial_req :=
    match raw_initial_req with Some r => r | None => initial_req end in
  let initial_requirements' :=
    match raw_initial_req with
    | Some r => Py.store (per_position_initial_requirements st) market r
    | None => per_position_initial_requirements st
    end in
  let raw_initial' :=
    match raw_initial_req with
    | Some r => Py.store (per_position_raw_initial st) market r
    | None => per_position_raw_initial st
    end in
  let position_notional :=
    if nonzero initial_fraction
    then Some (Qabs (initial_req / initial_fraction))
    else position_notional in
  let position_notional :=
    match position_notional with
    | None =>
        if nonzero maintenance_fraction
        then Some (Qabs (requirement / maintenance_fraction))
        else None
    | Some n => Some n
    end in
  isolated_price <-
    match oracle_price with
    | Some p =>
        calculate_isolated_liquidation_price equity size (Some p)
                                             maintenance_fraction
    | None => Ok None
    end ;;
  cross_price <-
    match oracle_price with
    | Some p =>
        calculate_cross_liquidation_price equity size p maintenance_fraction
                                          other_requirements
    | None => Ok None
    end ;;
  fillable_price <-
    calculate_fillable_price oracle_price maintenance_fraction equity
                             maintenance_requirement market_info ;;
  l1 <- Py.get position "liquidationPrice" ;;
  l2 <- Py.get position "estimatedLiquidationPrice" ;;
  l3 <- Py.get position "liquidation_price" ;;
  let protocol_liquidation_price :=
    _safe_decimal (Py.or_ (Py.or_ l1 l2) l3) in
  let isolated_price := _sanitize isolated_price in
  let cross_price := _sanitize cross_price in
  let protocol_liquidation_price := _sanitize protocol_liquidation_price in
  margin_mode <- margin_mode_of position ;;
  let isolated_price :=
    match protocol_liquidation_price with
    | Some p => if String.eqb margin_mode "ISOLATED" then Some p
                else isolated_price
    | None => isolated_price
    end in
  let cross_price :=
    match protocol_liquidation_price with
    | Some p => if String.eqb margin_mode "ISOLATED" then cross_price
                else Some p
    | None => cross_price
    end in
  u1 <- Py.get position "unrealizedPnl" ;;
  u2 <- Py.get position "unrealizedPnlUsd" ;;
  u3 <- Py.get position "pnl" ;;
  let unrealized_pnl_decimal := _safe_decimal (Py.or_ (Py.or_ u1 u2) u3) in
  let entry_value :=
    match entry_price with
    | Some e =>
        if nonzero size && nonzero e then Some (Qabs (size * e)) else None
    | None => None
    end in
  let unrealized_pnl_percent :=
    match unrealized_pnl_decimal, entry_value with
    | Some pnl, Some v => if nonzero v then Some ((pnl / v) * 100) else None
    | _, _ => None
    end in
  let position_liquidation_distance_percent :=
    match position_notional with
    | Some n =>
        if nonzero requirement then
          let position_equity_contribution :=
            n + match unrealized_pnl_decimal with
                | Some pnl => if nonzero pnl then pnl else 0
                | None => 0
                end in
          if Qltb 0 position_equity_contribution then
            let position_margin_ratio :=
              position_equity_contribution / requirement in
            Some ((position_margin_ratio - 1) * 100)
          else None
        else None
    | None => None
    end in
  raw_mode <- Py.get position "marginMode" ;;
  f1 <- Py.get position "fundingPayment" ;;
  f2 <- Py.get position "funding" ;;
  r1 <- Py.get position "realizedPnl" ;;
  r2 <- Py.get position "realizedPnlUsd" ;;
  let leverage_value :=
    match position_notional with
    | Some n => if nonzero equity then Some (n / equity) else None
    | None => None
    end in
  let entry : PositionRiskMetrics :=
    {| margin_mode := raw_mode;
       size := _safe_float (Some size);
       entry_price := _safe_float entry_price;
       oracle_price := _safe_float oracle_price;
       maintenance_margin_fraction := _safe_float (Some maintenance_fraction);
       initial_margin_fraction := _safe_float (Some initial_fraction);
       pm_maintenance_requirement := _safe_float (Some requirement);
       pm_initial_requirement := _safe_float (Some initial_req);
       pm_maintenance_margin_percent :=
         _safe_float (Some (maintenance_fraction * 100));
       pm_initial_margin_percent :=
         _safe_float (Some (initial_fraction * 100));
       position_value := _safe_float position_notional;
       unrealized_pnl := _safe_float unrealized_pnl_decimal;
       unrealized_pnl_percent := _safe_float unrealized_pnl_percent;
       funding_payment := _safe_float (_safe_decimal (Py.or_ f1 f2));
       realized_pnl := _safe_float (_safe_decimal (Py.or_ r1 r2));
       leverage := _safe_float leverage_value;
       leverage_on_equity := _safe_float leverage_value;
       leverage_on_initial_margin :=
         _safe_float (if nonzero initial_fraction
                      then Some (1 / initial_fraction) else None);
       pm_liquidation_distance_percent :=
         _safe_float position_liquidation_distance_percent;
       isolated_liquidation_price := _safe_float isolated_price;
       cross_liquidation_price := _safe_float cross_price;
       fillable_price := _safe_float fillable_price;
       protocol_liquidation_price := _safe_float protocol_liquidation_price |} in
  Ok {| ls_position_metrics := Py.store (ls_position_metrics st) market entry;
        ls_total_position_notional :=
          match position_notional with
          | Some n => ls_total_position_notional st + n
          | None => ls_total_position_notional st
          end;
        per_position_requirements := requirements';
        per_position_initial_requirements := initial_requirements';
        per_position_raw_maintenance := raw_maintenance';
        per_position_raw_initial := raw_initial' |}.

(** The [for market, position in positions.items()] loop of
    [calculate_risk_metrics]; nothing is caught inside it. *)
Fixpoint position_loop (markets : option Py.dict)
  (equity maintenance_requirement : Q) (items : Py.dict) (st : LoopState)
  : result LoopState :=
  match items with
  | [] => Ok st
  | (market, position) :: rest =>
      raw <- Py.get position "size" ;;
      match _safe_decimal raw with
      | None => position_loop markets equity maintenance_requirement rest st
      | Some raw_size =>
          if Qeqb raw_size 0
          then position_loop markets equity maintenance_requirement rest st
          else
            st' <- position_step markets equity maintenance_requirement
                                 market position raw_size st ;;
            position_loop markets equity maintenance_requirement rest st'
      end
  end.

(** [sum(d.values())]. *)
Definition sum_values (d : list (string * Q)) : Q :=
  fold_left (fun acc kv => acc + snd kv) d 0.

(** The [try] block of [calculate_risk_metrics]. *)
Definition risk_metrics_body (subaccount_data : Py.value)
  (markets : option Py.dict) : result RiskMetrics :=
  raw_equity <- Py.get_default subaccount_data "equity" (Py.VStr "0") ;;
  equity <- Py.decimal_of raw_equity ;;
  fc1 <- Py.get subaccount_data "free_collateral" ;;
  fc2 <- Py.get subaccount_data "freeCollateral" ;;
  let api_free_collateral := _safe_decimal (Py.or_ fc1 fc2) in
  positions <- Py.get_default subaccount_data "positions" (Py.VDict []) ;;
  m <- calculate_maintenance_requirement positions markets [] ;;
  let (maintenance_requirement, requirements) := m in
  i <- calculate_initial_requirement positions markets [] ;;
  let (initial_requirement, initial_requirements) := i in
  let free_collateral :=
    match api_free_collateral with
    | Some f => f
    | None => equity - initial_requirement
    end in
  let margin_ratio := calculate_margin_ratio equity maintenance_requirement in
  let liquidation_distance := calculate_liquidation_distance margin_ratio in
  items <- Py.items positions ;;
  st <- position_loop markets equity maintenance_requirement items
          {| ls_position_metrics := [];
             ls_total_position_notional := 0;
             per_position_requirements := requirements;
             per_position_initial_requirements := initial_requirements;
             per_position_raw_maintenance := [];
             per_position_raw_initial := [] |} ;;
  let max_penalty_rate := 15 # 1000 in
  let max_liquidation_penalty :=
    if Qltb 0 equity then Some (Fin (equity * max_penalty_rate)) else None in
  let raw_initial := per_position_raw_initial st in
  let raw_maintenance := per_position_raw_maintenance st in
  let initial_requirement' :=
    match raw_initial with [] => initial_requirement | _ => sum_values raw_initial end in
  let free_collateral' :=
    match raw_initial with
    | [] => free_collateral
    | _ => match api_free_collateral with
           | Some f => f
           | None => equity - initial_requirement'
           end
    end in
  let maintenance_requirement' :=
    match raw_maintenance with
    | [] => maintenance_requirement
    | _ => sum_values raw_maintenance
    end in
  let total_position_notional := ls_total_position_notional st in
  let with_percent (requirement : Q) : option Decimal :=
    if Qltb 0 total_position_notional
    then Some (Fin ((requirement / total_position_notional) * 100))
    else None in
  Ok {| equity := Fin equity;
        maintenance_requirement := Fin maintenance_requirement';
        initial_requirement := Fin initial_requirement';
        margin_ratio := margin_ratio;
        liquidation_distance_percent := liquidation_distance;
        free_collateral := Fin free_collateral';
        positions := items;
        position_metrics := ls_position_metrics st;
        max_liquidation_penalty := max_liquidation_penalty;
        initial_margin_percent := with_percent initial_requirement';
        maintenance_margin_percent := with_percent maintenance_requirement' |}.

(** The object returned by the [except] branch. *)
Definition safe_defaults : RiskMetrics :=
  {| equity := Fin 0;
     maintenance_requirement := Fin 0;
     initial_requirement := Fin 0;
     margin_ratio := Decimal_inf;
     liquidation_distance_percent := Decimal_inf;
     free_collateral := Fin 0;
     positions := [];
     position_metrics := [];
     max_liquidation_penalty := None;
     initial_margin_percent := None;
     maintenance_margin_percent := None |}.

Definition calculate_risk_metrics (subaccount_data : Py.value)
  (markets : option Py.dict) : RiskMetrics :=
  try_except (risk_metrics_body subaccount_data markets) safe_defaults.

(** [get_risk_status]. *)
Definition get_risk_status (liquidation_distance_percent : Decimal)
  (threshold : Q) : string :=
  if dec_eqb liquidation_distance_percent Decimal_inf then "safe"
  else if dec_leb liquidation_distance_percent (Fin 0) then "liquidated"
  else if dec_leb liquidation_distance_percent (Fin 5) then "critical"
  else if dec_leb liquidation_distance_percent (Fin threshold) then "warning"
  else "safe".

End RiskCalculator.

(** ** app/services/monitor_service.py: market normalisation *)

Module MonitorService.

(** The local [parse_decimal] of [_normalize_market_info]. *)
Definition parse_decimal (value : Py.value) : option Q :=
  RiskCalculator._safe_decimal value.

(** [a or b] on optional decimals: [None] and zero are both false. *)
Definition dec_or (a b : option Q) : option Q :=
  match a with
  | Some q => if RiskCalculator.nonzero q then Some q else b
  | None => b
  end.

(** [parse_decimal(d.get(k1)) or parse_decimal(d.get(k2))]. *)
Definition parse2 (d : Py.dict) (k1 k2 : string) : option Q :=
  dec_or (parse_decimal (Py.dict_get d k1)) (parse_decimal (Py.dict_get d k2)).

(** [info["config"]] when [isinstance(info.get("config"), dict)]. *)
Definition config_of (info : Py.dict) : option Py.dict :=
  match Py.dict_get info "config" with
  | Py.VDict c => Some c
  | _ => None
  end.

(** Resolution of a margin fraction: direct field, nested config, then the
    ppm-encoded field (top level, then config) divided by 1,000,000.  The
    source spells this block out twice, for the maintenance and for the
    initial fraction, with the key names as the only difference. *)
Definition resolve_fraction (info : Py.dict)
  (camel snake camel_ppm snake_ppm : string) : option Q :=
  let fraction := parse2 info camel snake in
  let fraction :=
    match fraction, config_of info with
    | None, Some config => parse2 config camel snake
    | _, _ => fraction
    end in
  match fraction with
  | Some f => Some f
  | None =>
      let ppm_value := parse2 info camel_ppm snake_ppm in
      let ppm_value :=
        match ppm_value, config_of info with
        | None, Some config => parse2 config camel_ppm snake_ppm
        | _, _ => ppm_value
        end in
      match ppm_value with
      | Some ppm => Some (ppm / 1000000)
      | None => None
      end
  end.

(** Lines 379-403: the effective initial margin fraction from the parsed
    locals; returns the effective fraction and the (possibly defaulted)
    base fraction. *)
Definition effective_initial_fraction
  (initial_fraction base_initial_fraction open_notional lower_cap upper_cap
     : option Q) : Q * option Q :=
  let effective :=
    match dec_or (dec_or initial_fraction base_initial_fraction)
                 (Some RiskCalculator.default_initial_margin_fraction) with
    | Some e => e
    | None => RiskCalculator.default_initial_margin_fraction
    end in
  let base_initial_fraction :=
    match base_initial_fraction, initial_fraction with
    | None, Some i => Some i
    | _, _ => base_initial_fraction
    end in
  match base_initial_fraction, open_notional, lower_cap, upper_cap with
  | Some base, Some open_notional, Some lower_cap, Some upper_cap =>
      if Qltb lower_cap upper_cap then
        let scaling_factor :=
          (open_notional - lower_cap) / (upper_cap - lower_cap) in
        let scaling_factor :=
          if Qltb scaling_factor 0 then 0 else scaling_factor in
        let imf_increase := scaling_factor * (1 - base) in
        let imf_increase := if Qltb imf_increase 0 then 0 else imf_increase in
        let effective := base + imf_increase in
        let effective := if Qltb 1 effective then 1 else effective in
        (effective, base_initial_fraction)
      else (effective, base_initial_fraction)
  | _, _, _, _ => (effective, base_initial_fraction)
  end.

(** The candidate loop shared by the spread ratio and the bankruptcy
    adjustment: the first candidate that is present and parses is kept,
    divided by 1,000,000 when it exceeds 10. *)
Fixpoint first_scaled (candidates : list Py.value) : option Q :=
  match candidates with
  | [] => None
  | candidate :: rest =>
      if Py.is_none candidate then first_scaled rest
      else
        match Py.decimal_of candidate with
        | Ok dec => Some (if Qltb 10 dec then dec / 1000000 else dec)
        | Raise _ => first_scaled rest
        end
  end.

(** [[info.get(k), info.get(k_ppm)]] extended by the same two keys of the
    nested config when there is one. *)
Definition candidates_of (info : Py.dict) (key key_ppm : string)
  : list Py.value :=
  [Py.dict_get info key; Py.dict_get info key_ppm]
  ++ match config_of info with
     | Some config => [Py.dict_get config key; Py.dict_get config key_ppm]
     | None => []
     end.

Definition spread_candidates (info : Py.dict) : list Py.value :=
  candidates_of info "spreadToMaintenanceMarginRatio"
                     "spreadToMaintenanceMarginRatioPpm".

Definition bankruptcy_candidates (info : Py.dict) : list Py.value :=
  candidates_of info "bankruptcyAdjustment" "bankruptcyAdjustmentPpm".

(** One value of the normalised table; the source stores each number as
    its [str], the model keeps the number. *)
Record MarketEntry : Type := {
  maintenance_margin_fraction : option Q;
  initial_margin_fraction : Q;
  base_initial_margin_fraction : option Q;
  open_interest_lower_cap : option Q;
  open_interest_upper_cap : option Q;
  impact_notional : option Q;
  open_interest : option Q;
  open_notional : option Q;
  oracle_price : option Q;
  status : Py.value;
  price_change_24h : option Q;
  volume_24h : option Q;
  trades_24h : Py.value;
  next_funding_rate : option Q;
  market_type : Py.value;
  spread_to_mmr_ratio : option Q;
  bankruptcy_adjustment : option Q
}.

(** Body of the [for market_id, info in items] loop for a dict [info]. *)
Definition normalize_entry (info : Py.dict) : MarketEntry :=
  let maintenance_fraction :=
    resolve_fraction info "maintenanceMarginFraction"
      "maintenance_margin_fraction" "maintenanceMarginFractionPpm"
      "maintenance_margin_fraction_ppm" in
  let liquidity_tier :=
    Py.or_ (Py.dict_get info "liquidityTier")
           (Py.dict_get info "liquidity_tier") in
  let tier : option Py.dict :=
    match liquidity_tier with Py.VDict t => Some t | _ => None end in
  let base_initial_fraction :=
    match tier with
    | Some t =>
        match parse2 t "baseImf" "base_imf" with
        | Some b => Some b
        | None =>
            match parse2 t "baseImfPpm" "base_imf_ppm" with
            | Some ppm => Some (ppm / 1000000)
            | None => None
            end
        end
    | None => None
    end in
  let tier_field (camel snake : string) : option Q :=
    match tier with
    | Some t => parse2 t camel snake
    | None => None
    end in
  let lower_cap :=
    tier_field "openInterestLowerCap"%string "open_interest_lower_cap"%string in
  let upper_cap :=
    tier_field "openInterestUpperCap"%string "open_interest_upper_cap"%string in
  let impact := tier_field "impactNotional"%string "impact_notional"%string in
  let initial_fraction :=
    resolve_fraction info "initialMarginFraction" "initial_margin_fraction"
      "initialMarginFractionPpm" "initial_margin_fraction_ppm" in
  let oracle := parse2 info "oraclePrice" "oracle_price" in
  let interest := parse2 info "openInterest" "open_interest" in
  let notional := parse2 info "openNotional" "open_notional" in
  let notional :=
    match notional, interest, oracle with
    | None, Some oi, Some p => Some (oi * p)
    | _, _, _ => notional
    end in
  let (effective, base') :=
    effective_initial_fraction initial_fraction base_initial_fraction
                               notional lower_cap upper_cap in
  {| maintenance_margin_fraction := maintenance_fraction;
     initial_margin_fraction := effective;
     base_initial_margin_fraction := base';
     open_interest_lower_cap := lower_cap;
     open_interest_upper_cap := upper_cap;
     impact_notional := impact;
     open_interest := interest;
     open_notional := notional;
     oracle_price := oracle;
     status := Py.dict_get info "status";
     price_change_24h := parse_decimal (Py.dict_get info "priceChange24H");
     volume_24h := parse_decimal (Py.dict_get info "volume24H");
     trades_24h := Py.dict_get info "trades24H";
     next_funding_rate := parse_decimal (Py.dict_get info "nextFundingRate");
     market_type := Py.dict_get info "marketType";
     spread_to_mmr_ratio := first_scaled (spread_candidates info);
     bankruptcy_adjustment := first_scaled (bankruptcy_candidates info) |}.

(** *** polling_loop *)

Definition markets_interval : Z := 5.
Definition positions_interval : Z := 15.

(** The two counters of the loop. *)
Record Counters : Type := {
  markets_counter : Z;
  positions_counter : Z
}.

(** What one iteration did: whether it refreshed the market table (and
    recalculated every account from the cached snapshots) and whether it
    fetched the positions of every account. *)
Record Iteration : Type := {
  refreshed_markets : bool;
  refreshed_positions : bool
}.

(** One pass through the body of [while self.running].  The calls of the
    two blocks catch their own exceptions, so the [except] branch of the
    loop is not reached from them. *)
Definition polling_iteration (c : Counters) : Iteration * Counters :=
  let refresh_markets := Z.eqb (markets_counter c) 0 in
  let markets_counter :=
    if refresh_markets then markets_interval else markets_counter c in
  let refresh_positions := Z.eqb (positions_counter c) 0 in
  let positions_counter :=
    if refresh_positions then positions_interval else positions_counter c in
  ({| refreshed_markets := refresh_markets;
      refreshed_positions := refresh_positions |},
   {| markets_counter := Z.max 0 (markets_counter - 1);
      positions_counter := Z.max 0 (positions_counter - 1) |}).

(** The first [n] iterations of the loop from the counters [c]. *)
Fixpoint polling_loop (n : nat) (c : Counters) : list Iteration :=
  match n with
  | O => []
  | S n' =>
      let (iteration, c') := polling_iteration c in
      iteration :: polling_loop n' c'
  end.

(** The counters [polling_loop] starts from. *)
Definition initial_counters : Counters :=
  {| markets_counter := 0; positions_counter := 0 |}.

(** *** process_markets_update *)

(** [new_info["oracle_price"] = price]. *)
Definition with_oracle_price (e : MarketEntry) (price : option Q)
  : MarketEntry :=
  {| maintenance_margin_fraction := maintenance_margin_fraction e;
     initial_margin_fraction := initial_margin_fraction e;
     base_initial_margin_fraction := base_initial_margin_fraction e;
     open_interest_lower_cap := open_interest_lower_cap e;
     open_interest_upper_cap := open_interest_upper_cap e;
     impact_notional := impact_notional e;
     open_interest := open_interest e;
     open_notional := open_notional e;
     oracle_price := price;
     status := status e;
     price_change_24h := price_change_24h e;
     volume_24h := volume_24h e;
     trades_24h := trades_24h e;
     next_funding_rate := next_funding_rate e;
     market_type := market_type e;
     spread_to_mmr_ratio := spread_to_mmr_ratio e;
     bankruptcy_adjustment := bankruptcy_adjustment e |}.

(** Body of the [for market_id, new_info in normalized.items()] loop: an
    entry without an oracle price takes over the one the cached entry of
    its market has. *)
Definition keep_oracle_price (market_info : list (string * MarketEntry))
  (market_id : string) (new_info : MarketEntry) : MarketEntry :=
  match Py.lookup market_info market_id with
  | Some existing =>
      match oracle_price new_info with
      | None =>
          match oracle_price existing with
          | Some price => with_oracle_price new_info (Some price)
          | None => new_info
          end
      | Some _ => new_info
      end
  | None => new_info
  end.

(** [d.update(other)]. *)
Definition update {A} (d other : list (string * A)) : list (string * A) :=
  fold_left (fun acc kv => Py.store acc (fst kv) (snd kv)) other d.

(** [process_markets_update] from the normalised update on: the new value
    of [self.market_info]. *)
Definition process_markets_update
  (market_info normalized : list (string * MarketEntry))
  : list (string * MarketEntry) :=
  match normalized with
  | [] => market_info
  | _ =>
      update market_info
        (map (fun kv => (fst kv, keep_oracle_price market_info (fst kv) (snd kv)))
             normalized)
  end.

End MonitorService.

(** ** Persisted records *)

(** models/subaccount.py *)
Record Subaccount : Type := {
  sub_id : string;
  sub_user_id : string;
  address : string;
  subaccount_number : Z;
  nickname : option string;
  liquidation_threshold_percent : Q
}.

(** models/alert_rule.py: the columns the evaluator reads or writes.
    The description, the channel ids and the two time stamps of a row are
    left out; the ORM refreshes [updated_at] whenever it updates a row. *)
Record AlertRule : Type := {
  id : string;
  user_id : string;
  subaccount_id : option string;
  name : string;
  enabled : bool;
  archived : bool;
  scope : string;
  position_market : option string;
  condition_type : string;
  threshold_value : float;
  comparison : string;
  alert_severity : string;
  custom_message : option string;
  cooldown_seconds : Q
}.

(** ** app/services/alert_rule_evaluator.py *)

(** [should_alert] of this class returns [True] unconditionally and
    [record_alert] only stores a time stamp nothing reads back, so the
    evaluator carries no state of its own: all of it is in the rules table. *)

Module AlertRuleEvaluator.

Import RiskCalculator.

(** The rules table behind the session.  The session is taken to work:
    [db.commit()] goes through.  What the session does to its objects
    after a failed commit and the rollback of [archive_rule] is the ORM's
    business and not part of this model. *)
Record Database : Type := {
  rules : list AlertRule
}.

Definition _compare_values (actual_value threshold : float)
  (comparison : string) : bool :=
  if String.eqb comparison "<" then flt actual_value threshold
  else if String.eqb comparison "<=" then fle actual_value threshold
  else if String.eqb comparison ">" then flt threshold actual_value
  else if String.eqb comparison ">=" then fle threshold actual_value
  else if String.eqb comparison "==" then
    flt (fabs (fsub actual_value threshold)) (round64 (1 # 1000))
  else false.

(** [x or 0] for an optional float read with [.get(key, 0)]. *)
Definition or_zero (x : option float) : float :=
  match x with
  | Some f => if float_truthy f then f else FFin 0
  | None => FFin 0
  end.

(** The [position_size] aggregate: the sum of [abs(position_value)] over the
    positions whose value is present and non-zero. *)
Definition total_position_size (metrics : RiskMetrics) : float :=
  fold_left
    (fun total kv =>
       match position_value (snd kv) with
       | Some v => if float_truthy v then fadd total (fabs v) else total
       | None => total
       end)
    (position_metrics metrics) (FFin 0).

Definition _evaluate_account_condition (rule : AlertRule)
  (metrics : RiskMetrics) : bool :=
  let compare actual_value :=
    _compare_values actual_value (threshold_value rule) (comparison rule) in
  if String.eqb (condition_type rule) "liquidation_distance" then
    compare (float_of_Decimal (liquidation_distance_percent metrics))
  else if String.eqb (condition_type rule) "margin_ratio" then
    compare (float_of_Decimal (margin_ratio metrics))
  else if String.eqb (condition_type rule) "equity_drop" then
    compare (float_of_Decimal (equity metrics))
  else if String.eqb (condition_type rule) "position_size" then
    compare (total_position_size metrics)
  else if String.eqb (condition_type rule) "free_collateral" then
    compare (float_of_Decimal (free_collateral metrics))
  else false.

(** [rule.position_market] when it is set, non-empty and a key of
    [metrics.position_metrics]. *)
Definition target_position (rule : AlertRule) (metrics : RiskMetrics)
  : option PositionRiskMetrics :=
  match position_market rule with
  | Some market =>
      if String.eqb market "" then None
      else Py.lookup (position_metrics metrics) market
  | None => None
  end.

(** The value a position-level condition type reads from the position. *)
Definition position_value_of (condition : string)
  (pos_metrics : PositionRiskMetrics) : option float :=
  if String.eqb condition "position_pnl_percent" then
    Some (or_zero (unrealized_pnl_percent pos_metrics))
  else if String.eqb condition "position_pnl_usd" then
    Some (or_zero (unrealized_pnl pos_metrics))
  else if String.eqb condition "position_size_usd" then
    Some (fabs (or_zero (position_value pos_metrics)))
  else if String.eqb condition "position_size_contracts" then
    Some (fabs (or_zero (size pos_metrics)))
  else if String.eqb condition "position_liquidation_distance" then
    Some (or_zero (pm_liquidation_distance_percent pos_metrics))
  else if String.eqb condition "position_leverage" then
    Some (or_zero (leverage pos_metrics))
  else if String.eqb condition "position_entry_price" then
    Some (fabs (or_zero (entry_price pos_metrics)))
  else if String.eqb condition "position_oracle_price" then
    Some (fabs (or_zero (oracle_price pos_metrics)))
  else None.

Definition _evaluate_position_condition (rule : AlertRule)
  (metrics : RiskMetrics) : bool :=
  match target_position rule metrics with
  | None => false
  | Some pos_metrics =>
      match position_value_of (condition_type rule) pos_metrics with
      | Some actual_value =>
          _compare_values actual_value (threshold_value rule) (comparison rule)
      | None => false
      end
  end.

(** Nothing in the two branches can raise on these types, so the [except]
    branch of the source is not reachable here. *)
Definition evaluate_condition (rule : AlertRule) (metrics : RiskMetrics)
  (subaccount : Subaccount) : bool :=
  if String.eqb (scope rule) "position"
  then _evaluate_position_condition rule metrics
  else _evaluate_account_condition rule metrics.

Definition get_actual_value (rule : AlertRule) (metrics : RiskMetrics)
  : float :=
  let condition := condition_type rule in
  if String.eqb condition "liquidation_distance" then
    float_of_Decimal (liquidation_distance_percent metrics)
  else if String.eqb condition "margin_ratio" then
    float_of_Decimal (margin_ratio metrics)
  else if String.eqb condition "equity_drop" then
    float_of_Decimal (equity metrics)
  else if String.eqb condition "position_size" then
    total_position_size metrics
  else if String.eqb condition "free_collateral" then
    float_of_Decimal (free_collateral metrics)
  else
    match target_position rule metrics with
    | Some pos_metrics =>
        match position_value_of condition pos_metrics with
        | Some v => v
        | None => FFin 0
        end
    | None => FFin 0
    end.

(** The metadata of an alert: [metrics.to_dict()], trimmed for a
    position-scoped rule, together with the rule's own fields. *)
Record Metadata : Type := {
  md_metrics : MetricsDict;
  md_rule_id : string;
  md_rule_name : string;
  md_condition_type : string;
  md_threshold_value : float;
  md_actual_value : float;
  md_comparison : string;
  md_scope : string;
  md_position_market : option string
}.

(** class RuleAlert *)
Record RuleAlert : Type := {
  alert_rule : AlertRule;
  alert_subaccount_id : string;
  message : string;
  severity : string;
  description : string;
  metadata : Metadata;
  alert_type : string
}.

(** [{market: d[market]}] when [market in d], otherwise [d]. *)
Definition only_key {A} (d : list (string * A)) (market : string)
  : list (string * A) :=
  match Py.lookup d market with
  | Some v => [(market, v)]
  | None => d
  end.

Definition trimmed_metrics (rule : AlertRule) (metrics : RiskMetrics)
  : MetricsDict :=
  let metrics_dict := to_dict metrics in
  match position_market rule with
  | Some market =>
      if String.eqb (scope rule) "position" && negb (String.eqb market "")
      then
        {| d_equity := d_equity metrics_dict;
           d_maintenance_requirement := d_maintenance_requirement metrics_dict;
           d_initial_requirement := d_initial_requirement metrics_dict;
           d_margin_ratio := d_margin_ratio metrics_dict;
           d_liquidation_distance_percent :=
             d_liquidation_distance_percent metrics_dict;
           d_free_collateral := d_free_collateral metrics_dict;
           d_initial_margin_percent := d_initial_margin_percent metrics_dict;
           d_maintenance_margin_percent :=
             d_maintenance_margin_percent metrics_dict;
           d_positions := only_key (d_positions metrics_dict) market;
           d_position_metrics :=
             only_key (d_position_metrics metrics_dict) market;
           d_max_liquidation_penalty :=
             d_max_liquidation_penalty metrics_dict |}
      else metrics_dict
  | None => metrics_dict
  end.

Definition set_archived (rule : AlertRule) : AlertRule :=
  {| id := id rule;
     user_id := user_id rule;
     subaccount_id := subaccount_id rule;
     name := name rule;
     enabled := enabled rule;
     archived := true;
     scope := scope rule;
     position_market := position_market rule;
     condition_type := condition_type rule;
     threshold_value := threshold_value rule;
     comparison := comparison rule;
     alert_severity := alert_severity rule;
     custom_message := custom_message rule;
     cooldown_seconds := cooldown_seconds rule |}.

(** [AlertRuleCRUD.get_enabled_by_user]; the table is kept in the order of
    the query. *)
Definition get_enabled_by_user (db : Database) (user : string)
  : list AlertRule :=
  filter (fun r => String.eqb (user_id r) user && enabled r
                   && negb (archived r))
         (rules db).

(** The session object behind a fetched rule: the row with its id. *)
Definition row_of (db : Database) (fetched : AlertRule) : AlertRule :=
  match find (fun r => String.eqb (id r) (id fetched)) (rules db) with
  | Some r => r
  | None => fetched
  end.

(** [archive_rule]: sets the flag of a rule that is not archived yet and
    commits.  Returns the new table and the rule object as the caller sees
    it afterwards. *)
Definition archive_rule (db : Database) (rule : AlertRule)
  : Database * AlertRule :=
  if negb (archived rule) then
    ({| rules := map (fun r => if String.eqb (id r) (id rule)
                               then set_archived r else r) (rules db) |},
     set_archived rule)
  else (db, rule).

(** [rule.subaccount_id is not None and str(rule.subaccount_id) !=
    str(subaccount.id)], negated. *)
Definition applies_to (rule : AlertRule) (subaccount : Subaccount) : bool :=
  match subaccount_id rule with
  | Some s => String.eqb s (sub_id subaccount)
  | None => true
  end.

Section Evaluator.

(** The text builders; their output plays no part in which rules fire. *)
Variable _format_account_alert_message :
  AlertRule -> Subaccount -> RiskMetrics -> float -> string.
Variable _format_position_alert_message :
  AlertRule -> Subaccount -> RiskMetrics -> float -> string.
Variable generate_alert_description :
  string -> string -> string -> float -> float -> string -> option string
  -> string.

Definition format_alert_message (rule : AlertRule) (subaccount : Subaccount)
  (metrics : RiskMetrics) (actual_value : float) : string :=
  match custom_message rule with
  | Some m =>
      if negb (String.eqb m "") then m
      else if String.eqb (scope rule) "position"
      then _format_position_alert_message rule subaccount metrics actual_value
      else _format_account_alert_message rule subaccount metrics actual_value
  | None =>
      if String.eqb (scope rule) "position"
      then _format_position_alert_message rule subaccount metrics actual_value
      else _format_account_alert_message rule subaccount metrics actual_value
  end.

(** Everything after [archive_rule] in the [if condition_met] block; [rule]
    is the rule object as [archive_rule] left it. *)
Definition build_alert (rule : AlertRule) (subaccount : Subaccount)
  (metrics : RiskMetrics) (actual_value : float) : RuleAlert :=
  let market_if_position :=
    if String.eqb (scope rule) "position" then position_market rule
    else None in
  {| alert_rule := rule;
     alert_subaccount_id := sub_id subaccount;
     message := format_alert_message rule subaccount metrics actual_value;
     severity := alert_severity rule;
     description :=
       generate_alert_description (name rule) (condition_type rule)
         (comparison rule) (threshold_value rule) actual_value (scope rule)
         market_if_position;
     metadata :=
       {| md_metrics := trimmed_metrics rule metrics;
          md_rule_id := id rule;
          md_rule_name := name rule;
          md_condition_type := condition_type rule;
          md_threshold_value := threshold_value rule;
          md_actual_value := actual_value;
          md_comparison := comparison rule;
          md_scope := scope rule;
          md_position_market := market_if_position |};
     alert_type := String.append "rule_" (condition_type rule) |}.

(** The [for rule in user_rules] loop. *)
Fixpoint evaluate_loop (subaccount : Subaccount) (metrics : RiskMetrics)
  (user_rules : list AlertRule) (db : Database) (alerts : list RuleAlert)
  : list RuleAlert * Database :=
  match user_rules with
  | [] => (alerts, db)
  | fetched :: rest =>
      let rule := row_of db fetched in
      if archived rule then evaluate_loop subaccount metrics rest db alerts
      else if negb (applies_to rule subaccount)
      then evaluate_loop subaccount metrics rest db alerts
      else
        let actual_value := get_actual_value rule metrics in
        let condition_met := evaluate_condition rule metrics subaccount in
        if condition_met then
          let (db', rule') := archive_rule db rule in
          let alert := build_alert rule' subaccount metrics actual_value in
          evaluate_loop subaccount metrics rest db' (alerts ++ [alert])
        else evaluate_loop subaccount metrics rest db alerts
  end.

(** With a working session nothing in the loop raises, so the [try]
    around it has no counterpart here. *)
Definition evaluate_rules_for_subaccount (db : Database)
  (subaccount : Subaccount) (metrics : RiskMetrics)
  : list RuleAlert * Database :=
  evaluate_loop subaccount metrics
    (get_enabled_by_user db (sub_user_id subaccount)) db [].

End Evaluator.

End AlertRuleEvaluator.

(** ** app/services/alert_engine.py *)

Module AlertEngine.

Import RiskCalculator.

Inductive AlertType : Type :=
| liquidation_warning
| liquidation
| adl_warning
| adl.

Inductive AlertSeverity : Type :=
| info
| warning
| critical.

Definition alert_type_value (t : AlertType) : string :=
  match t with
  | liquidation_warning => "liquidation_warning"
  | liquidation => "liquidation"
  | adl_warning => "adl_warning"
  | adl => "adl"
  end.

(** class Alert *)
Record Alert : Type := {
  alert_type : AlertType;
  severity : AlertSeverity;
  subaccount_id : string;
  message : string;
  metadata : MetricsDict
}.

(** The engine's state: the time (in seconds) of the last alert per
    cooldown key, and [settings.ALERT_COOLDOWN_SECONDS]. *)
Record Engine : Type := {
  alert_cooldowns : list (string * Q);
  cooldown_seconds : Q
}.

Definition ALERT_COOLDOWN_SECONDS : Q := 300.

Definition new_engine : Engine :=
  {| alert_cooldowns := []; cooldown_seconds := ALERT_COOLDOWN_SECONDS |}.

Definition cooldown_key (subaccount_id : string) (t : AlertType) : string :=
  String.append subaccount_id (String.append "_" (alert_type_value t)).

(** [now] is the reading of [datetime.utcnow()], in seconds. *)
Definition should_alert (self : Engine) (now : Q) (subaccount_id : string)
  (t : AlertType) : bool :=
  match Py.lookup (alert_cooldowns self) (cooldown_key subaccount_id t) with
  | Some last_alert_time =>
      if Qltb (now - last_alert_time) (cooldown_seconds self) then false
      else true
  | None => true
  end.

Definition record_alert (self : Engine) (now : Q) (subaccount_id : string)
  (t : AlertType) : Engine :=
  {| alert_cooldowns :=
       Py.store (alert_cooldowns self) (cooldown_key subaccount_id t) now;
     cooldown_seconds := cooldown_seconds self |}.

Section Engine.

Variable format_liquidation_warning : Subaccount -> RiskMetrics -> string.
Variable format_liquidation_alert : Subaccount -> string.
Variable format_adl_warning : Subaccount -> string.

Definition evaluate_liquidation_risk (self : Engine) (now : Q)
  (subaccount : Subaccount) (metrics : RiskMetrics)
  : option Alert * Engine :=
  let threshold := liquidation_threshold_percent subaccount in
  let distance := liquidation_distance_percent metrics in
  if dec_leb distance (Fin 0) then
    if should_alert self now (sub_id subaccount) liquidation then
      (Some {| alert_type := liquidation;
               severity := critical;
               subaccount_id := sub_id subaccount;
               message := format_liquidation_alert subaccount;
               metadata := to_dict metrics |},
       record_alert self now (sub_id subaccount) liquidation)
    else (None, self)
  else if dec_leb distance (Fin threshold) then
    let severity :=
      if dec_leb distance (Fin 5) then critical else warning in
    if should_alert self now (sub_id subaccount) liquidation_warning then
      (Some {| alert_type := liquidation_warning;
               severity := severity;
               subaccount_id := sub_id subaccount;
               message := format_liquidation_warning subaccount metrics;
               metadata := to_dict metrics |},
       record_alert self now (sub_id subaccount) liquidation_warning)
    else (None, self)
  else (None, self).

Definition evaluate_adl_risk (self : Engine) (now : Q)
  (subaccount : Subaccount) (metrics : RiskMetrics)
  (insurance_fund_low : bool) : option Alert * Engine :=
  if insurance_fund_low && dec_ltb (margin_ratio metrics) (Fin 2) then
    if should_alert self now (sub_id subaccount) adl_warning then
      (Some {| alert_type := adl_warning;
               severity := warning;
               subaccount_id := sub_id subaccount;
               message := format_adl_warning subaccount;
               metadata := to_dict metrics |},
       record_alert self now (sub_id subaccount) adl_warning)
    else (None, self)
  else (None, self).

Definition evaluate (self : Engine) (now : Q) (subaccount : Subaccount)
  (metrics : RiskMetrics) (insurance_fund_low : bool)
  : option Alert * Engine :=
  match evaluate_liquidation_risk self now subaccount metrics with
  | (Some alert, self') => (Some alert, self')
  | (None, self') =>
      evaluate_adl_risk self' now subaccount metrics insurance_fund_low
  end.

End Engine.

End AlertEngine.

(** ** Vocabulary of the properties *)

(** The five operators of [_compare_values]. *)
(** Two rows of the rules table agree on every column of the model but
    [archived]. *)
Definition same_configuration (a b : AlertRule) : Prop :=
  id a = id b /\ user_id a = user_id b /\ subaccount_id a = subaccount_id b
  /\ name a = name b /\ enabled a = enabled b /\ scope a = scope b
  /\ position_market a = position_market b
  /\ condition_type a = condition_type b
  /\ threshold_value a = threshold_value b /\ comparison a = comparison b
  /\ alert_severity a = alert_severity b
  /\ custom_message a = custom_message b
  /\ cooldown_seconds a = cooldown_seconds b.

(** The order of the floats: the infinities are its ends and NaN is
    related to nothing. *)
Definition float_lt (a b : float) : Prop :=
  match a, b with
  | FFin x, FFin y => x < y
  | FInf true, FFin _ | FFin _, FInf false | FInf true, FInf false => True
  | _, _ => False
  end.

Definition float_le (a b : float) : Prop :=
  match a, b with
  | FFin x, FFin y => x <= y
  | FInf true, FFin _ | FFin _, FInf false => True
  | FInf s, FInf t => s = true \/ t = false
  | _, _ => False
  end.

(** The double of the literal [0.001], 1152921504606847 / 2 ^ 60, and the
    double just below it. *)
Definition double_0_001 : Q := 1152921504606847 # 1152921504606846976.
Definition below_0_001 : Q := 4611686018427387 # 4611686018427387904.

Definition is_finite (a : float) : Prop :=
  match a with
  | FFin _ => True
  | _ => False
  end.

Definition known_operator (comparison : string) : bool :=
  existsb (String.eqb comparison) ["<"; "<="; ">"; ">="; "=="]%string.

(** [clamp(x, lo, hi)]. *)
Definition clamp (x lo hi : Q) : Q := Qmin (Qmax x lo) hi.

(** The closed form the specification gives for the scaled initial margin
    fraction. *)
Definition scaled_fraction (base open_notional lower_cap upper_cap : Q) : Q :=
  clamp (base
         + clamp ((open_notional - lower_cap) / (upper_cap - lower_cap)) 0 1
           * (1 - base))
        base 1.

(** The value of an account after its position moved from [oracle_price]
    to [price]: the docstring of [calculate_risk_metrics] gives the total
    account value as the quote balance plus size times price. *)
Definition equity_at_price (equity size oracle_price price : Q) : Q :=
  (equity - size * oracle_price) + size * price.

(** The denominator and the quotient of the two liquidation-price
    functions as the decimal context computes them. *)
Definition computed_denominator (size maintenance_fraction : Q) : result Q :=
  magnitude <- Ctx.abs size ;;
  scaled <- Ctx.mul magnitude maintenance_fraction ;;
  Ctx.sub scaled size.

Definition computed_quotient (equity size oracle_price denominator : Q)
  : result Q :=
  value <- Ctx.mul size oracle_price ;;
  numerator <- Ctx.sub equity value ;;
  Ctx.div numerator denominator.

(** A price that survived [_sanitize]: absent, or in (0, 10,000,000]. *)
Definition sane_price (p : option float) : Prop :=
  match p with
  | None => True
  | Some (FFin q) => 0 < q /\ q <= 10000000
  | Some _ => False
  end.

(** How many of the alerts were produced by the rule with this id. *)
Definition fired (rule_id : string) (alerts : list AlertRuleEvaluator.RuleAlert)
  : nat :=
  length (filter (fun a => String.eqb (id (AlertRuleEvaluator.alert_rule a))
                                      rule_id) alerts).

(** The stored state of the [archived] flag of the rule with this id. *)
Definition archived_in (db : AlertRuleEvaluator.Database) (rule_id : string)
  : option bool :=
  match find (fun r => String.eqb (id r) rule_id)
             (AlertRuleEvaluator.rules db) with
  | Some r => Some (archived r)
  | None => None
  end.

(** The float of a decimal price that passed [_sanitize]: absent, or
    converted from a decimal in (0, 10,000,000]. *)
Definition filtered (p : option float) : Prop :=
  exists price : option Q,
    p = RiskCalculator._safe_float price
    /\ match price with
       | Some q => 0 < q /\ q <= 10000000
       | None => True
       end.

Definition filtered_liquidation_prices (e : RiskCalculator.PositionRiskMetrics)
  : Prop :=
  filtered (RiskCalculator.isolated_liquidation_price e)
  /\ filtered (RiskCalculator.cross_liquidation_price e)
  /\ filtered (RiskCalculator.protocol_liquidation_price e).

(** Values on which [v.get] and [v.items] raise, and values on which
    [Decimal(str(v))] raises. *)
Definition not_a_dict (v : Py.value) : Prop :=
  match v with
  | Py.VDict _ => False
  | _ => True
  end.

Definition not_a_decimal (v : Py.value) : Prop :=
  match v with
  | Py.VNum _ => False
  | Py.VStr s => Py.read_literal s = None
  | _ => True
  end.

(** [_safe_decimal(d.get(k1) or d.get(k2))] on a dict. *)
Definition read2 (d : Py.dict) (k1 k2 : string) : option Q :=
  RiskCalculator._safe_decimal (Py.or_ (Py.dict_get d k1) (Py.dict_get d k2)).

(** The effective fraction of the normaliser when no scaling applies: the
    direct initial fraction if present and non-zero, else the base fraction
    of the liquidity tier if present and non-zero, else 0.05. *)
Definition unscaled_fraction (initial_fraction base_initial_fraction : option Q)
  : Q :=
  match initial_fraction with
  | Some i =>
      if RiskCalculator.nonzero i then i
      else match base_initial_fraction with
           | Some b => if RiskCalculator.nonzero b then b else 5 # 100
           | None => 5 # 100
           end
  | None =>
      match base_initial_fraction with
      | Some b => if RiskCalculator.nonzero b then b else 5 # 100
      | None => 5 # 100
      end
  end.

(** The base fraction the normaliser scales: the tier's, else the direct
    initial fraction. *)
Definition scaling_base (initial_fraction base_initial_fraction : option Q)
  : option Q :=
  match base_initial_fraction with
  | Some b => Some b
  | None => initial_fraction
  end.

(** The spread ratio and the bankruptcy adjustment as the specification
    words them, not as the code computes them: the resolution order of the
    margin fractions (direct field, nested config, ppm-encoded field
    divided by 1,000,000), then a second division when the converted value
    still exceeds 10. *)
Definition specified_ratio (info : Py.dict) (key key_ppm : string) : option Q :=
  let direct := MonitorService.parse_decimal (Py.dict_get info key) in
  let direct :=
    match direct, MonitorService.config_of info with
    | None, Some config => MonitorService.parse_decimal (Py.dict_get config key)
    | _, _ => direct
    end in
  let converted :=
    match direct with
    | Some d => Some d
    | None =>
        let ppm := MonitorService.parse_decimal (Py.dict_get info key_ppm) in
        let ppm :=
          match ppm, MonitorService.config_of info with
          | None, Some config => MonitorService.parse_decimal (Py.dict_get config key_ppm)
          | _, _ => ppm
          end in
        match ppm with
        | Some p => Some (p / 1000000)
        | None => None
        end
    end in
  match converted with
  | Some v => Some (if Qltb 10 v then v / 1000000 else v)
  | None => None
  end.

(** A candidate the spread and bankruptcy loops pass over: absent, or not
    a numeral. *)
Definition unusable (candidate : Py.value) : Prop :=
  candidate = Py.VNone \/ exists e, Py.decimal_of candidate = Raise e.

(** The single, conditional down-scaling of those loops. *)
Definition rescaled (dec : Q) : Q :=
  if Qltb 10 dec then dec / 1000000 else dec.

(** [stored] is what the candidate loop keeps of [candidates]: the
    rescaled value of the first usable candidate, if there is one. *)
Definition first_usable (candidates : list Py.value) (stored : option Q)
  : Prop :=
  match stored with
  | Some r =>
      exists before candidate after dec,
        candidates = before ++ candidate :: after
        /\ Forall unusable before
        /\ candidate <> Py.VNone
        /\ Py.decimal_of candidate = Ok dec
        /\ r = rescaled dec
  | None => Forall unusable candidates
  end.

(** The filter of [get_enabled_by_user]. *)
Definition fetchable (user : string) (r : AlertRule) : bool :=
  String.eqb (user_id r) user && enabled r && negb (archived r).

(** A rule the loop lets fire: it applies to the account and its condition
    holds on the metrics. *)
Definition hot (subaccount : Subaccount)
  (metrics : RiskCalculator.RiskMetrics) (r : AlertRule) : bool :=
  AlertRuleEvaluator.applies_to r subaccount
  && AlertRuleEvaluator.evaluate_condition r metrics subaccount.

(** Archives the rules whose id is listed. *)
Definition archive_ids (ids : list string) (r : AlertRule) : AlertRule :=
  if existsb (String.eqb (id r)) ids
  then AlertRuleEvaluator.set_archived r else r.

(** The alert a firing rule produces: [build_alert] on the rule as
    [archive_rule] returned it. *)
Definition fired_alert
  (format_account format_position :
     AlertRule -> Subaccount -> RiskCalculator.RiskMetrics -> float -> string)
  (describe : string -> string -> string -> float -> float -> string
              -> option string -> string)
  (subaccount : Subaccount) (metrics : RiskCalculator.RiskMetrics)
  (r : AlertRule) : AlertRuleEvaluator.RuleAlert :=
  AlertRuleEvaluator.build_alert format_account format_position describe
    (AlertRuleEvaluator.set_archived r) subaccount metrics
    (AlertRuleEvaluator.get_actual_value r metrics).

(** The condition types [_evaluate_account_condition] has a branch for. *)
Definition account_conditions : list string :=
  ["liquidation_distance"; "margin_ratio"; "equity_drop"; "position_size";
   "free_collateral"]%string.

(** The condition types [_evaluate_position_condition] has a branch for. *)
Definition position_conditions : list string :=
  ["position_pnl_percent"; "position_pnl_usd"; "position_size_usd";
   "position_size_contracts"; "position_liquidation_distance";
   "position_leverage"; "position_entry_price"; "position_oracle_price"]%string.

(** One call of [AlertEngine.evaluate]: the reading of the clock, the
    account, its metrics and the insurance-fund flag. *)
Record Call : Type := {
  call_time : Q;
  call_subaccount : Subaccount;
  call_metrics : RiskCalculator.RiskMetrics;
  call_insurance_fund_low : bool
}.

(** The outcome of a sequence of calls on one engine, each paired with the
    time of its call. *)
Fixpoint engine_run
  (format_liquidation_warning :
     Subaccount -> RiskCalculator.RiskMetrics -> string)
  (format_liquidation_alert format_adl_warning : Subaccount -> string)
  (self : AlertEngine.Engine) (calls : list Call)
  : list (Q * option AlertEngine.Alert) :=
  match calls with
  | [] => []
  | c :: rest =>
      let (alert, self') :=
        AlertEngine.evaluate format_liquidation_warning
          format_liquidation_alert format_adl_warning self (call_time c)
          (call_subaccount c) (call_metrics c) (call_insurance_fund_low c) in
      (call_time c, alert)
      :: engine_run format_liquidation_warning format_liquidation_alert
           format_adl_warning self' rest
  end.

(** The clock readings of a sequence of calls never go back. *)
Fixpoint clock_ordered (calls : list Call) : Prop :=
  match calls with
  | [] => True
  | c :: rest =>
      Forall (fun d => call_time c <= call_time d) rest /\ clock_ordered rest
  end.

(** What a requirement loop with this body owes for a market: the
    requirement of the market's position when the body computes one. *)
Definition requirement_at (body : string -> Py.value -> result (option Q))
  (items : Py.dict) (market : string) : option Q :=
  match Py.lookup items market with
  | Some position =>
      match body market position with
      | Ok (Some requirement) => Some requirement
      | _ => None
      end
  | None => None
  end.

(** The size of a position the loop of [calculate_risk_metrics] does not
    skip: present, readable as a decimal and not zero. *)
Definition open_size (position : Py.value) : option Q :=
  match Py.get position "size" with
  | Ok raw =>
      match RiskCalculator._safe_decimal raw with
      | Some raw_size => if Qeqb raw_size 0 then None else Some raw_size
      | None => None
      end
  | Raise _ => None
  end.

(** The maintenance requirement a position of the snapshot reports
    itself: its "maintenanceMarginRequirement", when the position is open
    and the field reads as a decimal. *)
Definition reported_by (position : Py.value) : option Q :=
  match open_size position with
  | Some _ =>
      match Py.get position "maintenanceMarginRequirement" with
      | Ok raw => RiskCalculator._safe_decimal raw
      | Raise _ => None
      end
  | None => None
  end.

(** The reported requirements of the snapshot, market by market in the
    order of its positions. *)
Fixpoint reported_requirements (items : Py.dict) : list (string * Q) :=
  match items with
  | [] => []
  | (market, position) :: rest =>
      match reported_by position with
      | Some requirement => (market, requirement) :: reported_requirements rest
      | None => reported_requirements rest
      end
  end.
(** ** Sample data *)

(** An account with equity 1000 and no positions. *)
Definition no_positions_account : Py.value :=
  Py.VDict [("equity", Py.VStr "1000"); ("positions", Py.VDict [])]%string.

(** A position in a market quoted above 10,000,000, in an account whose
    equity covers the maintenance requirement twice. *)
Definition pricey_account : Py.value :=
  Py.VDict [("equity", Py.VStr "2000000");
            ("positions",
             Py.VDict [("BIG-USD", Py.VDict [("size", Py.VStr "1");
                                             ("entryPrice", Py.VStr "19000000")])])
           ]%string.

Definition pricey_markets : option Py.dict :=
  Some [("BIG-USD",
         Py.VDict [("oracle_price", Py.VStr "20000000");
                   ("maintenance_margin_fraction", Py.VStr "0.05");
                   ("initial_margin_fraction", Py.VStr "0.1");
                   ("spread_to_mmr_ratio", Py.VStr "1.5");
                   ("bankruptcy_adjustment", Py.VStr "1")])]%string.

(** An account without equity, in a market whose spread ratio and
    bankruptcy adjustment multiply the maintenance fraction beyond 1. *)
Definition underwater_account : Py.value :=
  Py.VDict [("equity", Py.VStr "0");
            ("positions",
             Py.VDict [("ETH-USD", Py.VDict [("size", Py.VStr "1");
                                             ("entryPrice", Py.VStr "3100")])])
           ]%string.

Definition wide_spread_markets : option Py.dict :=
  Some [("ETH-USD",
         Py.VDict [("oracle_price", Py.VStr "3000");
                   ("maintenance_margin_fraction", Py.VStr "0.05");
                   ("spread_to_mmr_ratio", Py.VStr "10");
                   ("bankruptcy_adjustment", Py.VStr "2.5")])]%string.

(** Snapshots that make the body of [calculate_risk_metrics] raise. *)
Definition malformed_equity : Py.value :=
  Py.VDict [("equity", Py.VStr "n/a"); ("positions", Py.VDict [])]%string.

Definition positions_as_list : Py.value :=
  Py.VDict [("equity", Py.VStr "1000");
            ("positions", Py.VList [Py.VDict [("size", Py.VStr "1")]])]%string.

Definition position_not_a_dict : Py.value :=
  Py.VDict [("equity", Py.VStr "1000");
            ("positions", Py.VDict [("ETH-USD", Py.VStr "1")])]%string.

Definition numeric_margin_mode : Py.value :=
  Py.VDict [("equity", Py.VStr "1000");
            ("positions",
             Py.VDict [("ETH-USD", Py.VDict [("size", Py.VStr "1");
                                             ("entryPrice", Py.VStr "3000");
                                             ("marginMode", Py.VNum 1)])])
           ]%string.

(** A market entry whose open-interest caps are inverted: the upper cap
    (100) lies below the lower cap (200). *)
Definition inverted_caps_markets : option Py.dict :=
  Some [("ETH-USD",
         Py.VDict [("initial_margin_fraction", Py.VStr "0.05");
                   ("open_interest", Py.VStr "1");
                   ("oracle_price", Py.VStr "100");
                   ("open_interest_lower_cap", Py.VStr "200");
                   ("open_interest_upper_cap", Py.VStr "100")])]%string.

(** A raw market of the indexer half-way between the caps of its
    liquidity tier, the lower one being 0. *)
Definition zero_lower_cap_market : Py.dict :=
  [("openInterest", Py.VStr "5");
   ("oraclePrice", Py.VStr "100");
   ("liquidityTier",
    Py.VDict [("baseImf", Py.VStr "0.05");
              ("openInterestLowerCap", Py.VStr "0");
              ("openInterestUpperCap", Py.VStr "1000")])]%string.

(** A market half-way between its caps. *)
Definition midpoint_markets : option Py.dict :=
  Some [("ETH-USD",
         Py.VDict [("initial_margin_fraction", Py.VStr "0.05");
                   ("open_interest", Py.VStr "5");
                   ("oracle_price", Py.VStr "100");
                   ("open_interest_lower_cap", Py.VStr "0");
                   ("open_interest_upper_cap", Py.VStr "1000")])]%string.

(** A raw market whose maintenance fraction and spread ratio each come
    twice: ppm-encoded at the top level and plain in the nested config. *)
Definition ppm_and_config_market : Py.dict :=
  [("maintenanceMarginFractionPpm", Py.VStr "50000");
   ("spreadToMaintenanceMarginRatioPpm", Py.VStr "1500000");
   ("config",
    Py.VDict [("maintenanceMarginFraction", Py.VStr "0.03");
              ("spreadToMaintenanceMarginRatio", Py.VStr "2")])]%string.

(** A raw market whose ppm-encoded bankruptcy adjustment converts to 20. *)
Definition large_ppm_market : Py.dict :=
  [("bankruptcyAdjustmentPpm", Py.VStr "20000000")]%string.

(** A raw market with a small ppm-encoded spread ratio. *)
Definition small_ppm_market : Py.dict :=
  [("spreadToMaintenanceMarginRatioPpm", Py.VStr "5")]%string.

(** An account with the default liquidation threshold of 10 percent. *)
Definition sample_subaccount : Subaccount :=
  {| sub_id := "sub-1";
     sub_user_id := "user-1";
     address := "dydx1qqqqqqqqqqqqqqqqqqqqqqqqqqqqqqqqqqqqqq";
     subaccount_number := 0;
     nickname := None;
     liquidation_threshold_percent := 10 |}.

(** Metrics of an account with equity 1000 whose maintenance requirement
    puts it [distance] percent above liquidation. *)
Definition metrics_at_distance (distance : Q) : RiskCalculator.RiskMetrics :=
  {| RiskCalculator.equity := Fin 1000;
     RiskCalculator.maintenance_requirement := Fin (1000 / (1 + distance / 100));
     RiskCalculator.initial_requirement := Fin 0;
     RiskCalculator.margin_ratio := Fin (1 + distance / 100);
     RiskCalculator.liquidation_distance_percent := Fin distance;
     RiskCalculator.free_collateral := Fin 0;
     RiskCalculator.positions := [];
     RiskCalculator.position_metrics := [];
     RiskCalculator.max_liquidation_penalty := None;
     RiskCalculator.initial_margin_percent := None;
     RiskCalculator.maintenance_margin_percent := None |}.

(** Message builders for the concrete runs. *)
Definition plain_warning (s : Subaccount) (m : RiskCalculator.RiskMetrics)
  : string := "LIQUIDATION WARNING".
Definition plain_alert (s : Subaccount) : string := "LIQUIDATION ALERT".

(** A global account rule of user-1: liquidation distance at most 10. *)
Definition sample_rule : AlertRule :=
  {| id := "rule-1";
     user_id := "user-1";
     subaccount_id := None;
     name := "Low distance";
     enabled := true;
     archived := false;
     scope := "account";
     position_market := None;
     condition_type := "liquidation_distance";
     threshold_value := FFin 10;
     comparison := "<=";
     alert_severity := "warning";
     custom_message := None;
     cooldown_seconds := 3600 |}.

(** A rule asking for a margin ratio above 5. *)
Definition healthy_ratio_rule : AlertRule :=
  {| id := "rule-2";
     user_id := "user-1";
     subaccount_id := Some "sub-1"%string;
     name := "Healthy again";
     enabled := true;
     archived := false;
     scope := "account";
     position_market := None;
     condition_type := "margin_ratio";
     threshold_value := FFin 5;
     comparison := ">";
     alert_severity := "info";
     custom_message := None;
     cooldown_seconds := 3600 |}.

Definition sample_db : AlertRuleEvaluator.Database :=
  {| AlertRuleEvaluator.rules := [sample_rule; healthy_ratio_rule] |}.

Definition plain_message (r : AlertRule) (s : Subaccount)
  (m : RiskCalculator.RiskMetrics) (actual : float) : string := name r.

Definition plain_description (rule_name condition comparison : string)
  (threshold actual : float) (scope : string) (market : option string)
  : string := rule_name.

(** A position entry of which only the value is filled in. *)
Definition position_with_value (v : Q) : RiskCalculator.PositionRiskMetrics :=
  {| RiskCalculator.margin_mode := Py.VNone;
     RiskCalculator.size := None;
     RiskCalculator.entry_price := None;
     RiskCalculator.oracle_price := None;
     RiskCalculator.maintenance_margin_fraction := None;
     RiskCalculator.initial_margin_fraction := None;
     RiskCalculator.pm_maintenance_requirement := None;
     RiskCalculator.pm_initial_requirement := None;
     RiskCalculator.pm_maintenance_margin_percent := None;
     RiskCalculator.pm_initial_margin_percent := None;
     RiskCalculator.position_value := Some (FFin v);
     RiskCalculator.unrealized_pnl := None;
     RiskCalculator.unrealized_pnl_percent := None;
     RiskCalculator.funding_payment := None;
     RiskCalculator.realized_pnl := None;
     RiskCalculator.leverage := None;
     RiskCalculator.leverage_on_equity := None;
     RiskCalculator.leverage_on_initial_margin := None;
     RiskCalculator.pm_liquidation_distance_percent := None;
     RiskCalculator.isolated_liquidation_price := None;
     RiskCalculator.cross_liquidation_price := None;
     RiskCalculator.fillable_price := None;
     RiskCalculator.protocol_liquidation_price := None |}.

(** Metrics with a long of 15000 and a short of 10000. *)
Definition long_and_short_metrics : RiskCalculator.RiskMetrics :=
  {| RiskCalculator.equity := Fin 5000;
     RiskCalculator.maintenance_requirement := Fin 750;
     RiskCalculator.initial_requirement := Fin 1250;
     RiskCalculator.margin_ratio := Fin (5000 / 750);
     RiskCalculator.liquidation_distance_percent :=
       Fin ((5000 / 750 - 1) * 100);
     RiskCalculator.free_collateral := Fin 3750;
     RiskCalculator.positions := [];
     RiskCalculator.position_metrics :=
       [("BTC-USD", position_with_value 15000);
        ("ETH-USD", position_with_value (-10000))]%string;
     RiskCalculator.max_liquidation_penalty := None;
     RiskCalculator.initial_margin_percent := None;
     RiskCalculator.maintenance_margin_percent := None |}.


(** A rule on the BTC position of sub-1: worth more than 10000. *)
Definition position_rule : AlertRule :=
  {| id := "rule-3";
     user_id := "user-1";
     subaccount_id := Some "sub-1"%string;
     name := "Large BTC position";
     enabled := true;
     archived := false;
     scope := "position";
     position_market := Some "BTC-USD"%string;
     condition_type := "position_size_usd";
     threshold_value := FFin 10000;
     comparison := ">";
     alert_severity := "info";
     custom_message := None;
     cooldown_seconds := 3600 |}.

Definition position_db : AlertRuleEvaluator.Database :=
  {| AlertRuleEvaluator.rules := [sample_rule; position_rule] |}.

(** Two polls of sub-1, 400 seconds apart, both below liquidation. *)
Definition two_liquidated_polls : list Call :=
  [{| call_time := 0;
      call_subaccount := sample_subaccount;
      call_metrics := metrics_at_distance (-1);
      call_insurance_fund_low := false |};
   {| call_time := 400;
      call_subaccount := sample_subaccount;
      call_metrics := metrics_at_distance (-2);
      call_insurance_fund_low := false |}].

(** A normalised market entry with a maintenance fraction and, possibly,
    an oracle price. *)
Definition market_with (fraction : Q) (price : option Q)
  : MonitorService.MarketEntry :=
  {| MonitorService.maintenance_margin_fraction := Some fraction;
     MonitorService.initial_margin_fraction := 5 # 100;
     MonitorService.base_initial_margin_fraction := None;
     MonitorService.open_interest_lower_cap := None;
     MonitorService.open_interest_upper_cap := None;
     MonitorService.impact_notional := None;
     MonitorService.open_interest := None;
     MonitorService.open_notional := None;
     MonitorService.oracle_price := price;
     MonitorService.status := Py.VNone;
     MonitorService.price_change_24h := None;
     MonitorService.volume_24h := None;
     MonitorService.trades_24h := Py.VNone;
     MonitorService.next_funding_rate := None;
     MonitorService.market_type := Py.VNone;
     MonitorService.spread_to_mmr_ratio := None;
     MonitorService.bankruptcy_adjustment := None |}.

(** A cached table with the price of ETH, and an update without it. *)
Definition cached_markets : list (string * MonitorService.MarketEntry) :=
  [("ETH-USD", market_with (3 # 100) (Some 3000))]%string.

Definition priceless_update : list (string * MonitorService.MarketEntry) :=
  [("ETH-USD", market_with (5 # 100) None);
   ("BTC-USD", market_with (3 # 100) None)]%string.

(** An account whose one position reports its own maintenance
    requirement. *)
Definition reporting_positions : Py.dict :=
  [("ETH-USD", Py.VDict [("size", Py.VStr "1");
                         ("entryPrice", Py.VStr "3000");
                         ("maintenanceMarginRequirement", Py.VStr "400")])
  ]%string.

Definition reporting_account : Py.value :=
  Py.VDict [("equity", Py.VStr "1000");
            ("positions", Py.VDict reporting_positions)]%string.

(** ** Rounding: order, sign and error *)

Section RoundingFacts.

Import Rounding.

Lemma half_even_comp (x y : Q) : x == y -> half_even x = half_even y.
Proof.
  intro H. unfold half_even.
  rewrite (Qfloor_comp x y H).
  assert (E : x - inject_Z (Qfloor y) == y - inject_Z (Qfloor y))
    by (rewrite H; reflexivity).
  rewrite (Qcompare_comp _ _ E (1 # 2) (1 # 2) (Qeq_refl _)).
  reflexivity.
Qed.

Lemma half_even_bounds (x : Q) :
  x - (1 # 2) <= inject_Z (half_even x)
  /\ inject_Z (half_even x) <= x + (1 # 2).
Proof.
  unfold half_even.
  pose proof (Qfloor_le x) as Hlo. pose proof (Qlt_floor x) as Hhi.
  rewrite inject_Z_plus in Hhi. change (inject_Z 1) with 1 in Hhi.
  destruct (Qcompare_spec (x - inject_Z (Qfloor x)) (1 # 2)) as [E|E|E].
  - destruct (Z.even (Qfloor x)).
    + split; lra.
    + rewrite inject_Z_plus. change (inject_Z 1) with 1. split; lra.
  - split; lra.
  - rewrite inject_Z_plus. change (inject_Z 1) with 1. split; lra.
Qed.

Lemma half_even_mono (x y : Q) : x <= y -> (half_even x <= half_even y)%Z.
Proof.
  intro H.
  destruct (Z_le_gt_dec (half_even x) (half_even y)) as [Hle|Hgt]; [exact Hle|].
  exfalso.
  assert (Hstep : (half_even y + 1 <= half_even x)%Z) by lia.
  rewrite Zle_Qle, inject_Z_plus in Hstep. change (inject_Z 1) with 1 in Hstep.
  destruct (half_even_bounds x) as [_ Hx].
  destruct (half_even_bounds y) as [Hy _].
  assert (E : x == y) by lra.
  rewrite (half_even_comp x y E) in Hgt. lia.
Qed.

Lemma half_even_Z (n : Z) : half_even (inject_Z n) = n.
Proof.
  unfold half_even. rewrite Qfloor_Z.
  destruct (Qcompare_spec (inject_Z n - inject_Z n) (1 # 2)) as [E|E|E].
  - exfalso. lra.
  - reflexivity.
  - exfalso. lra.
Qed.

Variable b : Z.
Hypothesis base_ge_2 : (2 <= b)%Z.

Local Abbreviation B := (inject_Z b).

Lemma base_gt_1 : 1 < B.
Proof.
  change 1 with (inject_Z 1). rewrite <- Zlt_Qlt. lia.
Qed.

Lemma base_pos : 0 < B.
Proof. pose proof base_gt_1. lra. Qed.

Lemma base_neq_0 : ~ B == 0.
Proof. pose proof base_pos. lra. Qed.

Lemma power_pos (k : Z) : 0 < B ^ k.
Proof. apply Qpower_0_lt, base_pos. Qed.

Lemma power_succ (k : Z) : B ^ (k + 1) == B ^ k * B.
Proof. rewrite Qpower_plus by apply base_neq_0. reflexivity. Qed.

Lemma digits_fuel_spec (fuel : nat) :
  forall n, (1 <= n)%Z -> (n < 2 ^ Z.of_nat fuel)%Z ->
            (1 <= digits_fuel fuel b n)%Z
            /\ (b ^ (digits_fuel fuel b n - 1) <= n < b ^ digits_fuel fuel b n)%Z.
Proof.
  induction fuel as [|fuel IH]; intros n Hn Hlt.
  - simpl in Hlt. lia.
  - cbn [digits_fuel]. destruct (n <? b)%Z eqn:E.
    + apply Z.ltb_lt in E. split; [lia|].
      change (1 - 1)%Z with 0%Z. rewrite Z.pow_0_r, Z.pow_1_r. lia.
    + apply Z.ltb_ge in E.
      assert (Hq : (1 <= n / b)%Z) by (apply Z.div_le_lower_bound; lia).
      assert (Hq' : (n / b < 2 ^ Z.of_nat fuel)%Z).
      { apply Z.div_lt_upper_bound; [lia|].
        rewrite Nat2Z.inj_succ, Z.pow_succ_r in Hlt by lia.
        assert (0 < 2 ^ Z.of_nat fuel)%Z by (apply Z.pow_pos_nonneg; lia).
        nia. }
      destruct (IH (n / b)%Z Hq Hq') as (Hd & Hlo & Hhi).
      set (d := digits_fuel fuel b (n / b)) in *.
      split; [lia|].
      replace (1 + d - 1)%Z with (Z.succ (d - 1)) by lia.
      replace (1 + d)%Z with (Z.succ d) by lia.
      rewrite !Z.pow_succ_r by lia.
      pose proof (Z.mul_div_le n b ltac:(lia)) as Hmul.
      pose proof (Z.mul_succ_div_gt n b ltac:(lia)) as Hmul'.
      split; [nia|].
      assert (n / b + 1 <= b ^ d)%Z by lia. nia.
Qed.

Lemma digits_spec (n : Z) :
  (1 <= n)%Z ->
  (1 <= digits b n)%Z /\ (b ^ (digits b n - 1) <= n < b ^ digits b n)%Z.
Proof.
  intro Hn. unfold digits. apply digits_fuel_spec; [exact Hn|].
  rewrite Nat2Z.inj_succ, Z2Nat.id by apply Z.log2_nonneg.
  apply Z.log2_spec. lia.
Qed.

Lemma digits_power (n : Z) :
  (1 <= n)%Z ->
  B ^ (digits b n - 1) <= inject_Z n /\ inject_Z n < B ^ digits b n.
Proof.
  intro Hn. destruct (digits_spec n Hn) as (Hd & Hlo & Hhi).
  rewrite <- !Zpower_Qpower by lia.
  rewrite <- Zle_Qle, <- Zlt_Qlt. split; assumption.
Qed.

Lemma ilog_spec (q : Q) :
  0 < q -> B ^ ilog b q <= q /\ q < B ^ (ilog b q + 1).
Proof.
  intro Hq. unfold ilog.
  destruct q as [n d]. cbn [Qnum Qden].
  assert (Hn : (1 <= n)%Z).
  { unfold Qlt in Hq. simpl in Hq. lia. }
  destruct (digits_power n Hn) as [Hnlo Hnhi].
  destruct (digits_power (Z.pos d) ltac:(lia)) as [Hdlo Hdhi].
  set (dn := digits b n) in *. set (dd := digits b (Z.pos d)) in *.
  assert (Hd : 0 < inject_Z (Z.pos d)).
  { change 0 with (inject_Z 0). rewrite <- Zlt_Qlt. lia. }
  assert (Eq : n # d == inject_Z n / inject_Z (Z.pos d)) by apply Qmake_Qdiv.
  assert (Hup : n # d < B ^ (dn - dd + 1)).
  { rewrite Eq. apply Qlt_shift_div_r; [exact Hd|].
    apply Qlt_le_trans with (B ^ dn); [exact Hnhi|].
    replace dn with ((dn - dd + 1) + (dd - 1))%Z at 1 by lia.
    rewrite Qpower_plus by apply base_neq_0.
    apply Qmult_le_l; [apply power_pos|exact Hdlo]. }
  assert (Hdown : B ^ (dn - dd - 1) < n # d).
  { rewrite Eq. apply Qlt_shift_div_l; [exact Hd|].
    apply Qlt_le_trans with (B ^ (dn - 1)); [|exact Hnlo].
    replace (dn - 1)%Z with ((dn - dd - 1) + dd)%Z by lia.
    rewrite Qpower_plus by apply base_neq_0.
    apply Qmult_lt_l; [apply power_pos|exact Hdhi]. }
  destruct (Qle_bool (B ^ (dn - dd)) (n # d)) eqn:E.
  - apply Qle_bool_iff in E. split; [exact E|exact Hup].
  - split; [apply Qlt_le_weak; exact Hdown|].
    replace (dn - dd - 1 + 1)%Z with (dn - dd)%Z by lia.
    apply Qnot_le_lt. intro H. apply Qle_bool_iff in H. congruence.
Qed.

Lemma ilog_unique (q : Q) (k : Z) :
  B ^ k <= q -> q < B ^ (k + 1) -> ilog b q = k.
Proof.
  intros Hlo Hhi.
  assert (Hq : 0 < q) by (apply Qlt_le_trans with (B ^ k); [apply power_pos|exact Hlo]).
  destruct (ilog_spec q Hq) as [Ilo Ihi].
  assert (H1 : (ilog b q < k + 1)%Z).
  { apply (Qpower_lt_compat_l_inv B); [|apply base_gt_1].
    apply Qle_lt_trans with q; assumption. }
  assert (H2 : (k < ilog b q + 1)%Z).
  { apply (Qpower_lt_compat_l_inv B); [|apply base_gt_1].
    apply Qle_lt_trans with q; assumption. }
  lia.
Qed.

Lemma ilog_comp (x y : Q) : 0 < x -> x == y -> ilog b x = ilog b y.
Proof.
  intros Hx E. symmetry.
  destruct (ilog_spec x Hx) as [Hlo Hhi].
  apply ilog_unique; rewrite <- E; assumption.
Qed.

Lemma ilog_mono (x y : Q) : 0 < x -> x <= y -> (ilog b x <= ilog b y)%Z.
Proof.
  intros Hx Hxy.
  assert (Hy : 0 < y) by lra.
  destruct (ilog_spec x Hx) as [Hlo _].
  destruct (ilog_spec y Hy) as [_ Hhi].
  assert (H : (ilog b x < ilog b y + 1)%Z).
  { apply (Qpower_lt_compat_l_inv B); [|apply base_gt_1]. lra. }
  lia.
Qed.

Lemma ilog_power (k : Z) : ilog b (B ^ k) = k.
Proof.
  apply ilog_unique; [apply Qle_refl|].
  apply Qpower_lt_compat_l; [lia|apply base_gt_1].
Qed.

Variables prec emin : Z.
Hypothesis prec_ge_1 : (1 <= prec)%Z.

Local Abbreviation quantum := (quantum b prec emin).
Local Abbreviation round_pos := (round_pos b prec emin).
Local Abbreviation round := (round b prec emin).

Lemma quantum_comp (x y : Q) : 0 < x -> x == y -> quantum x = quantum y.
Proof.
  intros Hx E. unfold Rounding.quantum. rewrite (ilog_comp x y Hx E).
  reflexivity.
Qed.

Lemma quantum_mono (x y : Q) : 0 < x -> x <= y -> (quantum x <= quantum y)%Z.
Proof.
  intros Hx Hxy. unfold Rounding.quantum.
  pose proof (ilog_mono x y Hx Hxy). lia.
Qed.

Lemma round_pos_comp (x y : Q) : 0 < x -> x == y -> round_pos x == round_pos y.
Proof.
  intros Hx E. unfold Rounding.round_pos.
  rewrite (quantum_comp x y Hx E).
  assert (E' : x / B ^ quantum y == y / B ^ quantum y) by (rewrite E; reflexivity).
  rewrite (half_even_comp _ _ E'). reflexivity.
Qed.

Lemma round_pos_nonneg (x : Q) : 0 < x -> 0 <= round_pos x.
Proof.
  intro Hx. unfold Rounding.round_pos.
  apply Qmult_le_0_compat; [|apply Qlt_le_weak, power_pos].
  change 0 with (inject_Z 0). rewrite <- Zle_Qle.
  rewrite <- (half_even_Z 0). apply half_even_mono.
  change (inject_Z 0) with 0.
  apply Qle_shift_div_l; [apply power_pos|]. lra.
Qed.

(** What rounding leaves is within half a unit of the last digit kept. *)
Lemma round_pos_error (x : Q) :
  0 < x -> Qabs (round_pos x - x) <= (1 # 2) * B ^ quantum x.
Proof.
  intro Hx. unfold Rounding.round_pos.
  set (u := B ^ quantum x).
  assert (Hu : 0 < u) by apply power_pos.
  destruct (half_even_bounds (x / u)) as [Hlo Hhi].
  set (n := inject_Z (half_even (x / u))) in *.
  assert (E : x == (x / u) * u) by (field; lra).
  set (y := x / u) in *. clearbody y n.
  apply Qabs_Qle_condition. split; nra.
Qed.

Lemma round_pos_below (x : Q) (k : Z) :
  0 < x -> (quantum x <= k)%Z -> x <= B ^ (k + prec) ->
  round_pos x <= B ^ (k + prec).
Proof.
  intros Hx Hk Hle. unfold Rounding.round_pos.
  set (e := quantum x) in *.
  assert (Hsplit : B ^ (k + prec) == B ^ (k + prec - e) * B ^ e).
  { rewrite <- Qpower_plus by apply base_neq_0.
    replace (k + prec - e + e)%Z with (k + prec)%Z by lia. reflexivity. }
  rewrite Hsplit.
  apply Qmult_le_compat_r; [|apply Qlt_le_weak, power_pos].
  assert (Hz : inject_Z (b ^ (k + prec - e)) == B ^ (k + prec - e))
    by (apply Zpower_Qpower; lia).
  rewrite <- Hz, <- Zle_Qle.
  rewrite <- (half_even_Z (b ^ (k + prec - e))).
  apply half_even_mono. rewrite Hz.
  apply Qle_shift_div_r; [apply power_pos|].
  rewrite <- Hsplit. exact Hle.
Qed.

Lemma round_pos_above (x : Q) (k : Z) :
  0 < x -> (quantum x <= k)%Z -> B ^ k <= x -> B ^ k <= round_pos x.
Proof.
  intros Hx Hk Hle. unfold Rounding.round_pos.
  set (e := quantum x) in *.
  assert (Hsplit : B ^ k == B ^ (k - e) * B ^ e).
  { rewrite <- Qpower_plus by apply base_neq_0.
    replace (k - e + e)%Z with k by lia. reflexivity. }
  rewrite Hsplit at 1.
  apply Qmult_le_compat_r; [|apply Qlt_le_weak, power_pos].
  assert (Hz : inject_Z (b ^ (k - e)) == B ^ (k - e))
    by (apply Zpower_Qpower; lia).
  rewrite <- Hz, <- Zle_Qle.
  rewrite <- (half_even_Z (b ^ (k - e))) at 1.
  apply half_even_mono. rewrite Hz.
  apply Qle_shift_div_l; [apply power_pos|].
  rewrite <- Hsplit. exact Hle.
Qed.

Lemma round_pos_mono (x y : Q) :
  0 < x -> x <= y -> round_pos x <= round_pos y.
Proof.
  intros Hx Hxy.
  assert (Hy : 0 < y) by lra.
  pose proof (quantum_mono x y Hx Hxy) as He.
  destruct (Z.eq_dec (quantum x) (quantum y)) as [E|Hne].
  - unfold Rounding.round_pos. rewrite E.
    apply Qmult_le_compat_r; [|apply Qlt_le_weak, power_pos].
    rewrite <- Zle_Qle. apply half_even_mono.
    apply Qmult_le_compat_r; [exact Hxy|].
    apply Qlt_le_weak, Qinv_lt_0_compat, power_pos.
  - assert (Hlt : (quantum x < quantum y)%Z) by lia.
    destruct (ilog_spec x Hx) as [_ Hxhi].
    destruct (ilog_spec y Hy) as [Hylo _].
    assert (Ey : quantum y = (ilog b y - prec + 1)%Z).
    { unfold Rounding.quantum in *. lia. }
    assert (Hix : (ilog b x + 1 <= quantum x + prec)%Z).
    { unfold Rounding.quantum. lia. }
    apply Qle_trans with (B ^ (quantum x + prec)).
    + apply round_pos_below; [exact Hx|lia|].
      apply Qle_trans with (B ^ (ilog b x + 1)); [apply Qlt_le_weak, Hxhi|].
      apply Qpower_le_compat_l; [exact Hix|apply Qlt_le_weak, base_gt_1].
    + apply Qle_trans with (B ^ ilog b y).
      * apply Qpower_le_compat_l; [lia|apply Qlt_le_weak, base_gt_1].
      * apply round_pos_above; [exact Hy|lia|exact Hylo].
Qed.

Lemma round_zero (x : Q) : x == 0 -> round x = 0.
Proof.
  intro E. unfold Rounding.round.
  destruct (Qcompare_spec x 0) as [H|H|H]; [reflexivity|exfalso; lra..].
Qed.

Lemma round_of_pos (x : Q) : 0 < x -> round x = Qred (round_pos x).
Proof.
  intro H. unfold Rounding.round.
  destruct (Qcompare_spec x 0) as [H'|H'|H']; [exfalso; lra..|reflexivity].
Qed.

Lemma round_of_neg (x : Q) : x < 0 -> round x = Qred (- round_pos (- x)).
Proof.
  intro H. unfold Rounding.round.
  destruct (Qcompare_spec x 0) as [H'|H'|H'];
    [exfalso; lra|reflexivity|exfalso; lra].
Qed.

Lemma round_comp (x y : Q) : x == y -> round x = round y.
Proof.
  intro E.
  destruct (Q_dec x 0) as [[H|H]|H].
  - rewrite (round_of_neg x H), (round_of_neg y) by (rewrite <- E; exact H).
    apply Qred_complete.
    rewrite (round_pos_comp (- x) (- y)); [reflexivity|lra|rewrite E; reflexivity].
  - rewrite (round_of_pos x H), (round_of_pos y) by (rewrite <- E; exact H).
    apply Qred_complete, round_pos_comp; assumption.
  - rewrite (round_zero x H), (round_zero y) by (rewrite <- E; exact H).
    reflexivity.
Qed.

Lemma round_nonneg (x : Q) : 0 <= x -> 0 <= round x.
Proof.
  intro H. destruct (Qle_lt_or_eq _ _ H) as [Hpos|E].
  - rewrite (round_of_pos x Hpos), Qred_correct. apply round_pos_nonneg, Hpos.
  - rewrite (round_zero x); [apply Qle_refl|symmetry; exact E].
Qed.

Lemma round_opp (x : Q) : round (- x) == - round x.
Proof.
  destruct (Q_dec x 0) as [[H|H]|H].
  - rewrite (round_of_neg x H), (round_of_pos (- x)) by lra.
    rewrite !Qred_correct. ring.
  - rewrite (round_of_pos x H), (round_of_neg (- x)) by lra.
    rewrite !Qred_correct.
    rewrite (round_pos_comp (- - x) x); [reflexivity|lra|ring].
  - rewrite (round_zero x H), (round_zero (- x)) by lra. reflexivity.
Qed.

Lemma round_nonpos (x : Q) : x <= 0 -> round x <= 0.
Proof.
  intro H. pose proof (round_nonneg (- x) ltac:(lra)) as Hn.
  rewrite round_opp in Hn. lra.
Qed.

Theorem round_mono (x y : Q) : x <= y -> round x <= round y.
Proof.
  intro H.
  destruct (Qlt_le_dec 0 x) as [Hx|Hx].
  - rewrite (round_of_pos x Hx), (round_of_pos y) by lra.
    rewrite !Qred_correct. apply round_pos_mono; assumption.
  - destruct (Qlt_le_dec y 0) as [Hy|Hy].
    + assert (Hx' : x < 0) by lra.
      rewrite (round_of_neg x Hx'), (round_of_neg y Hy), !Qred_correct.
      apply Qopp_le_compat. apply round_pos_mono; lra.
    + apply Qle_trans with 0; [apply round_nonpos, Hx|apply round_nonneg, Hy].
Qed.

Theorem round_error (x : Q) :
  ~ x == 0 -> Qabs (round x - x) <= (1 # 2) * B ^ quantum (Qabs x).
Proof.
  intro Hx. destruct (Q_dec x 0) as [[H|H]|H]; [| |contradiction].
  - rewrite (round_of_neg x H), Qred_correct.
    rewrite (quantum_comp (Qabs x) (- x));
      [|rewrite Qabs_neg by lra; lra|apply Qabs_neg; lra].
    pose proof (round_pos_error (- x) ltac:(lra)) as He.
    assert (E : - round_pos (- x) - x == - (round_pos (- x) - - x)) by ring.
    rewrite E, Qabs_opp. exact He.
  - rewrite (round_of_pos x H), Qred_correct.
    rewrite (quantum_comp (Qabs x) x);
      [|rewrite Qabs_pos by lra; lra|apply Qabs_pos; lra].
    apply round_pos_error, H.
Qed.

(** Away from the smallest exponent the error is relative. *)
Theorem round_relative_error (x : Q) :
  ~ x == 0 -> (emin <= ilog b (Qabs x) - prec + 1)%Z ->
  Qabs (round x - x) <= (1 # 2) * B ^ (1 - prec) * Qabs x.
Proof.
  intros Hx Hmin.
  apply Qle_trans with ((1 # 2) * B ^ quantum (Qabs x));
    [apply round_error, Hx|].
  assert (Hpos : 0 < Qabs x).
  { destruct (Q_dec x 0) as [[H|H]|H]; [| |contradiction].
    - rewrite Qabs_neg; lra.
    - rewrite Qabs_pos; lra. }
  destruct (ilog_spec (Qabs x) Hpos) as [Hlo _].
  assert (E : quantum (Qabs x) = ((1 - prec) + ilog b (Qabs x))%Z).
  { unfold Rounding.quantum. lia. }
  rewrite E, Qpower_plus by apply base_neq_0.
  rewrite <- Qmult_assoc.
  apply Qmult_le_l; [reflexivity|].
  apply Qmult_le_l; [apply power_pos|exact Hlo].
Qed.

End RoundingFacts.


(** * Properties *)

(** ** Boolean tests against the order on [Q] *)

Lemma Qeqb_true (a b : Q) : Qeqb a b = true <-> a == b.
Proof. unfold Qeqb. apply Qeq_bool_iff. Qed.

Lemma Qeqb_false (a b : Q) : Qeqb a b = false <-> ~ a == b.
Proof.
  rewrite <- Qeqb_true. destruct (Qeqb a b); split; intro H;
    try reflexivity; try discriminate; try (intro; discriminate).
  exfalso. apply H. reflexivity.
Qed.

Lemma Qleb_true (a b : Q) : Qleb a b = true <-> a <= b.
Proof. unfold Qleb. apply Qle_bool_iff. Qed.

Lemma Qleb_false (a b : Q) : Qleb a b = false <-> b < a.
Proof.
  split; intro H.
  - apply Qnot_le_lt. intro Hle. apply Qleb_true in Hle. congruence.
  - destruct (Qleb a b) eqn:E; [|reflexivity].
    apply Qleb_true in E. exfalso. apply (Qlt_not_le _ _ H E).
Qed.

Lemma Qltb_true (a b : Q) : Qltb a b = true <-> a < b.
Proof.
  unfold Qltb. rewrite negb_true_iff. apply Qleb_false.
Qed.

Lemma Qltb_false (a b : Q) : Qltb a b = false <-> b <= a.
Proof.
  unfold Qltb. rewrite negb_false_iff. apply Qleb_true.
Qed.

Lemma Qmaxb_spec (a b : Q) : Qmaxb a b == Qmax a b.
Proof.
  unfold Qmaxb. destruct (Qltb a b) eqn:E.
  - apply Qltb_true in E. symmetry. apply Q.max_r. apply Qlt_le_weak, E.
  - apply Qltb_false in E. symmetry. apply Q.max_l. exact E.
Qed.

Lemma Qminb_spec (a b : Q) : Qminb a b == Qmin a b.
Proof.
  unfold Qminb. destruct (Qltb b a) eqn:E.
  - apply Qltb_true in E. symmetry. apply Q.min_r. apply Qlt_le_weak, E.
  - apply Qltb_false in E. symmetry. apply Q.min_l. exact E.
Qed.

(** ** The numeral reader on a few inputs *)

Example parse_decimal_examples :
  Py.parse_decimal "1000" = Some 1000 /\
  Py.parse_decimal "-3" = Some (-3) /\
  Py.parse_decimal "0.05" = Some (1 # 20) /\
  Py.parse_decimal " 1.5e3 " = Some 1500 /\
  Py.parse_decimal "1e7" = Some 10000000 /\
  Py.parse_decimal "25E-1" = Some (5 # 2) /\
  Py.parse_decimal ".5" = Some (1 # 2) /\
  Py.parse_decimal "5." = Some 5 /\
  Py.parse_decimal "1_000.5_" = Some (2001 # 2) /\
  Py.parse_decimal "abc" = None /\
  Py.parse_decimal "" = None /\
  Py.parse_decimal "1.2.3" = None /\
  Py.parse_decimal "1 2" = None /\
  Py.parse_decimal "1e" = None /\
  Py.parse_decimal "None" = None.
Proof. repeat split; vm_compute; reflexivity. Qed.

(** The special values are numerals of [Decimal] too, and exponents past
    the reach of the type are not. *)
Example read_literal_examples :
  Py.read_literal "Infinity" = Some (Py.Infinity false) /\
  Py.read_literal "-inf" = Some (Py.Infinity true) /\
  Py.read_literal " NaN " = Some Py.NaN /\
  Py.read_literal "sNaN12" = Some Py.NaN /\
  Py.read_literal "infinit" = None /\
  Py.read_literal "nan1e2" = None /\
  Py.read_literal "1e1000000000000000000" = None /\
  Py.parse_decimal "Infinity" = None /\
  Py.decimal_of (Py.VStr "NaN") = Raise InvalidOperation.
Proof. repeat split; vm_compute; reflexivity. Qed.

(** ** Rule comparison *)

Section CompareValues.

Import AlertRuleEvaluator.

Lemma compare_unknown_operator (actual threshold : float) (comparison : string) :
  known_operator comparison = false ->
  _compare_values actual threshold comparison = false.
Proof.
  unfold known_operator, _compare_values. simpl.
  destruct (String.eqb comparison "<"); [discriminate|].
  destruct (String.eqb comparison "<="); [discriminate|].
  destruct (String.eqb comparison ">"); [discriminate|].
  destruct (String.eqb comparison ">="); [discriminate|].
  destruct (String.eqb comparison "=="); [discriminate|].
  reflexivity.
Qed.

(** *** binary64 *)

Local Abbreviation r64 := (Rounding.round 2 53 (-1074)).

Lemma two_le_two : (2 <= 2)%Z.
Proof. lia. Qed.

Lemma one_le_53 : (1 <= 53)%Z.
Proof. lia. Qed.

Lemma above_spec (r : Q) :
  Rounding.above 2 1023 r = true
  <-> ~ r == 0 /\ (1023 < Rounding.ilog 2 (Qabs r))%Z.
Proof.
  unfold Rounding.above. rewrite andb_true_iff, negb_true_iff, Z.ltb_lt.
  split; intros [H1 H2]; (split; [|exact H2]).
  - apply Qeq_bool_neq, H1.
  - destruct (Qeq_bool r 0) eqn:E; [|reflexivity].
    apply Qeq_bool_iff in E. contradiction.
Qed.

(** A number at least as far from zero as one that overflows overflows. *)
Lemma above_further (u v : Q) :
  Qabs u <= Qabs v ->
  Rounding.above 2 1023 u = true -> Rounding.above 2 1023 v = true.
Proof.
  intros H Hu. apply above_spec in Hu. destruct Hu as [Hu0 Hu].
  assert (Hpos : 0 < Qabs u).
  { destruct (Qle_lt_or_eq _ _ (Qabs_nonneg u)) as [Hp|Hz]; [exact Hp|].
    exfalso. apply Hu0. destruct (Q_dec u 0) as [[Hn|Hn]|Hn]; [| |exact Hn].
    - rewrite Qabs_neg in Hz by lra. lra.
    - rewrite Qabs_pos in Hz by lra. lra. }
  apply above_spec. split.
  - intro Hv. rewrite Hv in H. change (Qabs 0) with 0 in H. lra.
  - pose proof (ilog_mono 2 two_le_two _ _ Hpos H). lia.
Qed.

(** Rounding to binary64 keeps the order. *)
Lemma round64_mono (x y : Q) : x <= y -> fle (round64 x) (round64 y) = true.
Proof.
  intro H. unfold round64.
  pose proof (round_mono 2 two_le_two 53 (-1074) one_le_53 x y H) as Hr.
  destruct (Rounding.above 2 1023 (r64 x)) eqn:Ax;
    destruct (Rounding.above 2 1023 (r64 y)) eqn:Ay.
  - destruct (Qleb 0 x) eqn:Ex; [|reflexivity].
    apply Qleb_true in Ex.
    assert (Ey : Qleb 0 y = true) by (apply Qleb_true; lra).
    rewrite Ey. reflexivity.
  - destruct (Qleb 0 x) eqn:Ex; [|reflexivity].
    exfalso. apply Qleb_true in Ex.
    pose proof (round_nonneg 2 two_le_two 53 (-1074) x Ex) as H0.
    assert (Ha : Rounding.above 2 1023 (r64 y) = true).
    { apply (above_further (r64 x)); [|exact Ax].
      rewrite !Qabs_pos by lra. exact Hr. }
    congruence.
  - destruct (Qleb 0 y) eqn:Ey; [reflexivity|].
    exfalso. apply Qleb_false in Ey.
    pose proof (round_nonpos 2 two_le_two 53 (-1074) y
                  (Qlt_le_weak _ _ Ey)) as H0.
    assert (Ha : Rounding.above 2 1023 (r64 x) = true).
    { apply (above_further (r64 y)); [|exact Ay].
      rewrite !Qabs_neg by lra. lra. }
    congruence.
  - apply Qleb_true, Hr.
Qed.

Lemma literal_0_001 :
  round64 (1 # 1000) = FFin double_0_001
  /\ round64 (- (1 # 1000)) = FFin (- double_0_001)
  /\ round64 below_0_001 = FFin below_0_001
  /\ round64 (- below_0_001) = FFin (- below_0_001)
  /\ 1 # 1000 < double_0_001
  /\ below_0_001 < 1 # 1000
  /\ (999999999999999 # 1000000000000000000) <= below_0_001.
Proof.
  repeat split; try (vm_compute; reflexivity); vm_compute; discriminate.
Qed.

Lemma fle_inv (a b : float) : fle a b = true -> float_le a b.
Proof.
  destruct a as [x|[]|], b as [y|[]|]; simpl; intro H;
    try discriminate H; try exact I;
    try (apply Qleb_true, H); auto.
Qed.

(** The tolerance of [==] seen from the exact difference: the comparison
    fails from 0.001 on. *)
Lemma compare_eq_far (x y : Q) :
  1 # 1000 <= Qabs (x - y) ->
  _compare_values (FFin x) (FFin y) "==" = false.
Proof.
  intro H. unfold _compare_values. simpl.
  destruct literal_0_001 as (Ec & Ec' & _).
  rewrite Ec.
  destruct (Qlt_le_dec (x - y) 0) as [Hd|Hd].
  - rewrite Qabs_neg in H by lra.
    pose proof (round64_mono (x - y) (- (1 # 1000)) ltac:(lra)) as Hm.
    rewrite Ec' in Hm. apply fle_inv in Hm.
    destruct (round64 (x - y)) as [r|[]|]; simpl in Hm |- *;
      try contradiction; try reflexivity.
    apply Qltb_false. rewrite Qabs_neg; unfold double_0_001 in *; lra.
  - rewrite Qabs_pos in H by lra.
    pose proof (round64_mono (1 # 1000) (x - y) H) as Hm.
    rewrite Ec in Hm. apply fle_inv in Hm.
    destruct (round64 (x - y)) as [r|[]|]; simpl in Hm |- *;
      try contradiction; try reflexivity.
    apply Qltb_false. rewrite Qabs_pos; unfold double_0_001 in *; lra.
Qed.

(** ... and holds up to the double below that of 0.001. *)
Lemma compare_eq_near (x y : Q) :
  Qabs (x - y) <= below_0_001 ->
  _compare_values (FFin x) (FFin y) "==" = true.
Proof.
  intro H. unfold _compare_values. simpl.
  destruct literal_0_001 as (Ec & _ & Eb & Eb' & _).
  rewrite Ec.
  apply Qabs_Qle_condition in H. destruct H as [Hlo Hhi].
  pose proof (round64_mono _ _ Hlo) as Mlo. rewrite Eb' in Mlo.
  pose proof (round64_mono _ _ Hhi) as Mhi. rewrite Eb in Mhi.
  apply fle_inv in Mlo, Mhi.
  destruct (round64 (x - y)) as [r|[]|]; simpl in Mlo, Mhi |- *;
    try contradiction.
  apply Qltb_true.
  apply Qle_lt_trans with below_0_001.
  - apply Qabs_Qle_condition. split; assumption.
  - vm_compute. reflexivity.
Qed.

(** An infinite or undefined actual value is never equal to a threshold. *)
Lemma compare_eq_not_finite (actual threshold : float) :
  (forall q, actual <> FFin q) ->
  _compare_values actual threshold "==" = false.
Proof.
  intro H. unfold _compare_values. simpl.
  destruct actual as [q| |]; [exfalso; apply (H q); reflexivity| |];
    destruct threshold as [t|[]|]; try destruct negative; reflexivity.
Qed.

Lemma compare_eq_infinite_threshold (actual threshold : float) :
  (forall q, threshold <> FFin q) ->
  _compare_values actual threshold "==" = false.
Proof.
  intro H. unfold _compare_values. simpl.
  destruct threshold as [q| |]; [exfalso; apply (H q); reflexivity| |];
    destruct actual as [t|[]|]; try destruct negative; reflexivity.
Qed.

Lemma flt_spec (a b : float) : flt a b = true <-> float_lt a b.
Proof.
  destruct a as [x|[]|], b as [y|[]|]; simpl;
    try solve [ split; [discriminate|intros []]
              | split; [intros _; exact I|reflexivity] ].
  apply Qltb_true.
Qed.

Lemma fle_spec (a b : float) : fle a b = true <-> float_le a b.
Proof.
  destruct a as [x|[]|], b as [y|[]|]; simpl;
    try solve [ split; [discriminate|intros []]
              | split; [intros _; exact I|reflexivity]
              | split; [intros _; auto|reflexivity]
              | split; [discriminate|intros [H|H]; discriminate H] ].
  apply Qleb_true.
Qed.

(** C8.  The comparison of a rule on every pair of floats, the infinities
    and NaN included.  With [<], [<=], [>], [>=] it is the order of the
    floats.  With [==] it holds exactly when the absolute value of the
    binary64 difference [actual - threshold] is below the double of the
    literal [0.001]; for finite values this implies that the exact
    difference is below 0.001 in absolute value and is implied by its
    being at most 0.000999999999999999, and an infinite or undefined
    operand makes it false.  With any other operator string the result is
    false.  The function is total: no operand and no operator makes it
    raise. *)
Theorem compare_values_spec :
  (forall a t : float,
      (_compare_values a t "<" = true <-> float_lt a t)
      /\ (_compare_values a t "<=" = true <-> float_le a t)
      /\ (_compare_values a t ">" = true <-> float_lt t a)
      /\ (_compare_values a t ">=" = true <-> float_le t a)
      /\ (_compare_values a t "==" = true
          <-> float_lt (fabs (fsub a t)) (round64 (1 # 1000)))
      /\ (_compare_values a t "==" = true -> is_finite a /\ is_finite t))
  /\ (forall x y : Q,
         (_compare_values (FFin x) (FFin y) "==" = true
          -> Qabs (x - y) < 1 # 1000)
         /\ (Qabs (x - y) <= 999999999999999 # 1000000000000000000
             -> _compare_values (FFin x) (FFin y) "==" = true))
  /\ (forall (actual threshold : float) (comparison : string),
         comparison <> "<"%string -> comparison <> "<="%string ->
         comparison <> ">"%string -> comparison <> ">="%string ->
         comparison <> "=="%string ->
         _compare_values actual threshold comparison = false).
Proof.
  split; [|split].
  - intros a t. unfold _compare_values. simpl.
    split; [apply flt_spec|]. split; [apply fle_spec|].
    split; [apply flt_spec|]. split; [apply fle_spec|].
    split; [apply flt_spec|].
    intro H. apply flt_spec in H.
    destruct a as [x|[]|], t as [y|[]|]; simpl in H |- *;
      try contradiction; split; exact I.
  - intros x y. split.
    + intro H. apply Qnot_le_lt. intro Hfar.
      rewrite (compare_eq_far x y Hfar) in H. discriminate H.
    + intro H. apply compare_eq_near.
      destruct literal_0_001 as (_ & _ & _ & _ & _ & _ & Hk). lra.
  - intros actual threshold comparison H1 H2 H3 H4 H5.
    apply compare_unknown_operator. unfold known_operator. simpl.
    apply String.eqb_neq in H1, H2, H3, H4, H5.
    rewrite H1, H2, H3, H4, H5. reflexivity.
Qed.

(** The five operators on doubles, among them the double of 10.001
    against 10 and the infinite margin ratio of an account without
    positions. *)
Example compare_values_examples :
  _compare_values (round64 (10001 # 1000)) (FFin 10) "==" = true
  /\ _compare_values (round64 (10002 # 1000)) (FFin 10) "==" = false
  /\ _compare_values (FInf false) (FInf false) "==" = false
  /\ _compare_values (FInf false) (FFin 10) ">" = true
  /\ _compare_values (FInf false) (FInf false) ">=" = true
  /\ _compare_values FNaN (FFin 10) "<=" = false
  /\ _compare_values (FFin 8) (FFin 10) "<" = true
  /\ _compare_values (FFin 8) (FFin 10) "!=" = false.
Proof. repeat split; vm_compute; reflexivity. Qed.

(** Between the two bounds the rounding of the difference decides: this
    pair of doubles is less than 0.001 apart and yet not equal. *)
Example compare_eq_at_the_margin :
  let a := below_0_001 in
  let t := - (3 # 18446744073709551616) in
  round64 a = FFin a /\ round64 t = FFin t
  /\ Qabs (a - t) < 1 # 1000
  /\ _compare_values (FFin a) (FFin t) "==" = false.
Proof. repeat split; vm_compute; reflexivity. Qed.

End CompareValues.

(** ** Exceptions *)

Lemma bind_ok_inv {A B} (c : result A) (k : A -> result B) (b : B) :
  bind c k = Ok b -> exists a, c = Ok a /\ k a = Ok b.
Proof.
  destruct c as [a|e]; simpl; intro H; [|discriminate H].
  exists a. split; [reflexivity|exact H].
Qed.

(** Peels the leading binds of a hypothesis [H : ... = Ok _]. *)
Ltac bind_inv H :=
  repeat
    (let a := fresh "v" in
     let E := fresh "E" in
     apply bind_ok_inv in H; destruct H as (a & E & H); cbv beta in H).

(** ** Margin ratio, liquidation distance and their serialisation *)

Section MarginRatio.

Import RiskCalculator.

Lemma margin_ratio_zero_requirement (equity requirement : Q) :
  requirement == 0 -> calculate_margin_ratio equity requirement = Decimal_inf.
Proof.
  intro H. unfold calculate_margin_ratio.
  apply Qeqb_true in H. rewrite H. reflexivity.
Qed.

Lemma margin_ratio_positive_requirement (equity requirement : Q) :
  ~ requirement == 0 ->
  calculate_margin_ratio equity requirement = Fin (equity / requirement).
Proof.
  intro H. unfold calculate_margin_ratio.
  apply Qeqb_false in H. rewrite H. reflexivity.
Qed.

(** Equity equal to the requirement is the liquidation boundary. *)
Example at_the_boundary :
  exists ratio distance,
    calculate_margin_ratio 500 500 = Fin ratio
    /\ ratio == 1
    /\ calculate_liquidation_distance (Fin ratio) = Fin distance
    /\ distance == 0.
Proof. do 2 eexists. repeat split. Qed.

Lemma liquidation_distance_inf :
  calculate_liquidation_distance Decimal_inf = Decimal_inf.
Proof. reflexivity. Qed.

Lemma safe_float_inf : safe_float (Some Decimal_inf) = None.
Proof. reflexivity. Qed.

(** What a successful run of the body stores in the two ratio fields. *)
Lemma risk_metrics_body_ratio sd markets m :
  risk_metrics_body sd markets = Ok m ->
  exists equity positions total details,
    Py.get_default sd "positions" (Py.VDict []) = Ok positions
    /\ calculate_maintenance_requirement positions markets []
       = Ok (total, details)
    /\ margin_ratio m = calculate_margin_ratio equity total
    /\ liquidation_distance_percent m
       = calculate_liquidation_distance (calculate_margin_ratio equity total).
Proof.
  unfold risk_metrics_body. intro H.
  bind_inv H.
  destruct v4 as [total details].
  bind_inv H.
  destruct v4 as [initial initial_details].
  bind_inv H.
  exists v0, v3, total, details.
  injection H as <-. simpl. auto.
Qed.

(** Whatever the run, a zero computed requirement leaves the sentinel in
    both fields of the result. *)
Lemma zero_requirement_metrics sd markets positions total details :
  Py.get_default sd "positions" (Py.VDict []) = Ok positions ->
  calculate_maintenance_requirement positions markets [] = Ok (total, details) ->
  total == 0 ->
  margin_ratio (calculate_risk_metrics sd markets) = Decimal_inf
  /\ liquidation_distance_percent (calculate_risk_metrics sd markets)
     = Decimal_inf.
Proof.
  intros Hpos Hreq Hzero. unfold calculate_risk_metrics.
  destruct (risk_metrics_body sd markets) as [m|e] eqn:Hbody; simpl.
  - destruct (risk_metrics_body_ratio _ _ _ Hbody)
      as (equity & positions' & total' & details' & Hp & Hr & Hm & Hd).
    rewrite Hpos in Hp. injection Hp as <-.
    rewrite Hreq in Hr. injection Hr as <- <-.
    rewrite Hm, Hd, (margin_ratio_zero_requirement _ _ Hzero).
    split; reflexivity.
  - split; reflexivity.
Qed.

Lemma to_dict_sentinel (m : RiskMetrics) :
  margin_ratio m = Decimal_inf ->
  liquidation_distance_percent m = Decimal_inf ->
  d_margin_ratio (to_dict m) = None
  /\ d_liquidation_distance_percent (to_dict m) = None.
Proof.
  intros Hm Hd. unfold to_dict. simpl. rewrite Hm, Hd. split; reflexivity.
Qed.

(** C2. With a total maintenance requirement of 0,
    [calculate_margin_ratio] returns the infinite sentinel,
    [calculate_liquidation_distance] maps that sentinel to itself, and the
    metrics [calculate_risk_metrics] builds for such an account serialise
    through [to_dict] with [None] for both [margin_ratio] and
    [liquidation_distance_percent]. *)
Theorem zero_requirement_serializes_null :
  forall (equity requirement : Q) sd markets positions details,
    requirement == 0 ->
    Py.get_default sd "positions" (Py.VDict []) = Ok positions ->
    calculate_maintenance_requirement positions markets []
    = Ok (requirement, details) ->
    calculate_margin_ratio equity requirement = Decimal_inf
    /\ calculate_liquidation_distance
         (calculate_margin_ratio equity requirement) = Decimal_inf
    /\ margin_ratio (calculate_risk_metrics sd markets) = Decimal_inf
    /\ liquidation_distance_percent (calculate_risk_metrics sd markets)
       = Decimal_inf
    /\ d_margin_ratio (to_dict (calculate_risk_metrics sd markets)) = None
    /\ d_liquidation_distance_percent
         (to_dict (calculate_risk_metrics sd markets)) = None.
Proof.
  intros equity requirement sd markets positions details Hzero Hpos Hreq.
  destruct (zero_requirement_metrics _ _ _ _ _ Hpos Hreq Hzero) as [Hm Hd].
  rewrite (margin_ratio_zero_requirement _ _ Hzero).
  repeat split; try assumption; try reflexivity;
    apply to_dict_sentinel; assumption.
Qed.

Lemma zero_requirement_serializes_null_witness :
  calculate_margin_ratio 1000 0 = Decimal_inf
  /\ calculate_liquidation_distance (calculate_margin_ratio 1000 0)
     = Decimal_inf
  /\ margin_ratio (calculate_risk_metrics no_positions_account None)
     = Decimal_inf
  /\ liquidation_distance_percent
       (calculate_risk_metrics no_positions_account None) = Decimal_inf
  /\ d_margin_ratio (to_dict (calculate_risk_metrics no_positions_account None))
     = None
  /\ d_liquidation_distance_percent
       (to_dict (calculate_risk_metrics no_positions_account None)) = None.
Proof.
  apply (zero_requirement_serializes_null 1000 0 no_positions_account None
           (Py.VDict []) []); reflexivity.
Defined.

End MarginRatio.

(** ** The decimal context *)

Section DecimalContext.

Lemma two_le_ten : (2 <= 10)%Z.
Proof. lia. Qed.

Lemma ctx_round_comp (x y : Q) : x == y -> Ctx.round x = Ctx.round y.
Proof.
  intro E. unfold Ctx.round.
  rewrite (round_comp 10 two_le_ten Ctx.prec Ctx.Etiny x y E). reflexivity.
Qed.

Lemma ctx_exact_inv (q : Q) :
  Ctx.exact q = true -> exists r, Ctx.round q = Ok r /\ r == q.
Proof.
  unfold Ctx.exact. destruct (Ctx.round q) as [r|e]; [|discriminate].
  intro H. exists r. split; [reflexivity|apply Qeqb_true, H].
Qed.

Lemma ctx_round_value (q r : Q) :
  Ctx.round q = Ok r -> r = Rounding.round 10 Ctx.prec Ctx.Etiny q.
Proof.
  unfold Ctx.round.
  destruct (Rounding.above 10 Ctx.Emax _); [discriminate|].
  intro H. injection H as <-. reflexivity.
Qed.

(** A result within the exponent range is within 5 units of the 29th
    digit of the exact value. *)
Lemma ctx_round_error (q r : Q) :
  Ctx.round q = Ok r ->
  (Ctx.Emin <= Rounding.ilog 10 (Qabs q))%Z ->
  Qabs (r - q) <= (5 # 10000000000000000000000000000) * Qabs q.
Proof.
  intros H Hmin. rewrite (ctx_round_value _ _ H).
  destruct (Qeq_dec q 0) as [Hz|Hq].
  - rewrite (round_zero _ _ _ _ Hz).
    assert (E : 0 - q == 0) by lra.
    rewrite E, Hz. vm_compute. discriminate.
  - pose proof (round_relative_error 10 two_le_ten Ctx.prec Ctx.Etiny q Hq)
      as He.
    assert (Ek : (1 # 2) * inject_Z 10 ^ (1 - Ctx.prec)
                 == 5 # 10000000000000000000000000000)
      by (vm_compute; reflexivity).
    rewrite Ek in He. apply He.
    unfold Ctx.Etiny, Ctx.Emin, Ctx.prec in *. lia.
Qed.

End DecimalContext.

(** ** Isolated liquidation price *)

Section IsolatedLiquidationPrice.

Import RiskCalculator.

(** Without an oracle price there is no liquidation price either. *)
Lemma isolated_price_no_oracle (equity size fraction : Q) :
  calculate_isolated_liquidation_price equity size None fraction = Ok None.
Proof. reflexivity. Qed.

(** The function in terms of its computed denominator and quotient. *)
Lemma isolated_price_unfold (equity size oracle fraction : Q) :
  calculate_isolated_liquidation_price equity size (Some oracle) fraction
  = (denominator <- computed_denominator size fraction ;;
     if Qeqb denominator 0 then Ok None
     else Ok match computed_quotient equity size oracle denominator with
             | Ok price => Some price
             | Raise _ => None
             end).
Proof.
  unfold calculate_isolated_liquidation_price, computed_denominator,
    computed_quotient.
  destruct (Ctx.abs size) as [a|]; [|reflexivity]. cbn [bind].
  destruct (Ctx.mul a fraction) as [m|]; [|reflexivity]. cbn [bind].
  destruct (Ctx.sub m size) as [d|]; [|reflexivity]. cbn [bind].
  destruct (Qeqb d 0); [reflexivity|]. f_equal.
  destruct (Ctx.mul size oracle) as [v|]; [|reflexivity]. cbn [bind].
  destruct (Ctx.sub equity v) as [n|]; [|reflexivity]. cbn [bind].
  destruct (Ctx.div n d); reflexivity.
Qed.

(** Where the three steps to the denominator lose no digit, the computed
    denominator is the exact one. *)
Lemma computed_denominator_exact (size fraction : Q) :
  Ctx.exact (Qabs size) = true ->
  Ctx.exact (Qabs size * fraction) = true ->
  Ctx.exact (Qabs size * fraction - size) = true ->
  exists d, computed_denominator size fraction = Ok d
            /\ d == Qabs size * fraction - size.
Proof.
  intros H1 H2 H3. unfold computed_denominator, Ctx.abs, Ctx.mul, Ctx.sub.
  destruct (ctx_exact_inv _ H1) as (a & Ea & Ha). rewrite Ea. cbn [bind].
  rewrite (ctx_round_comp (a * fraction) (Qabs size * fraction))
    by (rewrite Ha; reflexivity).
  destruct (ctx_exact_inv _ H2) as (m & Em & Hm). rewrite Em. cbn [bind].
  rewrite (ctx_round_comp (m - size) (Qabs size * fraction - size))
    by (rewrite Hm; reflexivity).
  destruct (ctx_exact_inv _ H3) as (d & Ed & Hd).
  exists d. split; assumption.
Qed.

(** Where the two steps to the numerator lose no digit either, the
    computed quotient is the exact quotient rounded once. *)
Lemma computed_quotient_exact (equity size oracle d denominator : Q) :
  d == denominator -> ~ denominator == 0 ->
  Ctx.exact (size * oracle) = true ->
  Ctx.exact (equity - size * oracle) = true ->
  computed_quotient equity size oracle d
  = Ctx.round ((equity - size * oracle) / denominator).
Proof.
  intros Hd Hnz H1 H2. unfold computed_quotient, Ctx.mul, Ctx.sub, Ctx.div.
  destruct (ctx_exact_inv _ H1) as (v & Ev & Hv). rewrite Ev. cbn [bind].
  rewrite (ctx_round_comp (equity - v) (equity - size * oracle))
    by (rewrite Hv; reflexivity).
  destruct (ctx_exact_inv _ H2) as (n & En & Hn). rewrite En. cbn [bind].
  assert (E : Qeqb d 0 = false) by (apply Qeqb_false; rewrite Hd; exact Hnz).
  rewrite E. apply ctx_round_comp. rewrite Hn, Hd. reflexivity.
Qed.

(** C3, as the code has it.  [calculate_isolated_liquidation_price]
    evaluates (equity - size * oracle_price) / (|size| *
    maintenance_fraction - size) in the decimal context, every operation
    rounded to 28 digits.  It is [None] without an oracle price, when the
    computed denominator is 0 and when the quotient cannot be computed; an
    overflow on the way to the denominator is raised.  Where the products
    and differences involved lose no digit, the result is [None] exactly
    when the denominator is 0 and is otherwise the exact quotient rounded
    once, within 5e-28 of it in relative terms.  For equity 1000, a short
    of 3, oracle price 3000 and maintenance fraction 0.05 the result is
    3174.603174603174603174603175, within relative tolerance 1e-5 of
    3174.603, and at that price the recomputed equity and the recomputed
    maintenance requirement, rounded or not, are within 1e-20 of each
    other. *)
Theorem isolated_liquidation_price_spec :
  (forall equity size fraction : Q,
      calculate_isolated_liquidation_price equity size None fraction = Ok None)
  /\ (forall equity size oracle fraction : Q,
         let price :=
           calculate_isolated_liquidation_price equity size (Some oracle)
                                                fraction in
         (forall e, computed_denominator size fraction = Raise e ->
                    price = Raise e)
         /\ (forall d, computed_denominator size fraction = Ok d ->
                       (d == 0 -> price = Ok None)
                       /\ (~ d == 0 ->
                           price
                           = Ok match computed_quotient equity size oracle d with
                                | Ok value => Some value
                                | Raise _ => None
                                end)))
  /\ (forall equity size oracle fraction : Q,
         let denominator := Qabs size * fraction - size in
         let numerator := equity - size * oracle in
         let price :=
           calculate_isolated_liquidation_price equity size (Some oracle)
                                                fraction in
         Ctx.exact (Qabs size) = true ->
         Ctx.exact (Qabs size * fraction) = true ->
         Ctx.exact denominator = true ->
         (denominator == 0 -> price = Ok None)
         /\ (~ denominator == 0 ->
             Ctx.exact (size * oracle) = true ->
             Ctx.exact numerator = true ->
             price = Ok match Ctx.round (numerator / denominator) with
                        | Ok value => Some value
                        | Raise _ => None
                        end
             /\ forall value,
                 price = Ok (Some value) ->
                 (Ctx.Emin <= Rounding.ilog 10 (Qabs (numerator / denominator)))%Z ->
                 Qabs (value - numerator / denominator)
                 <= (5 # 10000000000000000000000000000)
                    * Qabs (numerator / denominator)))
  /\ (exists price requirement,
         calculate_isolated_liquidation_price 1000 (-3) (Some 3000) (5 # 100)
         = Ok (Some price)
         /\ price == 3174603174603174603174603175 # 1000000000000000000000000
         /\ Qabs (price - (3174603 # 1000)) <= (1 # 100000) * (3174603 # 1000)
         /\ (magnitude <- Ctx.abs (-3) ;;
             notional <- Ctx.mul magnitude price ;;
             Ctx.mul notional (5 # 100)) = Ok requirement
         /\ Qabs (equity_at_price 1000 (-3) 3000 price - requirement)
            <= 1 # 100000000000000000000
         /\ Qabs (equity_at_price 1000 (-3) 3000 price
                  - Qabs (-3) * price * (5 # 100))
            <= 1 # 100000000000000000000).
Proof.
  split; [|split; [|split]].
  - intros. reflexivity.
  - intros equity size oracle fraction price. unfold price.
    rewrite isolated_price_unfold. split.
    + intros e ->. reflexivity.
    + intros d ->. cbn [bind]. split.
      * intro H. apply Qeqb_true in H. rewrite H. reflexivity.
      * intro H. apply Qeqb_false in H. rewrite H. reflexivity.
  - intros equity size oracle fraction denominator numerator price H1 H2 H3.
    unfold price. rewrite isolated_price_unfold.
    destruct (computed_denominator_exact size fraction H1 H2 H3)
      as (d & -> & Hd).
    cbn [bind]. fold denominator in Hd. split.
    + intro Hz. rewrite <- Hd in Hz. apply Qeqb_true in Hz. rewrite Hz.
      reflexivity.
    + intros Hnz H4 H5.
      assert (E : Qeqb d 0 = false) by (apply Qeqb_false; rewrite Hd; exact Hnz).
      rewrite E.
      rewrite (computed_quotient_exact equity size oracle d denominator
                 Hd Hnz H4 H5).
      fold numerator. split; [reflexivity|].
      intros value Hv Hmin.
      destruct (Ctx.round (numerator / denominator)) as [r|] eqn:Er;
        [|discriminate Hv].
      injection Hv as <-.
      apply (ctx_round_error _ _ Er Hmin).
  - eexists. eexists.
    split; [vm_compute; reflexivity|].
    split; [vm_compute; reflexivity|].
    split; [vm_compute; discriminate|].
    split; [vm_compute; reflexivity|].
    split; vm_compute; discriminate.
Qed.

Lemma isolated_liquidation_price_spec_witness :
  calculate_isolated_liquidation_price 1000 (-3) (Some 3000) (5 # 100)
  = Ok match Ctx.round ((1000 - (-3) * 3000)
                        / (Qabs (-3) * (5 # 100) - (-3))) with
       | Ok value => Some value
       | Raise _ => None
       end.
Proof.
  apply (proj1 (proj2 (proj2 isolated_liquidation_price_spec))
               1000 (-3) 3000 (5 # 100));
    try (vm_compute; reflexivity).
  vm_compute. discriminate.
Defined.

(** The two exact statements of the specification fail.  At its own
    example the
    recomputed equity is 476.190476190476190476190475 and the recomputed
    maintenance requirement 476.19047619047619047619047625, or
    476.1904761904761904761904762 once rounded.  And with a size of 1 and
    a maintenance fraction of 1 + 1e-40 the denominator is 1e-40, yet it is
    computed as 0 and the result is [None]. *)
Lemma isolated_price_is_rounded :
  (exists price requirement,
      calculate_isolated_liquidation_price 1000 (-3) (Some 3000) (5 # 100)
      = Ok (Some price)
      /\ equity_at_price 1000 (-3) 3000 price
         == 476190476190476190476190475 # 1000000000000000000000000
      /\ Qabs (-3) * price * (5 # 100)
         == 47619047619047619047619047625 # 100000000000000000000000000
      /\ (magnitude <- Ctx.abs (-3) ;;
          notional <- Ctx.mul magnitude price ;;
          Ctx.mul notional (5 # 100)) = Ok requirement
      /\ requirement
         == 4761904761904761904761904762 # 10000000000000000000000000
      /\ ~ equity_at_price 1000 (-3) 3000 price
           == Qabs (-3) * price * (5 # 100)
      /\ ~ equity_at_price 1000 (-3) 3000 price == requirement)
  /\ (let fraction := 1 + (1 # 10000000000000000000000000000000000000000) in
      calculate_isolated_liquidation_price 0 1 (Some 1) fraction = Ok None
      /\ ~ Qabs 1 * fraction - 1 == 0).
Proof.
  split.
  - eexists. eexists. split; [vm_compute; reflexivity|].
    split; [vm_compute; reflexivity|].
    split; [vm_compute; reflexivity|].
    split; [vm_compute; reflexivity|].
    split; [vm_compute; reflexivity|].
    split; vm_compute; discriminate.
  - split; [vm_compute; reflexivity|]. vm_compute. discriminate.
Qed.

End IsolatedLiquidationPrice.

(** ** The sanity filter on prices *)

Section Sanitize.

Import RiskCalculator.

Lemma store_in {A} (d : list (string * A)) (k k' : string) (v v' : A) :
  In (k', v') (Py.store d k v) -> (k', v') = (k, v) \/ In (k', v') d.
Proof.
  induction d as [|[k0 v0] d IH]; simpl.
  - intros [H|[]]. left. symmetry. exact H.
  - destruct (String.eqb k k0).
    + intros [H|H]; [left; symmetry; exact H|right; right; exact H].
    + intros [H|H]; [right; left; exact H|].
      destruct (IH H) as [H'|H']; [left; exact H'|right; right; exact H'].
Qed.

Lemma sanitize_filtered (price : option Q) :
  filtered (_safe_float (_sanitize price)).
Proof.
  exists (_sanitize price). split; [reflexivity|].
  destruct price as [p|]; simpl; [|exact I].
  destruct (Qleb p 0) eqn:E0; simpl; [exact I|].
  destruct (Qltb 10000000 p) eqn:E1; simpl; [exact I|].
  split; [apply Qleb_false, E0|apply Qltb_false, E1].
Qed.

Lemma sanitize_cases (price : option Q) :
  _sanitize price = None
  \/ exists p, _sanitize price = Some p /\ 0 < p /\ p <= 10000000.
Proof.
  destruct price as [p|]; simpl; [|left; reflexivity].
  destruct (Qleb p 0) eqn:E0; [left; reflexivity|].
  destruct (Qltb 10000000 p) eqn:E1; [left; reflexivity|].
  right. exists p. split; [reflexivity|].
  split; [apply Qleb_false, E0|apply Qltb_false, E1].
Qed.

(** Overriding a sanitised price by the sanitised protocol price keeps it
    filtered, whichever margin mode selects it. *)
Lemma override_filtered (protocol computed : option Q) (isolated : bool) :
  filtered
    (_safe_float
       match _sanitize protocol with
       | Some p => if isolated then Some p else _sanitize computed
       | None => _sanitize computed
       end)
  /\ filtered
       (_safe_float
          match _sanitize protocol with
          | Some p => if isolated then _sanitize computed else Some p
          | None => _sanitize computed
          end).
Proof.
  destruct (sanitize_cases protocol) as [->|(p & -> & Hp)].
  - split; apply sanitize_filtered.
  - destruct isolated; split; try apply sanitize_filtered;
      exists (Some p); split; [reflexivity|exact Hp| reflexivity|exact Hp].
Qed.

Lemma position_step_filtered markets equity total market position raw_size
  st st' :
  position_step markets equity total market position raw_size st = Ok st' ->
  (forall k e, In (k, e) (ls_position_metrics st) ->
               filtered_liquidation_prices e) ->
  forall k e, In (k, e) (ls_position_metrics st') ->
              filtered_liquidation_prices e.
Proof.
  unfold position_step. intros H Hst.
  bind_inv H.
  cbv zeta in H.
  bind_inv H.
  injection H as <-. simpl.
  intros k e Hin. apply store_in in Hin. destruct Hin as [Heq|Hin].
  - injection Heq as _ ->. unfold filtered_liquidation_prices. simpl.
    split; [|split].
    + apply override_filtered.
    + apply override_filtered.
    + apply sanitize_filtered.
  - apply (Hst k e Hin).
Qed.

Lemma position_loop_filtered markets equity total items :
  forall st st',
    position_loop markets equity total items st = Ok st' ->
    (forall k e, In (k, e) (ls_position_metrics st) ->
                 filtered_liquidation_prices e) ->
    forall k e, In (k, e) (ls_position_metrics st') ->
                filtered_liquidation_prices e.
Proof.
  induction items as [|[market position] rest IH]; simpl; intros st st' H Hst.
  - injection H as <-. exact Hst.
  - apply bind_ok_inv in H. destruct H as (raw & Eraw & H).
    destruct (_safe_decimal raw) as [raw_size|]; [|apply (IH _ _ H Hst)].
    destruct (Qeqb raw_size 0); [apply (IH _ _ H Hst)|].
    apply bind_ok_inv in H. destruct H as (st1 & Estep & H).
    apply (IH _ _ H). apply (position_step_filtered _ _ _ _ _ _ _ _ Estep Hst).
Qed.

Lemma risk_metrics_body_filtered sd markets m :
  risk_metrics_body sd markets = Ok m ->
  forall k e, In (k, e) (position_metrics m) -> filtered_liquidation_prices e.
Proof.
  unfold risk_metrics_body. intro H.
  bind_inv H.
  destruct v4 as [total details].
  bind_inv H.
  destruct v4 as [initial initial_details].
  bind_inv H.
  injection H as <-. simpl.
  apply (position_loop_filtered _ _ _ _ _ _ E7).
  simpl. intros k e [].
Qed.

(** C5, as the code has it.  In the position metrics that
    [calculate_risk_metrics] returns, the isolated, the cross and the
    protocol-reported liquidation price of every position went through
    [_sanitize] before the conversion to float: each is [None] or the
    float of a decimal price in (0, 10,000,000]. *)
Theorem liquidation_prices_sanitized :
  forall sd markets market entry,
    In (market, entry) (position_metrics (calculate_risk_metrics sd markets)) ->
    filtered (isolated_liquidation_price entry)
    /\ filtered (cross_liquidation_price entry)
    /\ filtered (protocol_liquidation_price entry).
Proof.
  intros sd markets market entry. unfold calculate_risk_metrics.
  destruct (risk_metrics_body sd markets) as [m|e] eqn:Hbody; simpl.
  - apply (risk_metrics_body_filtered _ _ _ Hbody).
  - intros [].
Qed.

Lemma liquidation_prices_sanitized_witness :
  exists entry,
    Py.lookup (position_metrics
                 (calculate_risk_metrics pricey_account pricey_markets))
              "BIG-USD" = Some entry
    /\ filtered (isolated_liquidation_price entry)
    /\ filtered (cross_liquidation_price entry)
    /\ filtered (protocol_liquidation_price entry).
Proof.
  eexists. split; [vm_compute; reflexivity|].
  apply (liquidation_prices_sanitized pricey_account pricey_markets "BIG-USD").
  vm_compute. left. reflexivity.
Defined.

(** What [float()] makes of a filtered price: rounded to binary64 it is
    at most 10,000,000 and not negative, and it is 0.0 for a price too
    small for a double. *)
Lemma filtered_price_as_double (price : Q) :
  0 < price -> price <= 10000000 ->
  exists r, round64 price = FFin r /\ 0 <= r /\ r <= 10000000.
Proof.
  intros Hlo Hhi.
  pose proof (round64_mono 0 price (Qlt_le_weak _ _ Hlo)) as Mlo.
  pose proof (round64_mono price 10000000 Hhi) as Mhi.
  assert (E0 : round64 0 = FFin 0) by reflexivity.
  assert (E7 : round64 10000000 = FFin 10000000)
    by (vm_compute; reflexivity).
  rewrite E0 in Mlo. rewrite E7 in Mhi.
  apply fle_inv in Mlo, Mhi.
  destruct (round64 price) as [r|[]|]; simpl in Mlo, Mhi; try contradiction.
  exists r. repeat split; assumption.
Qed.

Example tiny_price_as_double :
  _sanitize (Py.parse_decimal "1e-400") = Some (Py.scale10 1 (-400))
  /\ round64 (Py.scale10 1 (-400)) = FFin 0.
Proof. split; vm_compute; reflexivity. Qed.

(** The fillable price is the one computed price that bypasses the filter:
    it reaches the position metrics above 10,000,000 in the first account
    and below zero in the second. *)
Lemma fillable_price_not_sanitized :
  (exists entry q,
      Py.lookup (position_metrics
                   (calculate_risk_metrics pricey_account pricey_markets))
                "BIG-USD" = Some entry
      /\ fillable_price entry = Some (FFin q)
      /\ 10000000 < q
      /\ ~ sane_price (fillable_price entry))
  /\ (exists entry q,
         Py.lookup (position_metrics
                      (calculate_risk_metrics underwater_account
                                              wide_spread_markets))
                   "ETH-USD" = Some entry
         /\ fillable_price entry = Some (FFin q)
         /\ q < 0
         /\ ~ sane_price (fillable_price entry)).
Proof.
  split.
  - eexists. eexists. split; [vm_compute; reflexivity|].
    split; [reflexivity|]. split; [vm_compute; reflexivity|].
    simpl. intros [_ H]. vm_compute in H. apply H. reflexivity.
  - eexists. eexists. split; [vm_compute; reflexivity|].
    split; [reflexivity|]. split; [vm_compute; reflexivity|].
    simpl. intros [H _]. vm_compute in H. discriminate H.
Qed.

End Sanitize.

(** ** calculate_risk_metrics never raises *)

Section NeverRaises.

Import RiskCalculator.

Example malformed_equity_raises :
  risk_metrics_body malformed_equity None = Raise InvalidOperation
  /\ calculate_risk_metrics malformed_equity None = safe_defaults.
Proof. split; vm_compute; reflexivity. Qed.

Example positions_as_list_raises :
  risk_metrics_body positions_as_list None = Raise AttributeError
  /\ calculate_risk_metrics positions_as_list None = safe_defaults.
Proof. split; vm_compute; reflexivity. Qed.

Example position_not_a_dict_raises :
  risk_metrics_body position_not_a_dict None = Raise AttributeError
  /\ calculate_risk_metrics position_not_a_dict None = safe_defaults.
Proof. split; vm_compute; reflexivity. Qed.

Example numeric_margin_mode_raises :
  risk_metrics_body numeric_margin_mode None = Raise AttributeError
  /\ calculate_risk_metrics numeric_margin_mode None = safe_defaults.
Proof. split; vm_compute; reflexivity. Qed.

Example not_a_dict_raises :
  risk_metrics_body Py.VNone None = Raise AttributeError
  /\ calculate_risk_metrics Py.VNone None = safe_defaults.
Proof. split; vm_compute; reflexivity. Qed.

Lemma not_a_decimal_raises (v : Py.value) :
  not_a_decimal v -> Py.decimal_of v = Raise InvalidOperation.
Proof.
  destruct v as [|b|q|s|d|l]; simpl; intro H;
    try reflexivity; try contradiction.
  unfold Py.parse_decimal. rewrite H. reflexivity.
Qed.

Lemma not_a_dict_get (v : Py.value) (k : string) :
  not_a_dict v -> Py.get v k = Raise AttributeError.
Proof.
  destruct v; simpl; intro H; try reflexivity; contradiction.
Qed.

Lemma not_a_dict_items (v : Py.value) :
  not_a_dict v -> Py.items v = Raise AttributeError.
Proof.
  destruct v; simpl; intro H; try reflexivity; contradiction.
Qed.

(** Nothing is caught inside the position loop: a position that is not a
    dict ends it, unless an earlier position already has. *)
Lemma position_loop_not_a_dict markets equity total items market position :
  In (market, position) items -> not_a_dict position ->
  forall st, exists e, position_loop markets equity total items st = Raise e.
Proof.
  intros Hin Hbad.
  induction items as [|[market0 position0] rest IH]; [destruct Hin|].
  intro st. cbn [position_loop].
  destruct Hin as [Heq|Hin].
  - injection Heq as -> ->.
    rewrite (not_a_dict_get _ _ Hbad). exists AttributeError. reflexivity.
  - destruct (Py.get position0 "size") as [raw|e]; cbn [bind];
      [|exists e; reflexivity].
    destruct (_safe_decimal raw) as [raw_size|]; [|apply (IH Hin)].
    destruct (Qeqb raw_size 0); [apply (IH Hin)|].
    destruct (position_step markets equity total market0 position0
                            raw_size st) as [st'|e]; cbn [bind];
      [apply (IH Hin)|exists e; reflexivity].
Qed.

(** The body up to the position loop, for a snapshot that is a dict with
    a readable equity and a dict of positions. *)
Lemma risk_metrics_body_loop d markets equity_value items :
  Py.decimal_of (Py.dict_get_default d "equity" (Py.VStr "0"))
  = Ok equity_value ->
  Py.dict_get_default d "positions" (Py.VDict []) = Py.VDict items ->
  forall e,
    position_loop markets equity_value
      (fst (requirement_loop (maintenance_requirement_of markets) items 0 []))
      items
      {| ls_position_metrics := [];
         ls_total_position_notional := 0;
         per_position_requirements :=
           snd (requirement_loop (maintenance_requirement_of markets)
                                 items 0 []);
         per_position_initial_requirements :=
           snd (requirement_loop (initial_requirement_of markets) items 0 []);
         per_position_raw_maintenance := [];
         per_position_raw_initial := [] |} = Raise e ->
    risk_metrics_body (Py.VDict d) markets = Raise e.
Proof.
  intros Hq Hp e Hloop. unfold risk_metrics_body.
  cbn [Py.get_default Py.get bind]. rewrite Hq. cbn [bind]. rewrite Hp.
  unfold calculate_maintenance_requirement, calculate_initial_requirement.
  cbn [Py.items bind].
  destruct (requirement_loop (maintenance_requirement_of markets) items 0 [])
    as [total details].
  destruct (requirement_loop (initial_requirement_of markets) items 0 [])
    as [initial initial_details].
  cbn [fst snd] in Hloop. cbn [bind]. rewrite Hloop. reflexivity.
Qed.

(** C7. [calculate_risk_metrics] is a total function of the snapshot and
    of the market table: either its body runs to the end and its result is
    returned, or the body raises and the result is the metrics object with
    equity 0, maintenance and initial requirement 0, infinite margin ratio
    and liquidation distance, free collateral 0 and empty position maps.
    The body does raise, and the defaults are returned, for a snapshot
    that is not a dict, for an equity that is not a decimal numeral, for
    positions that are not a dict and for a position that is not a dict;
    it does not for a snapshot without positions whose equity is a
    numeral of at most 28 digits, and that equity is returned. *)
Theorem calculate_risk_metrics_never_raises :
  (forall sd markets,
      (exists m, risk_metrics_body sd markets = Ok m
                 /\ calculate_risk_metrics sd markets = m)
      \/ (exists e, risk_metrics_body sd markets = Raise e
                    /\ equity (calculate_risk_metrics sd markets) = Fin 0
                    /\ maintenance_requirement (calculate_risk_metrics sd markets)
                       = Fin 0
                    /\ initial_requirement (calculate_risk_metrics sd markets)
                       = Fin 0
                    /\ margin_ratio (calculate_risk_metrics sd markets)
                       = Decimal_inf
                    /\ liquidation_distance_percent
                         (calculate_risk_metrics sd markets) = Decimal_inf
                    /\ free_collateral (calculate_risk_metrics sd markets)
                       = Fin 0
                    /\ positions (calculate_risk_metrics sd markets) = []
                    /\ position_metrics (calculate_risk_metrics sd markets) = []
                    /\ max_liquidation_penalty (calculate_risk_metrics sd markets)
                       = None))
  /\ (forall sd markets,
         not_a_dict sd ->
         risk_metrics_body sd markets = Raise AttributeError
         /\ calculate_risk_metrics sd markets = safe_defaults)
  /\ (forall d markets,
         not_a_decimal (Py.dict_get_default d "equity" (Py.VStr "0")) ->
         risk_metrics_body (Py.VDict d) markets = Raise InvalidOperation
         /\ calculate_risk_metrics (Py.VDict d) markets = safe_defaults)
  /\ (forall d markets equity_value,
         Py.decimal_of (Py.dict_get_default d "equity" (Py.VStr "0"))
         = Ok equity_value ->
         not_a_dict (Py.dict_get_default d "positions" (Py.VDict [])) ->
         risk_metrics_body (Py.VDict d) markets = Raise AttributeError
         /\ calculate_risk_metrics (Py.VDict d) markets = safe_defaults)
  /\ (forall d markets equity_value items market position,
         Py.decimal_of (Py.dict_get_default d "equity" (Py.VStr "0"))
         = Ok equity_value ->
         Py.dict_get_default d "positions" (Py.VDict []) = Py.VDict items ->
         In (market, position) items ->
         not_a_dict position ->
         (exists e, risk_metrics_body (Py.VDict d) markets = Raise e)
         /\ calculate_risk_metrics (Py.VDict d) markets = safe_defaults)
  /\ (forall d markets equity_value,
         Py.decimal_of (Py.dict_get_default d "equity" (Py.VStr "0"))
         = Ok equity_value ->
         Ctx.exact equity_value = true ->
         Py.dict_get_default d "positions" (Py.VDict []) = Py.VDict [] ->
         equity (calculate_risk_metrics (Py.VDict d) markets)
         = Fin equity_value
         /\ maintenance_requirement (calculate_risk_metrics (Py.VDict d) markets)
            = Fin 0
         /\ margin_ratio (calculate_risk_metrics (Py.VDict d) markets)
            = Decimal_inf
         /\ position_metrics (calculate_risk_metrics (Py.VDict d) markets)
            = []).
Proof.
  split; [|split; [|split; [|split; [|split]]]].
  - intros sd markets. unfold calculate_risk_metrics.
    destruct (risk_metrics_body sd markets) as [m|e].
    + left. exists m. split; reflexivity.
    + right. exists e. simpl. repeat split.
  - intros sd markets H.
    assert (E : risk_metrics_body sd markets = Raise AttributeError).
    { destruct sd; simpl in H; try contradiction; reflexivity. }
    split; [exact E|]. unfold calculate_risk_metrics. rewrite E. reflexivity.
  - intros d markets H.
    assert (E : risk_metrics_body (Py.VDict d) markets = Raise InvalidOperation).
    { unfold risk_metrics_body. cbn [Py.get_default bind].
      rewrite (not_a_decimal_raises _ H). reflexivity. }
    split; [exact E|]. unfold calculate_risk_metrics. rewrite E. reflexivity.
  - intros d markets equity_value Hq H.
    assert (E : risk_metrics_body (Py.VDict d) markets = Raise AttributeError).
    { unfold risk_metrics_body. cbn [Py.get_default Py.get bind].
      rewrite Hq. cbn [bind].
      unfold calculate_maintenance_requirement.
      rewrite (not_a_dict_items _ H). reflexivity. }
    split; [exact E|]. unfold calculate_risk_metrics. rewrite E. reflexivity.
  - intros d markets equity_value items market position Hq Hp Hin Hbad.
    destruct (position_loop_not_a_dict markets equity_value
                (fst (requirement_loop (maintenance_requirement_of markets)
                                       items 0 []))
                items market position Hin Hbad
                {| ls_position_metrics := [];
                   ls_total_position_notional := 0;
                   per_position_requirements :=
                     snd (requirement_loop (maintenance_requirement_of markets)
                                           items 0 []);
                   per_position_initial_requirements :=
                     snd (requirement_loop (initial_requirement_of markets)
                                           items 0 []);
                   per_position_raw_maintenance := [];
                   per_position_raw_initial := [] |}) as [e He].
    pose proof (risk_metrics_body_loop d markets equity_value items Hq Hp e He)
      as E.
    split; [exists e; exact E|].
    unfold calculate_risk_metrics. rewrite E. reflexivity.
  - intros d markets equity_value Hq _ Hp.
    unfold calculate_risk_metrics, risk_metrics_body.
    cbn [Py.get_default Py.get bind]. rewrite Hq. cbn [bind]. rewrite Hp.
    simpl. repeat split.
Qed.

(** The five cases on an account of each kind. *)
Example calculate_risk_metrics_cases :
  calculate_risk_metrics (Py.VList []) None = safe_defaults
  /\ calculate_risk_metrics
       (Py.VDict [("equity", Py.VStr "12,5")]%string) None = safe_defaults
  /\ calculate_risk_metrics
       (Py.VDict [("equity", Py.VStr "12.5");
                  ("positions", Py.VNone)]%string) None = safe_defaults
  /\ calculate_risk_metrics
       (Py.VDict [("equity", Py.VStr "12.5");
                  ("positions",
                   Py.VDict [("ETH-USD", Py.VStr "3")])]%string) None
     = safe_defaults
  /\ equity (calculate_risk_metrics
               (Py.VDict [("equity", Py.VStr " 1_000.5 ")]%string) None)
     = Fin (2001 # 2).
Proof. repeat split; vm_compute; reflexivity. Qed.

End NeverRaises.

(** ** Effective initial margin fraction *)

Section EffectiveImf.

Import RiskCalculator.

(** Names every minimum and maximum in sight and splits its two cases. *)
Ltac name_minmax :=
  repeat match goal with
  | |- context [Qmax ?a ?b] =>
      let m := fresh "m" in
      pose proof (Q.max_spec a b); set (m := Qmax a b) in *; clearbody m
  | |- context [Qmin ?a ?b] =>
      let m := fresh "m" in
      pose proof (Q.min_spec a b); set (m := Qmin a b) in *; clearbody m
  | H : context [Qmax ?a ?b] |- _ =>
      let m := fresh "m" in
      pose proof (Q.max_spec a b); set (m := Qmax a b) in *; clearbody m
  | H : context [Qmin ?a ?b] |- _ =>
      let m := fresh "m" in
      pose proof (Q.min_spec a b); set (m := Qmin a b) in *; clearbody m
  end.

Ltac split_minmax :=
  name_minmax;
  repeat match goal with
  | H : _ /\ _ \/ _ /\ _ |- _ => destruct H as [[? ?]|[? ?]]
  end.

Lemma clamp_unit (s : Q) : Qmaxb 0 (Qminb 1 s) == clamp s 0 1.
Proof.
  unfold clamp. rewrite Qmaxb_spec, Qminb_spec.
  split_minmax; lra.
Qed.

Lemma clamp_unit_bounds (s : Q) : 0 <= clamp s 0 1 /\ clamp s 0 1 <= 1.
Proof.
  unfold clamp. split_minmax; lra.
Qed.

(** The arithmetic of [calculate_effective_imf] is the closed form. *)
Lemma scaled_imf_closed_form (base open_notional lower_cap upper_cap : Q) :
  scaled_imf base open_notional lower_cap upper_cap
  == scaled_fraction base open_notional lower_cap upper_cap.
Proof.
  unfold scaled_imf, scaled_fraction.
  set (s := (open_notional - lower_cap) / (upper_cap - lower_cap)).
  rewrite Qminb_spec, Qmaxb_spec, clamp_unit.
  destruct (clamp_unit_bounds s) as [H0 H1].
  set (c := clamp s 0 1) in *.
  clearbody c. unfold clamp.
  set (x := c * (1 - base)). clearbody x.
  split_minmax; lra.
Qed.

(** The same for the arithmetic of the normaliser, which leaves the
    scaling factor unbounded above and caps the sum instead. *)
Lemma normalizer_closed_form (base open_notional lower_cap upper_cap : Q) :
  let scaling_factor := (open_notional - lower_cap) / (upper_cap - lower_cap) in
  let scaling_factor := if Qltb scaling_factor 0 then 0 else scaling_factor in
  let imf_increase := scaling_factor * (1 - base) in
  let imf_increase := if Qltb imf_increase 0 then 0 else imf_increase in
  let effective := base + imf_increase in
  (if Qltb 1 effective then 1 else effective)
  == scaled_fraction base open_notional lower_cap upper_cap.
Proof.
  cbv zeta. unfold scaled_fraction, clamp.
  set (s := (open_notional - lower_cap) / (upper_cap - lower_cap)).
  destruct (Qltb s 0) eqn:Es;
    [apply Qltb_true in Es|apply Qltb_false in Es].
  - assert (E : Qltb (0 * (1 - base)) 0 = false) by (apply Qltb_false; lra).
    rewrite E.
    destruct (Qltb 1 (base + 0 * (1 - base))) eqn:E1;
      [apply Qltb_true in E1|apply Qltb_false in E1];
      split_minmax; try lra; nra.
  - destruct (Qltb (s * (1 - base)) 0) eqn:Ei;
      [apply Qltb_true in Ei|apply Qltb_false in Ei].
    + destruct (Qltb 1 (base + 0)) eqn:E1;
        [apply Qltb_true in E1|apply Qltb_false in E1].
      * split_minmax; try lra; nra.
      * exfalso. nra.
    + destruct (Qltb 1 (base + s * (1 - base))) eqn:E1;
        [apply Qltb_true in E1|apply Qltb_false in E1];
        split_minmax; try lra; nra.
Qed.

(** Particular points of the closed form. *)
Lemma scaled_fraction_midpoint (base lower_cap upper_cap : Q) :
  lower_cap < upper_cap -> base <= 1 ->
  scaled_fraction base ((lower_cap + upper_cap) / 2) lower_cap upper_cap
  == base + (1 # 2) * (1 - base).
Proof.
  intros Hcaps Hbase. unfold scaled_fraction.
  assert (Hs : ((lower_cap + upper_cap) / 2 - lower_cap)
               / (upper_cap - lower_cap) == 1 # 2) by (field; lra).
  set (s := ((lower_cap + upper_cap) / 2 - lower_cap)
            / (upper_cap - lower_cap)) in *.
  clearbody s. unfold clamp. split_minmax; try lra; nra.
Qed.

Lemma scaled_fraction_midpoint_eq (base n lower_cap upper_cap : Q) :
  lower_cap < upper_cap -> base <= 1 ->
  n == (lower_cap + upper_cap) / 2 ->
  scaled_fraction base n lower_cap upper_cap == base + (1 # 2) * (1 - base).
Proof.
  intros Hcaps Hbase Hn. unfold scaled_fraction.
  assert (Hs : (n - lower_cap) / (upper_cap - lower_cap) == 1 # 2).
  { rewrite Hn. field. lra. }
  set (s := (n - lower_cap) / (upper_cap - lower_cap)) in *.
  clearbody s. unfold clamp. split_minmax; try lra; nra.
Qed.

Lemma scaled_fraction_below (base open_notional lower_cap upper_cap : Q) :
  lower_cap < upper_cap -> open_notional <= lower_cap -> base <= 1 ->
  scaled_fraction base open_notional lower_cap upper_cap == base.
Proof.
  intros Hcaps Hn Hbase. unfold scaled_fraction.
  assert (Hs : (open_notional - lower_cap) / (upper_cap - lower_cap) <= 0).
  { apply Qle_shift_div_r; lra. }
  set (s := (open_notional - lower_cap) / (upper_cap - lower_cap)) in *.
  clearbody s. unfold clamp. split_minmax; try lra; nra.
Qed.

Lemma scaled_fraction_above (base open_notional lower_cap upper_cap : Q) :
  lower_cap < upper_cap -> upper_cap <= open_notional ->
  scaled_fraction base open_notional lower_cap upper_cap == 1.
Proof.
  intros Hcaps Hn. unfold scaled_fraction.
  assert (Hs : 1 <= (open_notional - lower_cap) / (upper_cap - lower_cap)).
  { apply Qle_shift_div_l; lra. }
  set (s := (open_notional - lower_cap) / (upper_cap - lower_cap)) in *.
  clearbody s. unfold clamp. split_minmax; try lra; nra.
Qed.

Lemma scaled_fraction_capped (base open_notional lower_cap upper_cap : Q) :
  scaled_fraction base open_notional lower_cap upper_cap <= 1.
Proof. unfold scaled_fraction, clamp. split_minmax; lra. Qed.

(** The normaliser, when it scales and when it does not. *)
Lemma normalizer_scaled (initial base : option Q) (b n l h : Q) :
  scaling_base initial base = Some b -> l < h ->
  fst (MonitorService.effective_initial_fraction initial base
         (Some n) (Some l) (Some h))
  == scaled_fraction b n l h.
Proof.
  intros Hb Hcaps. unfold MonitorService.effective_initial_fraction.
  apply Qltb_true in Hcaps.
  destruct base as [b0|]; destruct initial as [i|]; simpl in Hb;
    try discriminate Hb; injection Hb as ->; rewrite Hcaps; simpl;
    apply normalizer_closed_form.
Qed.

Lemma dec_or_unscaled (initial base : option Q) :
  match MonitorService.dec_or (MonitorService.dec_or initial base)
          (Some default_initial_margin_fraction) with
  | Some e => e
  | None => default_initial_margin_fraction
  end = unscaled_fraction initial base.
Proof.
  unfold MonitorService.dec_or, unscaled_fraction,
    default_initial_margin_fraction.
  destruct initial as [i|]; destruct base as [b|]; simpl;
    repeat match goal with
           | |- context [nonzero ?x] =>
               let E := fresh "E" in
               destruct (nonzero x) eqn:E; simpl; try rewrite E; simpl
           end;
    reflexivity.
Qed.

Lemma normalizer_unscaled (initial base n l h : option Q) :
  scaling_base initial base = None \/ n = None \/ l = None \/ h = None
  \/ (exists l' h', l = Some l' /\ h = Some h' /\ h' <= l') ->
  fst (MonitorService.effective_initial_fraction initial base n l h)
  = unscaled_fraction initial base.
Proof.
  intro H. unfold MonitorService.effective_initial_fraction.
  rewrite dec_or_unscaled.
  destruct base as [b|]; destruct initial as [i|]; simpl in H |- *;
    destruct n as [n'|]; try reflexivity;
    destruct l as [l'|]; try reflexivity;
    destruct h as [h'|]; try reflexivity;
    (destruct H as [H|[H|[H|[H|(l0 & h0 & Hl & Hh & Hle)]]]];
     try discriminate H;
     injection Hl as <-; injection Hh as <-;
     apply Qltb_false in Hle; rewrite Hle; reflexivity).
Qed.

(** The calculator once the market entry is a non-empty dict. *)
Lemma calculate_effective_imf_unfold market markets d base :
  market_entry market markets = Some (Py.VDict d) ->
  Py.truthy (Py.VDict d) = true ->
  _resolve_initial_fraction market markets = Ok base ->
  calculate_effective_imf market markets
  = Ok match read2 d "openInterest" "open_interest",
             read2 d "oraclePrice" "oracle_price",
             read2 d "openInterestLowerCap" "open_interest_lower_cap",
             read2 d "openInterestUpperCap" "open_interest_upper_cap" with
       | Some open_interest, Some oracle, Some lower_cap, Some upper_cap =>
           if Qeqb upper_cap lower_cap then base
           else scaled_imf base (Qabs (open_interest * oracle))
                           lower_cap upper_cap
       | _, _, _, _ => base
       end.
Proof.
  intros Hentry Htruthy Hbase. unfold calculate_effective_imf.
  rewrite Hbase. simpl. rewrite Hentry, Htruthy. simpl.
  unfold get_decimal2. simpl. fold (read2 d "openInterest" "open_interest").
  fold (read2 d "oraclePrice" "oracle_price").
  fold (read2 d "openInterestLowerCap" "open_interest_lower_cap").
  fold (read2 d "openInterestUpperCap" "open_interest_upper_cap").
  destruct (read2 d "openInterest" "open_interest"); [|reflexivity].
  destruct (read2 d "oraclePrice" "oracle_price"); [|reflexivity].
  simpl.
  destruct (read2 d "openInterestLowerCap" "open_interest_lower_cap");
    [|reflexivity].
  destruct (read2 d "openInterestUpperCap" "open_interest_upper_cap");
    [|reflexivity].
  simpl. destruct (Qeqb q2 q1); reflexivity.
Qed.

Lemma calculate_effective_imf_no_entry market markets base :
  market_entry market markets = None ->
  _resolve_initial_fraction market markets = Ok base ->
  calculate_effective_imf market markets = Ok base.
Proof.
  intros Hentry Hbase. unfold calculate_effective_imf.
  rewrite Hbase. simpl. rewrite Hentry. reflexivity.
Qed.

(** The closed form of the scaling in exact arithmetic.  Where the base
    fraction, the open notional and both caps are known, the effective
    initial margin fraction is clamp(base + clamp((open_notional -
    lower_cap) / (upper_cap - lower_cap), 0, 1) * (1 - base), base, 1): in
    the arithmetic of the normaliser when the upper cap is above the lower
    cap, in [calculate_effective_imf] whenever the two caps differ.  For
    caps in order and a base of at most 1 the cap midpoint gives
    base + 0.5 * (1 - base) and an open notional at or below the lower cap
    gives the base; at or above the upper cap the result is 1.  Otherwise
    the arithmetic of the normaliser returns the first non-zero of the
    direct initial fraction and the base fraction, else 0.05, and
    [calculate_effective_imf] returns its base fraction. *)
Lemma scaling_closed_form :
  (forall initial base b n l h,
      scaling_base initial base = Some b -> l < h ->
      fst (MonitorService.effective_initial_fraction initial base
             (Some n) (Some l) (Some h))
      == scaled_fraction b n l h)
  /\ (forall initial base n l h,
         scaling_base initial base = None \/ n = None \/ l = None
         \/ h = None
         \/ (exists l' h', l = Some l' /\ h = Some h' /\ h' <= l') ->
         fst (MonitorService.effective_initial_fraction initial base n l h)
         = unscaled_fraction initial base)
  /\ (forall market markets d base open_interest oracle l h,
         market_entry market markets = Some (Py.VDict d) ->
         Py.truthy (Py.VDict d) = true ->
         _resolve_initial_fraction market markets = Ok base ->
         read2 d "openInterest" "open_interest" = Some open_interest ->
         read2 d "oraclePrice" "oracle_price" = Some oracle ->
         read2 d "openInterestLowerCap" "open_interest_lower_cap" = Some l ->
         read2 d "openInterestUpperCap" "open_interest_upper_cap" = Some h ->
         exists r,
           calculate_effective_imf market markets = Ok r
           /\ (~ h == l ->
               r == scaled_fraction base (Qabs (open_interest * oracle)) l h)
           /\ (h == l -> r = base))
  /\ (forall market markets d base,
         market_entry market markets = Some (Py.VDict d) ->
         Py.truthy (Py.VDict d) = true ->
         _resolve_initial_fraction market markets = Ok base ->
         read2 d "openInterest" "open_interest" = None
         \/ read2 d "oraclePrice" "oracle_price" = None
         \/ read2 d "openInterestLowerCap" "open_interest_lower_cap" = None
         \/ read2 d "openInterestUpperCap" "open_interest_upper_cap" = None ->
         calculate_effective_imf market markets = Ok base)
  /\ (forall market markets base,
         market_entry market markets = None ->
         _resolve_initial_fraction market markets = Ok base ->
         calculate_effective_imf market markets = Ok base)
  /\ (forall base n l h,
         l < h ->
         scaled_fraction base n l h <= 1
         /\ (h <= n -> scaled_fraction base n l h == 1)
         /\ (base <= 1 -> n <= l -> scaled_fraction base n l h == base)
         /\ (base <= 1 -> n == (l + h) / 2 ->
             scaled_fraction base n l h == base + (1 # 2) * (1 - base))).
Proof.
  split; [exact normalizer_scaled|].
  split; [exact normalizer_unscaled|].
  split; [|split; [|split]].
  - intros market markets d base oi p l h He Ht Hb Hoi Hp Hl Hh.
    rewrite (calculate_effective_imf_unfold _ _ _ _ He Ht Hb), Hoi, Hp, Hl, Hh.
    eexists. split; [reflexivity|]. split.
    + intro Hne. apply Qeqb_false in Hne. rewrite Hne.
      apply scaled_imf_closed_form.
    + intro Heq. apply Qeqb_true in Heq. rewrite Heq. reflexivity.
  - intros market markets d base He Ht Hb H.
    rewrite (calculate_effective_imf_unfold _ _ _ _ He Ht Hb).
    destruct H as [H|[H|[H|H]]]; rewrite H;
      repeat match goal with
             | |- context [match ?x with Some _ => _ | None => _ end] =>
                 destruct x
             end; reflexivity.
  - exact calculate_effective_imf_no_entry.
  - intros base n l h Hcaps. split; [apply scaled_fraction_capped|].
    split; [intro; apply scaled_fraction_above; assumption|].
    split; [intros; apply scaled_fraction_below; assumption|].
    intros Hbase Hn. 
    apply scaled_fraction_midpoint_eq; assumption.
Qed.

Example scaling_at_the_midpoint :
  exists r,
    calculate_effective_imf "ETH-USD" midpoint_markets = Ok r
    /\ r == (5 # 100) + (1 # 2) * (1 - (5 # 100)).
Proof.
  destruct (proj1 (proj2 (proj2 scaling_closed_form))
              "ETH-USD"%string midpoint_markets
              [("initial_margin_fraction", Py.VStr "0.05");
               ("open_interest", Py.VStr "5");
               ("oracle_price", Py.VStr "100");
               ("open_interest_lower_cap", Py.VStr "0");
               ("open_interest_upper_cap", Py.VStr "1000")]%string
              (1 # 20) 5 100 0 1000
              eq_refl eq_refl eq_refl eq_refl eq_refl eq_refl eq_refl)
    as (r & Hr & Hscaled & _).
  exists r. split; [exact Hr|].
  rewrite Hscaled; [|vm_compute; discriminate].
  vm_compute. reflexivity.
Defined.

(** C4.  The code on two markets the specification covers.  With inverted
    caps (upper 100 below lower 200) the upper cap is not above the lower
    one, which by the specification leaves the base fraction 0.05; the
    normaliser guards the scaling by [upper_cap > lower_cap], but
    [calculate_effective_imf] only excludes equal caps, scales and returns
    1.  With a lower cap of 0 and an upper cap of 1000 the open notional
    500 is the cap midpoint, which by the specification gives
    0.05 + 0.5 * 0.95 = 0.525; [calculate_effective_imf] returns it, but
    the normaliser reads its caps with
    [parse_decimal(..) or parse_decimal(..)], takes the cap 0 for a
    missing one and stores the base fraction 0.05. *)
Lemma effective_imf_failing_inputs :
  (exists d base l h r,
      market_entry "ETH-USD" inverted_caps_markets = Some (Py.VDict d)
      /\ _resolve_initial_fraction "ETH-USD" inverted_caps_markets = Ok base
      /\ read2 d "openInterestLowerCap" "open_interest_lower_cap" = Some l
      /\ read2 d "openInterestUpperCap" "open_interest_upper_cap" = Some h
      /\ ~ l < h
      /\ calculate_effective_imf "ETH-USD" inverted_caps_markets = Ok r
      /\ base == 5 # 100
      /\ r == 1
      /\ ~ r == base)
  /\ (exists r,
         calculate_effective_imf "ETH-USD" midpoint_markets = Ok r
         /\ r == 525 # 1000)
  /\ (let entry := MonitorService.normalize_entry zero_lower_cap_market in
      MonitorService.open_notional entry = Some 500
      /\ MonitorService.open_interest_upper_cap entry = Some 1000
      /\ MonitorService.open_interest_lower_cap entry = None
      /\ MonitorService.base_initial_margin_fraction entry = Some (1 # 20)
      /\ MonitorService.initial_margin_fraction entry == 5 # 100
      /\ ~ MonitorService.initial_margin_fraction entry
           == (5 # 100) + (1 # 2) * (1 - (5 # 100))).
Proof.
  split; [|split].
  - do 5 eexists.
    split; [reflexivity|]. split; [reflexivity|].
    split; [reflexivity|]. split; [reflexivity|].
    split; [vm_compute; discriminate|].
    split; [vm_compute; reflexivity|].
    split; [vm_compute; reflexivity|].
    split; [vm_compute; reflexivity|].
    vm_compute. discriminate.
  - eexists. split; vm_compute; reflexivity.
  - cbv zeta.
    split; [vm_compute; reflexivity|].
    split; [vm_compute; reflexivity|].
    split; [vm_compute; reflexivity|].
    split; [vm_compute; reflexivity|].
    split; [vm_compute; reflexivity|].
    vm_compute. discriminate.
Qed.

End EffectiveImf.

(** ** Spread ratio and bankruptcy adjustment *)

Section SpreadAndBankruptcy.

Import MonitorService.

Lemma first_scaled_first_usable (candidates : list Py.value) :
  first_usable candidates (first_scaled candidates).
Proof.
  induction candidates as [|c rest IH]; simpl.
  - constructor.
  - destruct (Py.is_none c) eqn:Enone.
    + assert (Hc : unusable c).
      { left. destruct c; try discriminate Enone. reflexivity. }
      destruct (first_scaled rest) as [r|]; simpl in *.
      * destruct IH as (before & candidate & after & dec & -> & Hb & Hn & Hd & ->).
        exists (c :: before), candidate, after, dec.
        repeat split; try assumption. constructor; assumption.
      * constructor; assumption.
    + destruct (Py.decimal_of c) as [dec|e] eqn:Edec.
      * simpl. exists [], c, rest, dec.
        repeat split; try assumption; try constructor.
        intros ->. discriminate Enone.
      * assert (Hc : unusable c) by (right; exists e; exact Edec).
        destruct (first_scaled rest) as [r|]; simpl in *.
        -- destruct IH as (before & candidate & after & dec & -> & Hb & Hn & Hd & ->).
           exists (c :: before), candidate, after, dec.
           repeat split; try assumption. constructor; assumption.
        -- constructor; assumption.
Qed.

(** Every stored value is at most 10 unless its source exceeded
    10,000,000. *)
Lemma rescaled_bound (dec : Q) : dec <= 10000000 -> rescaled dec <= 10.
Proof.
  intro H. unfold rescaled. destruct (Qltb 10 dec) eqn:E.
  - apply Qle_shift_div_r; lra.
  - apply Qltb_false in E. exact E.
Qed.

(** C9, as the code has it.  The spread-to-maintenance-margin ratio and
    the bankruptcy adjustment are each taken from the first candidate that
    is present and is a numeral, in the order: direct field, ppm field,
    direct field of the nested config, ppm field of the nested config.
    The chosen value is stored as it is when it is at most 10 and divided
    by 1,000,000, once, when it exceeds 10. *)
Theorem spread_and_bankruptcy_resolution :
  forall info : Py.dict,
    spread_candidates info
    = [Py.dict_get info "spreadToMaintenanceMarginRatio";
       Py.dict_get info "spreadToMaintenanceMarginRatioPpm"]
      ++ match config_of info with
         | Some config =>
             [Py.dict_get config "spreadToMaintenanceMarginRatio";
              Py.dict_get config "spreadToMaintenanceMarginRatioPpm"]
         | None => []
         end
    /\ bankruptcy_candidates info
       = [Py.dict_get info "bankruptcyAdjustment";
          Py.dict_get info "bankruptcyAdjustmentPpm"]
         ++ match config_of info with
            | Some config =>
                [Py.dict_get config "bankruptcyAdjustment";
                 Py.dict_get config "bankruptcyAdjustmentPpm"]
            | None => []
            end
    /\ first_usable (spread_candidates info)
                    (spread_to_mmr_ratio (normalize_entry info))
    /\ first_usable (bankruptcy_candidates info)
                    (bankruptcy_adjustment (normalize_entry info)).
Proof.
  intro info. split; [reflexivity|]. split; [reflexivity|].
  unfold normalize_entry.
  destruct (effective_initial_fraction _ _ _ _ _) as [effective base'].
  simpl. split; apply first_scaled_first_usable.
Qed.

(** The specified resolution and the code part ways on both counts.  In
    the first market the maintenance fraction resolves to the config value
    0.03 while the spread ratio, offered in the same two places, resolves
    to the top-level ppm value (1.5), not to the config value 2 of the
    specified order.  In the second market the ppm value converts to 20,
    the specification divides once more, the code stores 20. *)
Lemma spread_order_and_rescaling_differ :
  (exists fraction stored specified,
      maintenance_margin_fraction (normalize_entry ppm_and_config_market)
      = Some fraction
      /\ fraction == 3 # 100
      /\ spread_to_mmr_ratio (normalize_entry ppm_and_config_market)
         = Some stored
      /\ stored == 3 # 2
      /\ specified_ratio ppm_and_config_market "spreadToMaintenanceMarginRatio"
           "spreadToMaintenanceMarginRatioPpm" = Some specified
      /\ specified == 2
      /\ ~ stored == specified)
  /\ (exists stored specified,
         bankruptcy_adjustment (normalize_entry large_ppm_market) = Some stored
         /\ stored == 20
         /\ specified_ratio large_ppm_market "bankruptcyAdjustment"
              "bankruptcyAdjustmentPpm" = Some specified
         /\ specified == 20 / 1000000
         /\ ~ stored == specified).
Proof.
  split.
  - do 3 eexists.
    split; [vm_compute; reflexivity|]. split; [vm_compute; reflexivity|].
    split; [vm_compute; reflexivity|]. split; [vm_compute; reflexivity|].
    split; [vm_compute; reflexivity|]. split; [vm_compute; reflexivity|].
    vm_compute. discriminate.
  - do 2 eexists.
    split; [vm_compute; reflexivity|]. split; [vm_compute; reflexivity|].
    split; [vm_compute; reflexivity|]. split; [vm_compute; reflexivity|].
    vm_compute. discriminate.
Qed.

(** A ppm value of at most 10 is stored without any conversion. *)
Example small_ppm_is_not_converted :
  exists stored,
    spread_to_mmr_ratio (normalize_entry small_ppm_market) = Some stored
    /\ stored == 5.
Proof. eexists. split; vm_compute; reflexivity. Qed.

End SpreadAndBankruptcy.

(** ** Legacy engine: liquidation escalation and its cooldown *)

Section LegacyEngine.

Import RiskCalculator AlertEngine.

Variable format_liquidation_warning : Subaccount -> RiskMetrics -> string.
Variable format_liquidation_alert : Subaccount -> string.

Local Abbreviation evaluate_liquidation_risk :=
  (AlertEngine.evaluate_liquidation_risk format_liquidation_warning
                                         format_liquidation_alert).

(** At or below zero the engine reports a liquidation, whatever the
    threshold, unless the cooldown of that alert kind is running. *)
Lemma liquidated_branch self now subaccount metrics :
  dec_leb (liquidation_distance_percent metrics) (Fin 0) = true ->
  evaluate_liquidation_risk self now subaccount metrics
  = if should_alert self now (sub_id subaccount) liquidation then
      (Some {| alert_type := liquidation;
               severity := critical;
               subaccount_id := sub_id subaccount;
               message := format_liquidation_alert subaccount;
               metadata := to_dict metrics |},
       record_alert self now (sub_id subaccount) liquidation)
    else (None, self).
Proof.
  intro H. unfold AlertEngine.evaluate_liquidation_risk.
  rewrite H. reflexivity.
Qed.

(** Between zero and the threshold it warns, critically at or below 5,
    again unless the cooldown is running. *)
Lemma warning_branch self now subaccount metrics :
  dec_leb (liquidation_distance_percent metrics) (Fin 0) = false ->
  dec_leb (liquidation_distance_percent metrics)
          (Fin (liquidation_threshold_percent subaccount)) = true ->
  evaluate_liquidation_risk self now subaccount metrics
  = if should_alert self now (sub_id subaccount) liquidation_warning then
      (Some {| alert_type := liquidation_warning;
               severity :=
                 if dec_leb (liquidation_distance_percent metrics) (Fin 5)
                 then critical else warning;
               subaccount_id := sub_id subaccount;
               message := format_liquidation_warning subaccount metrics;
               metadata := to_dict metrics |},
       record_alert self now (sub_id subaccount) liquidation_warning)
    else (None, self).
Proof.
  intros H0 Ht. unfold AlertEngine.evaluate_liquidation_risk.
  rewrite H0, Ht. reflexivity.
Qed.

(** Right after an alert was recorded its kind is in cooldown. *)
Lemma should_alert_after_record self now later subaccount_id kind :
  later - now < cooldown_seconds self ->
  should_alert (record_alert self now subaccount_id kind) later
               subaccount_id kind = false.
Proof.
  intro H. unfold should_alert, record_alert. simpl.
  assert (L : forall d, Py.lookup (Py.store d (cooldown_key subaccount_id kind) now)
                                  (cooldown_key subaccount_id kind) = Some now).
  { induction d as [|[k v] d IH]; simpl.
    - rewrite String.eqb_refl. reflexivity.
    - destruct (String.eqb (cooldown_key subaccount_id kind) k) eqn:E; simpl.
      + rewrite String.eqb_refl. reflexivity.
      + rewrite E. exact IH. }
  rewrite L. apply Qltb_true in H. rewrite H. reflexivity.
Qed.

(** C6, as the code has it.  For an account with
    liquidation_threshold_percent = 10 and no running cooldown for the
    alert kind, a liquidation distance of 8 makes
    [evaluate_liquidation_risk] emit a liquidation_warning of severity
    warning, a distance of 3 a liquidation_warning of severity critical,
    and, whatever the threshold, a distance of at most 0 an alert of type
    liquidation and severity critical.  While the cooldown of the alert
    kind is running nothing is emitted and the engine is left as it was. *)
Theorem legacy_escalation :
  forall self now subaccount metrics,
    (forall d,
        liquidation_threshold_percent subaccount == 10 ->
        liquidation_distance_percent metrics = Fin d -> d == 8 ->
        should_alert self now (sub_id subaccount) liquidation_warning = true ->
        exists alert self',
          evaluate_liquidation_risk self now subaccount metrics
          = (Some alert, self')
          /\ alert_type alert = liquidation_warning
          /\ severity alert = warning)
    /\ (forall d,
           liquidation_threshold_percent subaccount == 10 ->
           liquidation_distance_percent metrics = Fin d -> d == 3 ->
           should_alert self now (sub_id subaccount) liquidation_warning
           = true ->
           exists alert self',
             evaluate_liquidation_risk self now subaccount metrics
             = (Some alert, self')
             /\ alert_type alert = liquidation_warning
             /\ severity alert = critical)
    /\ (dec_leb (liquidation_distance_percent metrics) (Fin 0) = true ->
        should_alert self now (sub_id subaccount) liquidation = true ->
        exists alert self',
          evaluate_liquidation_risk self now subaccount metrics
          = (Some alert, self')
          /\ alert_type alert = liquidation
          /\ severity alert = critical)
    /\ (forall d,
           liquidation_threshold_percent subaccount == 10 ->
           liquidation_distance_percent metrics = Fin d ->
           d == 8 \/ d == 3 ->
           should_alert self now (sub_id subaccount) liquidation_warning
           = false ->
           evaluate_liquidation_risk self now subaccount metrics
           = (None, self))
    /\ (dec_leb (liquidation_distance_percent metrics) (Fin 0) = true ->
        should_alert self now (sub_id subaccount) liquidation = false ->
        evaluate_liquidation_risk self now subaccount metrics = (None, self)).
Proof.
  intros self now subaccount metrics.
  assert (Hwarn : forall d x,
            liquidation_threshold_percent subaccount == 10 ->
            liquidation_distance_percent metrics = Fin d ->
            0 < x -> x <= 10 -> d == x ->
            evaluate_liquidation_risk self now subaccount metrics
            = if should_alert self now (sub_id subaccount) liquidation_warning
              then
                (Some {| alert_type := liquidation_warning;
                         severity := if Qleb d 5 then critical else warning;
                         subaccount_id := sub_id subaccount;
                         message := format_liquidation_warning subaccount metrics;
                         metadata := to_dict metrics |},
                 record_alert self now (sub_id subaccount) liquidation_warning)
              else (None, self)).
  { intros d x Ht Hd Hx0 Hx10 Hdx.
    rewrite warning_branch; rewrite Hd; simpl.
    - reflexivity.
    - apply Qleb_false. lra.
    - apply Qleb_true. lra. }
  split; [|split; [|split; [|split]]].
  - intros d Ht Hd H8 Hs.
    rewrite (Hwarn d 8 Ht Hd ltac:(lra) ltac:(lra) H8), Hs.
    do 2 eexists. split; [reflexivity|]. split; [reflexivity|]. simpl.
    assert (E : Qleb d 5 = false) by (apply Qleb_false; lra).
    rewrite E. reflexivity.
  - intros d Ht Hd H3 Hs.
    rewrite (Hwarn d 3 Ht Hd ltac:(lra) ltac:(lra) H3), Hs.
    do 2 eexists. split; [reflexivity|]. split; [reflexivity|]. simpl.
    assert (E : Qleb d 5 = true) by (apply Qleb_true; lra).
    rewrite E. reflexivity.
  - intros H0 Hs. rewrite (liquidated_branch _ _ _ _ H0), Hs.
    do 2 eexists. split; [reflexivity|]. split; reflexivity.
  - intros d Ht Hd [H8|H3] Hs.
    + rewrite (Hwarn d 8 Ht Hd ltac:(lra) ltac:(lra) H8), Hs. reflexivity.
    + rewrite (Hwarn d 3 Ht Hd ltac:(lra) ltac:(lra) H3), Hs. reflexivity.
  - intros H0 Hs. rewrite (liquidated_branch _ _ _ _ H0), Hs. reflexivity.
Qed.

End LegacyEngine.

Section LegacyEngineRuns.

Import RiskCalculator AlertEngine.

Lemma legacy_escalation_witness :
  exists alert self',
    AlertEngine.evaluate_liquidation_risk plain_warning plain_alert
      new_engine 0 sample_subaccount (metrics_at_distance 8)
    = (Some alert, self')
    /\ alert_type alert = liquidation_warning
    /\ severity alert = warning.
Proof.
  apply (proj1 (legacy_escalation plain_warning plain_alert new_engine 0
                  sample_subaccount (metrics_at_distance 8)) 8);
    reflexivity.
Defined.

(** A fresh engine warns at a distance of 8; when the distance has fallen
    to 3 fifteen seconds later the cooldown of the warning is still
    running and the escalation to critical is not emitted. *)
Lemma escalation_within_cooldown_is_silent :
  exists warned engine,
    AlertEngine.evaluate_liquidation_risk plain_warning plain_alert
      new_engine 0 sample_subaccount (metrics_at_distance 8)
    = (Some warned, engine)
    /\ alert_type warned = liquidation_warning
    /\ severity warned = warning
    /\ liquidation_threshold_percent sample_subaccount == 10
    /\ liquidation_distance_percent (metrics_at_distance 3) = Fin 3
    /\ AlertEngine.evaluate_liquidation_risk plain_warning plain_alert
         engine 15 sample_subaccount (metrics_at_distance 3)
       = (None, engine).
Proof.
  do 2 eexists.
  split; [vm_compute; reflexivity|].
  split; [reflexivity|]. split; [reflexivity|].
  split; [reflexivity|]. split; [reflexivity|].
  vm_compute. reflexivity.
Qed.

End LegacyEngineRuns.

(** ** Rule evaluation: archive on trigger *)

Section ArchiveOnTrigger.

Import RiskCalculator AlertRuleEvaluator.

Variable _format_account_alert_message :
  AlertRule -> Subaccount -> RiskMetrics -> float -> string.
Variable _format_position_alert_message :
  AlertRule -> Subaccount -> RiskMetrics -> float -> string.
Variable generate_alert_description :
  string -> string -> string -> float -> float -> string -> option string
  -> string.

Local Abbreviation build_alert :=
  (AlertRuleEvaluator.build_alert _format_account_alert_message
     _format_position_alert_message generate_alert_description).
Local Abbreviation evaluate_loop :=
  (AlertRuleEvaluator.evaluate_loop _format_account_alert_message
     _format_position_alert_message generate_alert_description).
Local Abbreviation evaluate_rules_for_subaccount :=
  (AlertRuleEvaluator.evaluate_rules_for_subaccount
     _format_account_alert_message _format_position_alert_message
     generate_alert_description).

Variable subaccount : Subaccount.
Variable metrics : RiskMetrics.

Local Abbreviation alert_of :=
  (fired_alert _format_account_alert_message _format_position_alert_message
     generate_alert_description subaccount metrics).

Lemma set_archived_id r : id (set_archived r) = id r.
Proof. reflexivity. Qed.

Lemma set_archived_idempotent r : set_archived (set_archived r) = set_archived r.
Proof. reflexivity. Qed.

Lemma archive_ids_id ids r : id (archive_ids ids r) = id r.
Proof. unfold archive_ids. destruct (existsb _ ids); reflexivity. Qed.

Lemma map_id_archive_ids ids l : map id (map (archive_ids ids) l) = map id l.
Proof.
  rewrite map_map. apply map_ext. intro r. apply archive_ids_id.
Qed.

Lemma find_by_id_unique (l : list AlertRule) (r : AlertRule) :
  NoDup (map id l) -> In r l ->
  find (fun x => String.eqb (id x) (id r)) l = Some r.
Proof.
  induction l as [|x l IH]; simpl; intros Hnd Hin; [contradiction|].
  inversion Hnd as [|? ? Hnotin Hnd']; subst.
  destruct Hin as [->|Hin].
  - rewrite String.eqb_refl. reflexivity.
  - destruct (String.eqb (id x) (id r)) eqn:E.
    + apply String.eqb_eq in E. exfalso. apply Hnotin. rewrite E.
      apply in_map, Hin.
    + apply IH; assumption.
Qed.

Lemma row_of_in db r :
  NoDup (map id (rules db)) -> In r (rules db) -> row_of db r = r.
Proof.
  intros Hnd Hin. unfold row_of. rewrite find_by_id_unique; auto.
Qed.

Lemma existsb_eqb_in (s : string) (l : list string) :
  existsb (String.eqb s) l = true <-> In s l.
Proof.
  rewrite existsb_exists. split.
  - intros (x & Hin & E). apply String.eqb_eq in E. subst. exact Hin.
  - intro Hin. exists s. split; [exact Hin|apply String.eqb_refl].
Qed.

(** The loop in closed form: the hot rules fire, in order, and exactly
    they are archived. *)
Lemma evaluate_loop_closed_form :
  forall user_rules db alerts,
    NoDup (map id (rules db)) ->
    NoDup (map id user_rules) ->
    (forall r, In r user_rules -> In r (rules db) /\ archived r = false) ->
    evaluate_loop subaccount metrics user_rules db alerts
    = (alerts ++ map alert_of (filter (hot subaccount metrics) user_rules),
       {| rules :=
            map (archive_ids
                   (map id (filter (hot subaccount metrics) user_rules)))
                (rules db) |}).
Proof.
  induction user_rules as [|r0 rest IH]; intros db alerts Hnd HndL Hin.
  - simpl. rewrite app_nil_r. destruct db as [rs]. simpl. f_equal. f_equal.
    rewrite <- (map_id rs) at 1. apply map_ext. reflexivity.
  - simpl.
    destruct (Hin r0 (or_introl eq_refl)) as [Hr0 Ha0].
    rewrite (row_of_in _ _ Hnd Hr0), Ha0.
    inversion HndL as [|? ? Hnotin HndRest]; subst.
    assert (Hrest : forall r, In r rest -> In r (rules db) /\ archived r = false)
      by (intros r Hr; apply Hin; right; exact Hr).
    destruct (hot subaccount metrics r0) eqn:Eh; unfold hot in Eh.
    2: { destruct (applies_to r0 subaccount); simpl in Eh |- *;
           [rewrite Eh|]; apply IH; assumption. }
    apply andb_true_iff in Eh. destruct Eh as [Eapp Econd].
    rewrite Eapp, Econd. simpl.
    unfold archive_rule. rewrite Ha0. simpl.
    rewrite IH; simpl.
    + rewrite <- app_assoc. simpl. f_equal. f_equal.
      rewrite map_map. apply map_ext. intro r.
      unfold archive_ids. simpl.
      destruct (String.eqb (id r) (id r0)) eqn:E; simpl.
      * destruct (existsb _ _); reflexivity.
      * try rewrite E; reflexivity.
    + rewrite map_map. simpl.
      erewrite map_ext; [exact Hnd|].
      intro r. simpl. destruct (String.eqb (id r) (id r0)); reflexivity.
    + exact HndRest.
    + intros r Hr. destruct (Hrest r Hr) as [Hrdb Hra]. split; [|exact Hra].
      apply in_map_iff. exists r. split; [|exact Hrdb].
      destruct (String.eqb (id r) (id r0)) eqn:E; [|reflexivity].
      apply String.eqb_eq in E. exfalso. apply Hnotin. rewrite <- E.
      apply in_map, Hr.
Qed.

(** Filtering the table keeps the ids distinct. *)
Lemma filter_keeps_ids_distinct (keep : AlertRule -> bool) (rs : list AlertRule) :
  NoDup (map id rs) -> NoDup (map id (filter keep rs)).
Proof.
  intro Hnd. induction rs as [|r rs IH]; simpl in *; [constructor|].
  apply NoDup_cons_iff in Hnd. destruct Hnd as [Hfresh Hnd].
  destruct (keep r); simpl; [|apply IH, Hnd].
  apply NoDup_cons; [|apply IH, Hnd].
  intro Hin. apply Hfresh. apply in_map_iff in Hin.
  destruct Hin as (r' & Hid & Hr'). apply filter_In in Hr'.
  rewrite <- Hid. apply in_map, Hr'.
Qed.

(** One pass of the evaluator in closed form. *)
Lemma evaluate_rules_closed_form db :
  NoDup (map id (rules db)) ->
  evaluate_rules_for_subaccount db subaccount metrics
  = (map alert_of
         (filter (hot subaccount metrics)
                 (filter (fetchable (sub_user_id subaccount)) (rules db))),
     {| rules :=
          map (archive_ids
                 (map id (filter (hot subaccount metrics)
                            (filter (fetchable (sub_user_id subaccount))
                                    (rules db)))))
              (rules db) |}).
Proof.
  intros Hnd. unfold AlertRuleEvaluator.evaluate_rules_for_subaccount.
  unfold get_enabled_by_user.
  change (fun r : AlertRule =>
            (String.eqb (user_id r) (sub_user_id subaccount) && enabled r
             && negb (archived r))%bool)
    with (fetchable (sub_user_id subaccount)).
  rewrite evaluate_loop_closed_form; try assumption.
  - reflexivity.
  - apply filter_keeps_ids_distinct, Hnd.
  - intros r Hr. apply filter_In in Hr. destruct Hr as [Hin Hf].
    split; [exact Hin|]. unfold fetchable in Hf.
    apply andb_true_iff in Hf. destruct Hf as [_ Hf].
    apply negb_true_iff in Hf. exact Hf.
Qed.

Lemma hot_archive_ids ids r :
  hot subaccount metrics (archive_ids ids r) = hot subaccount metrics r.
Proof. unfold archive_ids. destruct (existsb _ ids); reflexivity. Qed.

(** After a pass no fetchable rule is hot any more. *)
Lemma quiescent_after_pass (rs : list AlertRule) (user : string) :
  filter (hot subaccount metrics)
    (filter (fetchable user)
       (map (archive_ids
               (map id (filter (hot subaccount metrics)
                          (filter (fetchable user) rs))))
            rs))
  = [].
Proof.
  set (ids := map id (filter (hot subaccount metrics)
                        (filter (fetchable user) rs))).
  assert (H : forall r, In r rs ->
            (fetchable user (archive_ids ids r)
             && hot subaccount metrics (archive_ids ids r) = false)%bool).
  { intros r Hr. rewrite hot_archive_ids. unfold archive_ids.
    destruct (existsb (String.eqb (id r)) ids) eqn:E.
    - unfold fetchable. simpl. rewrite andb_false_r. reflexivity.
    - destruct (fetchable user r) eqn:Ef; [|reflexivity].
      destruct (hot subaccount metrics r) eqn:Eh; [|reflexivity].
      exfalso.
      assert (Hin : In (id r) ids).
      { unfold ids. apply in_map. apply filter_In. split; [|exact Eh].
        apply filter_In. split; assumption. }
      apply existsb_eqb_in in Hin. congruence. }
  clearbody ids.
  induction rs as [|r rs IH]; simpl; [reflexivity|].
  rewrite <- IH at 1 by (intros x Hx; apply H; right; exact Hx).
  specialize (H r (or_introl eq_refl)).
  destruct (fetchable user (archive_ids ids r)); simpl; [|reflexivity].
  simpl in H. rewrite H. reflexivity.
Qed.

(** A second pass over the table a pass left behind fires nothing and
    changes nothing. *)
Lemma second_pass_silent db :
  NoDup (map id (rules db)) ->
  evaluate_rules_for_subaccount
    (snd (evaluate_rules_for_subaccount db subaccount metrics))
    subaccount metrics
  = ([], snd (evaluate_rules_for_subaccount db subaccount metrics)).
Proof.
  intros Hnd. rewrite (evaluate_rules_closed_form db Hnd). simpl.
  rewrite evaluate_rules_closed_form; simpl.
  - rewrite quiescent_after_pass. simpl. f_equal. f_equal.
    set (rs := map _ (rules db)). rewrite <- (map_id rs) at 2.
    apply map_ext. reflexivity.
  - rewrite map_id_archive_ids. exact Hnd.
Qed.

Lemma fired_map_alert_of (rule_id : string) (l : list AlertRule) :
  fired rule_id (map alert_of l)
  = length (filter (fun r => String.eqb (id r) rule_id) l).
Proof.
  unfold fired. induction l as [|r l IH]; simpl; [reflexivity|].
  destruct (String.eqb (id r) rule_id); simpl; rewrite IH; reflexivity.
Qed.

Lemma count_id_le_1 (rule_id : string) (l : list AlertRule) :
  NoDup (map id l) ->
  (length (filter (fun r => String.eqb (id r) rule_id) l) <= 1)%nat.
Proof.
  induction l as [|x l IH]; simpl; intro H; [lia|].
  inversion H as [|? ? Hnotin Hnd]; subst.
  destruct (String.eqb (id x) rule_id) eqn:E; [|apply IH, Hnd].
  apply String.eqb_eq in E. simpl.
  assert (Hz : filter (fun r => String.eqb (id r) rule_id) l = []).
  { destruct (filter _ l) as [|y ys] eqn:Ef; [reflexivity|].
    exfalso. assert (Hy : In y (filter (fun r => String.eqb (id r) rule_id) l))
      by (rewrite Ef; left; reflexivity).
    apply filter_In in Hy. destruct Hy as [Hy Ey].
    apply String.eqb_eq in Ey. apply Hnotin. rewrite E, <- Ey.
    apply in_map, Hy. }
  rewrite Hz. simpl. lia.
Qed.

Lemma count_id_in (r : AlertRule) (l : list AlertRule) :
  NoDup (map id l) -> In r l ->
  length (filter (fun x => String.eqb (id x) (id r)) l) = 1%nat.
Proof.
  intros Hnd Hin.
  pose proof (count_id_le_1 (id r) l Hnd) as Hle.
  destruct (filter (fun x => String.eqb (id x) (id r)) l) as [|y ys] eqn:Ef.
  - exfalso.
    assert (Hr : In r (filter (fun x => String.eqb (id x) (id r)) l))
      by (apply filter_In; split; [exact Hin|apply String.eqb_refl]).
    rewrite Ef in Hr. exact Hr.
  - simpl in *. destruct ys; simpl in *; lia.
Qed.

(** An armed, applicable rule whose condition holds fires exactly once in
    a pass and is archived by it; every alert of the pass carries a rule
    that is already archived. *)
Lemma armed_rule_fires db rule :
  NoDup (map id (rules db)) ->
  In rule (rules db) ->
  enabled rule = true -> archived rule = false ->
  user_id rule = sub_user_id subaccount ->
  applies_to rule subaccount = true ->
  evaluate_condition rule metrics subaccount = true ->
  fired (id rule) (fst (evaluate_rules_for_subaccount db subaccount metrics))
  = 1%nat
  /\ In (alert_of rule)
        (fst (evaluate_rules_for_subaccount db subaccount metrics))
  /\ archived_in (snd (evaluate_rules_for_subaccount db subaccount metrics))
                 (id rule) = Some true.
Proof.
  intros Hnd Hin Hen Har Hu Happ Hcond.
  rewrite (evaluate_rules_closed_form db Hnd). simpl.
  set (L := filter (hot subaccount metrics)
              (filter (fetchable (sub_user_id subaccount)) (rules db))).
  assert (HL : In rule L).
  { unfold L. apply filter_In. split.
    - apply filter_In. split; [exact Hin|]. unfold fetchable.
      rewrite Hu, String.eqb_refl, Hen, Har. reflexivity.
    - unfold hot. rewrite Happ, Hcond. reflexivity. }
  assert (HndL : NoDup (map id L)).
  { unfold L. do 2 apply filter_keeps_ids_distinct. exact Hnd. }
  split; [|split].
  - rewrite fired_map_alert_of. apply count_id_in; assumption.
  - apply in_map, HL.
  - unfold archived_in. simpl.
    assert (Hfind : find (fun r => String.eqb (id r) (id rule))
                      (map (archive_ids (map id L)) (rules db))
                    = Some (archive_ids (map id L) rule)).
    { pose proof (find_by_id_unique
                    (map (archive_ids (map id L)) (rules db))
                    (archive_ids (map id L) rule)) as F.
      rewrite archive_ids_id in F. apply F.
      - rewrite map_id_archive_ids. exact Hnd.
      - apply in_map, Hin. }
    rewrite Hfind. unfold archive_ids.
    assert (E : existsb (String.eqb (id rule)) (map id L) = true)
      by (apply existsb_eqb_in, in_map, HL).
    rewrite E. reflexivity.
Qed.

Lemma alerts_carry_archived_rules db a :
  NoDup (map id (rules db)) ->
  In a (fst (evaluate_rules_for_subaccount db subaccount metrics)) ->
  archived (alert_rule a) = true.
Proof.
  intros Hnd. rewrite (evaluate_rules_closed_form db Hnd). simpl.
  intro Hin. apply in_map_iff in Hin. destruct Hin as (r & <- & _).
  reflexivity.
Qed.

(** C1. An armed rule (enabled, not archived) of the account's user that
    applies to the account and whose condition holds on the metrics fires
    exactly once in a call of
    [evaluate_rules_for_subaccount]; it is archived before its alert is
    built (the alert carries the archived rule, and the table has it
    archived afterwards); a second call in immediate succession with the
    same metrics fires it zero times, so the two calls together produce at
    most one alert for it. *)
Theorem rule_fires_at_most_once :
  forall db rule,
    NoDup (map id (rules db)) ->
    In rule (rules db) ->
    enabled rule = true -> archived rule = false ->
    user_id rule = sub_user_id subaccount ->
    applies_to rule subaccount = true ->
    evaluate_condition rule metrics subaccount = true ->
    let first := evaluate_rules_for_subaccount db subaccount metrics in
    let second := evaluate_rules_for_subaccount (snd first) subaccount metrics in
    fired (id rule) (fst first) = 1%nat
    /\ (forall a, In a (fst first) -> archived (alert_rule a) = true)
    /\ archived_in (snd first) (id rule) = Some true
    /\ fired (id rule) (fst second) = 0%nat
    /\ (fired (id rule) (fst first) + fired (id rule) (fst second) <= 1)%nat.
Proof.
  intros db rule Hnd Hin Hen Har Hu Happ Hcond first second.
  destruct (armed_rule_fires db rule Hnd Hin Hen Har Hu Happ Hcond)
    as (Hfired & _ & Harch).
  assert (Hsecond : fst second = []).
  { unfold second, first. rewrite (second_pass_silent db Hnd). reflexivity. }
  unfold first in *. rewrite Hsecond, Hfired.
  split; [reflexivity|]. split.
  - intros a Ha. apply (alerts_carry_archived_rules db a Hnd Ha).
  - split; [exact Harch|]. split; [reflexivity|]. unfold fired. simpl. lia.
Qed.

(** Whatever the rule and whether or not it fires, two passes in a row
    produce at most one alert for it. *)
Lemma two_passes_one_alert db rule_id :
  NoDup (map id (rules db)) ->
  (fired rule_id (fst (evaluate_rules_for_subaccount db subaccount metrics))
   + fired rule_id
       (fst (evaluate_rules_for_subaccount
               (snd (evaluate_rules_for_subaccount db subaccount metrics))
               subaccount metrics)) <= 1)%nat.
Proof.
  intros Hnd. rewrite (second_pass_silent db Hnd). simpl.
  rewrite (evaluate_rules_closed_form db Hnd). simpl.
  rewrite fired_map_alert_of, Nat.add_0_r. apply count_id_le_1.
  do 2 apply filter_keeps_ids_distinct. exact Hnd.
Qed.

End ArchiveOnTrigger.

Section ArchiveOnTriggerRuns.

Import RiskCalculator AlertRuleEvaluator.

Local Abbreviation run :=
  (AlertRuleEvaluator.evaluate_rules_for_subaccount plain_message
     plain_message plain_description).

Lemma sample_db_ids : NoDup (map id (rules sample_db)).
Proof.
  simpl. repeat constructor; simpl; intuition discriminate.
Qed.

Lemma rule_fires_at_most_once_witness :
  let first := run sample_db sample_subaccount (metrics_at_distance 8) in
  let second := run (snd first) sample_subaccount (metrics_at_distance 8) in
  fired (id sample_rule) (fst first) = 1%nat
  /\ (forall a, In a (fst first) -> archived (alert_rule a) = true)
  /\ archived_in (snd first) (id sample_rule) = Some true
  /\ fired (id sample_rule) (fst second) = 0%nat
  /\ (fired (id sample_rule) (fst first)
      + fired (id sample_rule) (fst second) <= 1)%nat.
Proof.
  apply (rule_fires_at_most_once plain_message plain_message plain_description
           sample_subaccount (metrics_at_distance 8) sample_db sample_rule).
  - exact sample_db_ids.
  - left. reflexivity.
  - reflexivity.
  - reflexivity.
  - reflexivity.
  - reflexivity.
  - reflexivity.
Defined.

(** The [position_size] aggregate adds absolute values. *)
Example position_size_aggregate :
  exists total,
    total_position_size long_and_short_metrics = FFin total
    /\ total == 25000.
Proof. eexists. split; vm_compute; reflexivity. Qed.

End ArchiveOnTriggerRuns.

(** ** Infinite ratios and the rules that compare against them *)

Section InfiniteRatios.

Import RiskCalculator AlertRuleEvaluator.

Lemma infinite_metrics_condition rule metrics subaccount q :
  margin_ratio metrics = Decimal_inf ->
  liquidation_distance_percent metrics = Decimal_inf ->
  scope rule = "account"%string ->
  condition_type rule = "margin_ratio"%string
  \/ condition_type rule = "liquidation_distance"%string ->
  comparison rule = ">"%string \/ comparison rule = ">="%string ->
  threshold_value rule = FFin q ->
  evaluate_condition rule metrics subaccount = true.
Proof.
  intros Hm Hd Hs Hc Hop Ht. unfold evaluate_condition. rewrite Hs. simpl.
  unfold _evaluate_account_condition. rewrite Ht.
  destruct Hc as [-> | ->]; simpl; rewrite ?Hm, ?Hd; simpl;
    destruct Hop as [-> | ->]; reflexivity.
Qed.

(** C10. An account whose total maintenance requirement is zero has the
    infinite sentinel for margin ratio and liquidation distance, so an
    armed account-scoped rule on margin_ratio or liquidation_distance with
    operator > or >= holds against every finite threshold: the rule fires
    and is archived although the account holds no position. *)
Theorem empty_account_fires_ratio_rules :
  forall format_account format_position describe
         sd markets positions details requirement db subaccount rule q,
    requirement == 0 ->
    Py.get_default sd "positions" (Py.VDict []) = Ok positions ->
    calculate_maintenance_requirement positions markets []
    = Ok (requirement, details) ->
    NoDup (map id (rules db)) ->
    In rule (rules db) ->
    enabled rule = true -> archived rule = false ->
    user_id rule = sub_user_id subaccount ->
    applies_to rule subaccount = true ->
    scope rule = "account"%string ->
    condition_type rule = "margin_ratio"%string
    \/ condition_type rule = "liquidation_distance"%string ->
    comparison rule = ">"%string \/ comparison rule = ">="%string ->
    threshold_value rule = FFin q ->
    let metrics := calculate_risk_metrics sd markets in
    let pass :=
      evaluate_rules_for_subaccount format_account format_position describe
                                    db subaccount metrics in
    margin_ratio metrics = Decimal_inf
    /\ liquidation_distance_percent metrics = Decimal_inf
    /\ evaluate_condition rule metrics subaccount = true
    /\ fired (id rule) (fst pass) = 1%nat
    /\ archived_in (snd pass) (id rule) = Some true.
Proof.
  intros fa fp gd sd markets positions details requirement db subaccount
         rule q Hzero Hpos Hreq Hnd Hin Hen Har Hu Happ Hs Hct Hop Ht
         metrics pass.
  destruct (zero_requirement_metrics _ _ _ _ _ Hpos Hreq Hzero) as [Hm Hd].
  assert (Hcond : evaluate_condition rule metrics subaccount = true)
    by (apply (infinite_metrics_condition rule metrics subaccount q);
        assumption).
  destruct (armed_rule_fires fa fp gd subaccount metrics db rule
              Hnd Hin Hen Har Hu Happ Hcond) as (Hfired & _ & Harch).
  repeat split; assumption.
Qed.

Lemma empty_account_fires_ratio_rules_witness :
  let metrics := calculate_risk_metrics no_positions_account None in
  let pass :=
    evaluate_rules_for_subaccount plain_message plain_message
      plain_description sample_db sample_subaccount metrics in
  margin_ratio metrics = Decimal_inf
  /\ liquidation_distance_percent metrics = Decimal_inf
  /\ evaluate_condition healthy_ratio_rule metrics sample_subaccount = true
  /\ fired (id healthy_ratio_rule) (fst pass) = 1%nat
  /\ archived_in (snd pass) (id healthy_ratio_rule) = Some true.
Proof.
  apply (empty_account_fires_ratio_rules plain_message plain_message
           plain_description no_positions_account None (Py.VDict []) [] 0
           sample_db sample_subaccount healthy_ratio_rule 5).
  - reflexivity.
  - reflexivity.
  - reflexivity.
  - exact sample_db_ids.
  - right; left; reflexivity.
  - reflexivity.
  - reflexivity.
  - reflexivity.
  - reflexivity.
  - reflexivity.
  - left; reflexivity.
  - left; reflexivity.
  - reflexivity.
Defined.

End InfiniteRatios.

(** ** Rule evaluation: what a pass reports and what it leaves behind *)

Section RuleAlerts.

Import RiskCalculator AlertRuleEvaluator.

Variable _format_account_alert_message :
  AlertRule -> Subaccount -> RiskMetrics -> float -> string.
Variable _format_position_alert_message :
  AlertRule -> Subaccount -> RiskMetrics -> float -> string.
Variable generate_alert_description :
  string -> string -> string -> float -> float -> string -> option string
  -> string.

Local Abbreviation evaluate_rules_for_subaccount :=
  (AlertRuleEvaluator.evaluate_rules_for_subaccount
     _format_account_alert_message _format_position_alert_message
     generate_alert_description).

Variable subaccount : Subaccount.
Variable metrics : RiskMetrics.

Local Abbreviation alert_of :=
  (fired_alert _format_account_alert_message _format_position_alert_message
     generate_alert_description subaccount metrics).

(** Every alert of a pass is the alert of a fetched, hot row. *)
Lemma alert_of_pass db a :
  NoDup (map id (rules db)) ->
  In a (fst (evaluate_rules_for_subaccount db subaccount metrics)) ->
  exists r,
    In r (rules db)
    /\ fetchable (sub_user_id subaccount) r = true
    /\ hot subaccount metrics r = true
    /\ a = alert_of r.
Proof.
  intros Hnd. rewrite evaluate_rules_closed_form by exact Hnd. simpl.
  intro Hin. apply in_map_iff in Hin. destruct Hin as (r & <- & Hr).
  apply filter_In in Hr. destruct Hr as [Hr Hh].
  apply filter_In in Hr. destruct Hr as [Hr Hf].
  exists r. auto.
Qed.

Lemma fetchable_inv user r :
  fetchable user r = true ->
  user_id r = user /\ enabled r = true /\ archived r = false.
Proof.
  unfold fetchable. intro H.
  apply andb_true_iff in H. destruct H as [H Ha].
  apply andb_true_iff in H. destruct H as [Hu He].
  apply String.eqb_eq in Hu. apply negb_true_iff in Ha. auto.
Qed.

Lemma hot_inv r :
  hot subaccount metrics r = true ->
  applies_to r subaccount = true
  /\ evaluate_condition r metrics subaccount = true.
Proof. unfold hot. intro H. apply andb_true_iff in H. exact H. Qed.

(** Decides the tests of a condition type against the literals one by
    one; a test that succeeds fixes the type and lets the rest compute. *)
Ltac by_condition_type ct H :=
  repeat match type of H with
  | context [String.eqb ct ?s] =>
      let E := fresh "E" in
      destruct (String.eqb ct s) eqn:E;
      [apply String.eqb_eq in E; subst ct; exact H|]
  end.

(** The value [get_actual_value] reads is the one the condition was
    decided on. *)
Lemma condition_met_actual_value rule :
  evaluate_condition rule metrics subaccount = true ->
  _compare_values (get_actual_value rule metrics) (threshold_value rule)
                  (comparison rule) = true.
Proof.
  unfold evaluate_condition, _evaluate_position_condition,
    _evaluate_account_condition, get_actual_value, position_value_of.
  generalize (_compare_values) as compare.
  generalize (condition_type rule) as ct.
  intros ct compare.
  destruct (String.eqb (scope rule) "position").
  - destruct (target_position rule metrics) as [pos|]; [|discriminate].
    intro H. by_condition_type ct H. discriminate H.
  - intro H. by_condition_type ct H. discriminate H.
Qed.

(** X1. Every alert of a pass of [evaluate_rules_for_subaccount] comes
    from a row of the rules table that belongs to the account's user, was
    enabled and not archived when the pass began, applies to the account
    and has its condition met by the metrics; the alert carries that rule
    with the archived flag set, the id of the account, the severity of the
    rule and the type "rule_" followed by the condition type. *)
Theorem alerts_come_from_armed_rules db a :
  NoDup (map id (rules db)) ->
  In a (fst (evaluate_rules_for_subaccount db subaccount metrics)) ->
  exists rule,
    In rule (rules db)
    /\ user_id rule = sub_user_id subaccount
    /\ enabled rule = true
    /\ archived rule = false
    /\ applies_to rule subaccount = true
    /\ evaluate_condition rule metrics subaccount = true
    /\ alert_rule a = set_archived rule
    /\ alert_subaccount_id a = sub_id subaccount
    /\ severity a = alert_severity rule
    /\ alert_type a = String.append "rule_" (condition_type rule).
Proof.
  intros Hnd Hin.
  destruct (alert_of_pass db a Hnd Hin) as (r & Hr & Hf & Hh & ->).
  destruct (fetchable_inv _ _ Hf) as (Hu & He & Ha).
  destruct (hot_inv _ Hh) as [Happ Hcond].
  exists r. repeat split; assumption.
Qed.

(** X2. The actual value an alert reports in its metadata is the value
    [get_actual_value] reads for its rule from the metrics of the pass,
    and it satisfies the rule's comparison with the reported threshold. *)
Theorem alert_reports_the_deciding_value db a :
  NoDup (map id (rules db)) ->
  In a (fst (evaluate_rules_for_subaccount db subaccount metrics)) ->
  md_actual_value (metadata a) = get_actual_value (alert_rule a) metrics
  /\ md_threshold_value (metadata a) = threshold_value (alert_rule a)
  /\ md_comparison (metadata a) = comparison (alert_rule a)
  /\ _compare_values (md_actual_value (metadata a))
                     (md_threshold_value (metadata a))
                     (md_comparison (metadata a)) = true.
Proof.
  intros Hnd Hin.
  destruct (alert_of_pass db a Hnd Hin) as (r & Hr & Hf & Hh & ->).
  destruct (hot_inv _ Hh) as [_ Hcond].
  repeat split. simpl. apply condition_met_actual_value, Hcond.
Qed.

Lemma same_id_same_row (l : list AlertRule) (x r : AlertRule) :
  NoDup (map id l) -> In x l -> In r l -> id x = id r -> x = r.
Proof.
  intros Hnd Hx Hr Hid.
  pose proof (find_by_id_unique l r Hnd Hr) as Fr.
  pose proof (find_by_id_unique l x Hnd Hx) as Fx.
  rewrite Hid in Fx. rewrite Fx in Fr. injection Fr as ->. reflexivity.
Qed.

(** The ids listed for archiving are the ids that fired. *)
Lemma listed_iff_fired (L : list AlertRule) (r : AlertRule) :
  existsb (String.eqb (id r)) (map id L)
  = (0 <? fired (id r) (map alert_of L))%nat.
Proof.
  rewrite fired_map_alert_of.
  induction L as [|x L IH]; simpl; [reflexivity|].
  rewrite (String.eqb_sym (id r) (id x)).
  destruct (String.eqb (id x) (id r)); simpl; [reflexivity|exact IH].
Qed.

Lemma fired_positive_inv (L : list AlertRule) (rule_id : string) :
  (0 < fired rule_id (map alert_of L))%nat ->
  exists x, In x L /\ id x = rule_id.
Proof.
  rewrite fired_map_alert_of.
  induction L as [|x L IH]; simpl; [lia|].
  destruct (String.eqb (id x) rule_id) eqn:E.
  - intros _. exists x. split; [left; reflexivity|apply String.eqb_eq, E].
  - intro H. destruct (IH H) as (y & Hy & Hid). exists y. auto.
Qed.

Lemma set_archived_configuration (r : AlertRule) :
  same_configuration r (set_archived r) /\ archived (set_archived r) = true.
Proof. unfold same_configuration. simpl. repeat split. Qed.

Lemma same_configuration_refl (r : AlertRule) : same_configuration r r.
Proof. unfold same_configuration. repeat split. Qed.

(** X3. A pass leaves the rules table with the same rows in the same
    order.  In every column of the model but [archived] a row is what it
    was before the pass; its archived flag is set if its rule fired and is
    what it was otherwise.  A rule that fired was a rule of the account's
    user that was enabled and not archived.  (The time stamp [updated_at]
    of an archived row, which the ORM refreshes, is not a column of the
    model.) *)
Theorem pass_only_archives_fired_rules db :
  NoDup (map id (rules db)) ->
  let pass := evaluate_rules_for_subaccount db subaccount metrics in
  Forall2 (fun before after =>
             same_configuration before after
             /\ archived after
                = if (0 <? fired (id before) (fst pass))%nat
                  then true else archived before)
          (rules db) (rules (snd pass))
  /\ (forall r, In r (rules db) ->
                (0 < fired (id r) (fst pass))%nat ->
                user_id r = sub_user_id subaccount
                /\ enabled r = true /\ archived r = false).
Proof.
  intros Hnd pass. unfold pass.
  rewrite evaluate_rules_closed_form by exact Hnd. simpl.
  set (L := filter (hot subaccount metrics)
              (filter (fetchable (sub_user_id subaccount)) (rules db))).
  split.
  - clear Hnd. generalize (rules db) as rs. clearbody L.
    induction rs as [|r rs IH]; simpl; constructor; [|exact IH].
    unfold archive_ids. rewrite listed_iff_fired.
    match goal with
    | |- context [(0 <? ?n)%nat] => destruct (0 <? n)%nat
    end.
    + apply set_archived_configuration.
    + split; [apply same_configuration_refl|reflexivity].
  - intros r Hr Hfired.
    destruct (fired_positive_inv L (id r) Hfired) as (x & Hx & Hid).
    unfold L in Hx. apply filter_In in Hx. destruct Hx as [Hx _].
    apply filter_In in Hx. destruct Hx as [Hx Hf].
    rewrite (same_id_same_row _ x r Hnd Hx Hr Hid) in Hf.
    apply fetchable_inv, Hf.
Qed.

Lemma compare_known_operator actual threshold comparison :
  _compare_values actual threshold comparison = true ->
  known_operator comparison = true.
Proof.
  intro H. destruct (known_operator comparison) eqn:E; [reflexivity|].
  rewrite (compare_unknown_operator _ _ _ E) in H. discriminate H.
Qed.

(** Decides membership of a condition type in a list of literals. *)
Ltac member_by_condition_type ct H :=
  repeat match type of H with
  | context [String.eqb ct ?s] =>
      let E := fresh "E" in
      destruct (String.eqb ct s) eqn:E;
      [apply String.eqb_eq in E; subst ct; simpl;
       repeat first [left; reflexivity | right]|]
  end.

(** X4. The condition of a rule can hold only if its comparison is one of
    the five operators and its condition type has a branch on the side its
    scope selects: a rule of scope "position" needs one of the eight
    position condition types, a non-empty position market and an entry for
    that market in the position metrics; a rule of any other scope needs
    one of the five account condition types.  In particular a rule on
    "position_funding_payment" never fires. *)
Theorem condition_needs_a_branch rule :
  evaluate_condition rule metrics subaccount = true ->
  known_operator (comparison rule) = true
  /\ condition_type rule <> "position_funding_payment"%string
  /\ if String.eqb (scope rule) "position"
     then In (condition_type rule) position_conditions
          /\ exists market entry,
               position_market rule = Some market
               /\ market <> ""%string
               /\ Py.lookup (position_metrics metrics) market = Some entry
     else In (condition_type rule) account_conditions.
Proof.
  intro Hcond. split; [|split].
  - apply condition_met_actual_value in Hcond.
    apply (compare_known_operator _ _ _ Hcond).
  - intro Hct. unfold evaluate_condition, _evaluate_position_condition,
      _evaluate_account_condition in Hcond. rewrite Hct in Hcond.
    destruct (String.eqb (scope rule) "position");
      [destruct (target_position rule metrics)|]; discriminate Hcond.
  - unfold evaluate_condition, _evaluate_position_condition,
      _evaluate_account_condition, position_value_of in Hcond.
    destruct (String.eqb (scope rule) "position").
    + unfold target_position in Hcond.
      destruct (position_market rule) as [market|]; [|discriminate Hcond].
      destruct (String.eqb market "") eqn:Em; [discriminate Hcond|].
      destruct (Py.lookup (position_metrics metrics) market) as [pos|] eqn:El;
        [|discriminate Hcond].
      split.
      * revert Hcond. generalize (condition_type rule) as ct. intros ct H.
        unfold position_conditions.
        member_by_condition_type ct H. discriminate H.
      * exists market, pos. split; [reflexivity|]. split; [|exact El].
        apply String.eqb_neq, Em.
    + revert Hcond. generalize (condition_type rule) as ct. intros ct H.
      unfold account_conditions.
      member_by_condition_type ct H. discriminate H.
Qed.

(** X5. The metrics an alert carries in its metadata: for a rule of scope
    "position" the position metrics are cut down to the one entry of the
    rule's market, which is an entry of the metrics of the pass; for a rule
    of any other scope the metadata holds the whole of
    [metrics.to_dict()] and names no position market. *)
Theorem position_alert_carries_one_position db a :
  NoDup (map id (rules db)) ->
  In a (fst (evaluate_rules_for_subaccount db subaccount metrics)) ->
  if String.eqb (md_scope (metadata a)) "position"
  then exists market entry,
         md_position_market (metadata a) = Some market
         /\ Py.lookup (position_metrics metrics) market = Some entry
         /\ d_position_metrics (md_metrics (metadata a)) = [(market, entry)]
  else md_metrics (metadata a) = to_dict metrics
       /\ md_position_market (metadata a) = None.
Proof.
  intros Hnd Hin.
  destruct (alert_of_pass db a Hnd Hin) as (r & Hr & Hf & Hh & ->).
  destruct (hot_inv _ Hh) as [_ Hcond].
  unfold fired_alert, build_alert, trimmed_metrics. simpl.
  unfold evaluate_condition, _evaluate_position_condition in Hcond.
  destruct (String.eqb (scope r) "position") eqn:Es.
  - unfold target_position in Hcond.
    destruct (position_market r) as [market|]; [|discriminate Hcond].
    destruct (String.eqb market "") eqn:Em; [discriminate Hcond|].
    destruct (Py.lookup (position_metrics metrics) market) as [pos|] eqn:El;
      [|discriminate Hcond].
    exists market, pos. simpl. unfold only_key. rewrite El. auto.
  - split; [|reflexivity].
    destruct (position_market r); reflexivity.
Qed.

End RuleAlerts.

Section RuleAlertsRuns.

Import RiskCalculator AlertRuleEvaluator.

Local Abbreviation run :=
  (AlertRuleEvaluator.evaluate_rules_for_subaccount plain_message
     plain_message plain_description).

Local Abbreviation ran :=
  (fired_alert plain_message plain_message plain_description).

Lemma position_db_ids : NoDup (map id (rules position_db)).
Proof.
  simpl. repeat constructor; simpl; intuition discriminate.
Qed.

Lemma alerts_come_from_armed_rules_witness :
  exists rule,
    In rule (rules sample_db)
    /\ user_id rule = sub_user_id sample_subaccount
    /\ enabled rule = true
    /\ archived rule = false
    /\ applies_to rule sample_subaccount = true
    /\ evaluate_condition rule (metrics_at_distance 8) sample_subaccount = true
    /\ alert_rule (ran sample_subaccount (metrics_at_distance 8) sample_rule)
       = set_archived rule
    /\ alert_subaccount_id
         (ran sample_subaccount (metrics_at_distance 8) sample_rule)
       = sub_id sample_subaccount
    /\ severity (ran sample_subaccount (metrics_at_distance 8) sample_rule)
       = alert_severity rule
    /\ alert_type (ran sample_subaccount (metrics_at_distance 8) sample_rule)
       = String.append "rule_" (condition_type rule).
Proof.
  apply (alerts_come_from_armed_rules plain_message plain_message
           plain_description sample_subaccount (metrics_at_distance 8)
           sample_db).
  - exact sample_db_ids.
  - vm_compute. left. reflexivity.
Defined.

Lemma alert_reports_the_deciding_value_witness :
  md_actual_value
    (metadata (ran sample_subaccount (metrics_at_distance 8) sample_rule))
  = FFin 8
  /\ _compare_values (FFin 8) (FFin 10) "<=" = true.
Proof.
  destruct (alert_reports_the_deciding_value plain_message plain_message
              plain_description sample_subaccount (metrics_at_distance 8)
              sample_db
              (ran sample_subaccount (metrics_at_distance 8) sample_rule))
    as (Hv & _ & _ & Hc).
  - exact sample_db_ids.
  - vm_compute. left. reflexivity.
  - split; [exact Hv|exact Hc].
Defined.

Lemma pass_only_archives_fired_rules_witness :
  Forall2 (fun before after =>
             same_configuration before after
             /\ archived after
                = if (0 <? fired (id before)
                                 (fst (run sample_db sample_subaccount
                                           (metrics_at_distance 8))))%nat
                  then true else archived before)
          (rules sample_db)
          (rules (snd (run sample_db sample_subaccount
                           (metrics_at_distance 8)))).
Proof.
  apply (pass_only_archives_fired_rules plain_message plain_message
           plain_description sample_subaccount (metrics_at_distance 8)
           sample_db).
  exact sample_db_ids.
Defined.

Lemma condition_needs_a_branch_witness :
  known_operator (comparison position_rule) = true
  /\ condition_type position_rule <> "position_funding_payment"%string
  /\ In (condition_type position_rule) position_conditions
  /\ exists market entry,
       position_market position_rule = Some market
       /\ market <> ""%string
       /\ Py.lookup (position_metrics long_and_short_metrics) market
          = Some entry.
Proof.
  pose proof (condition_needs_a_branch sample_subaccount
                long_and_short_metrics position_rule) as H.
  simpl in H. destruct H as (Hk & Hf & Hc & Hm); [reflexivity|].
  split; [exact Hk|]. split; [exact Hf|]. split; [exact Hc|exact Hm].
Defined.

Lemma position_alert_carries_one_position_witness :
  exists market entry,
    md_position_market
      (metadata (ran sample_subaccount long_and_short_metrics position_rule))
    = Some market
    /\ Py.lookup (position_metrics long_and_short_metrics) market = Some entry
    /\ d_position_metrics
         (md_metrics
            (metadata (ran sample_subaccount long_and_short_metrics
                           position_rule)))
       = [(market, entry)].
Proof.
  apply (position_alert_carries_one_position plain_message plain_message
           plain_description sample_subaccount long_and_short_metrics
           position_db
           (ran sample_subaccount long_and_short_metrics position_rule)).
  - exact position_db_ids.
  - vm_compute. left. reflexivity.
Defined.

End RuleAlertsRuns.

(** ** Legacy engine: the cooldown as a rate limit *)

Section EngineCooldown.

Import RiskCalculator AlertEngine.

Variable format_liquidation_warning : Subaccount -> RiskMetrics -> string.
Variable format_liquidation_alert : Subaccount -> string.
Variable format_adl_warning : Subaccount -> string.

Local Abbreviation evaluate_liquidation_risk :=
  (AlertEngine.evaluate_liquidation_risk format_liquidation_warning
                                         format_liquidation_alert).
Local Abbreviation evaluate :=
  (AlertEngine.evaluate format_liquidation_warning format_liquidation_alert
                        format_adl_warning).
Local Abbreviation run :=
  (engine_run format_liquidation_warning format_liquidation_alert
              format_adl_warning).

Lemma lookup_store_same {A} (d : list (string * A)) (k : string) (v : A) :
  Py.lookup (Py.store d k v) k = Some v.
Proof.
  induction d as [|[k0 v0] d IH]; simpl.
  - rewrite String.eqb_refl. reflexivity.
  - destruct (String.eqb k k0) eqn:E; simpl.
    + rewrite String.eqb_refl. reflexivity.
    + rewrite E. exact IH.
Qed.

Lemma lookup_store_other {A} (d : list (string * A)) (k k' : string) (v : A) :
  k' <> k -> Py.lookup (Py.store d k v) k' = Py.lookup d k'.
Proof.
  intro Hne. apply String.eqb_neq in Hne.
  induction d as [|[k0 v0] d IH]; simpl.
  - rewrite Hne. reflexivity.
  - destruct (String.eqb k k0) eqn:E; simpl.
    + apply String.eqb_eq in E. subst k0. rewrite Hne. reflexivity.
    + destruct (String.eqb k' k0); [reflexivity|exact IH].
Qed.

(** A call either emits nothing and leaves the engine alone, or emits an
    alert for the account, of a kind that was not in cooldown, and stamps
    the clock reading on that kind. *)
Lemma evaluate_cases self now subaccount metrics flag :
  evaluate self now subaccount metrics flag = (None, self)
  \/ exists a,
       evaluate self now subaccount metrics flag
       = (Some a, record_alert self now (sub_id subaccount) (alert_type a))
       /\ subaccount_id a = sub_id subaccount
       /\ should_alert self now (sub_id subaccount) (alert_type a) = true.
Proof.
  unfold AlertEngine.evaluate, AlertEngine.evaluate_liquidation_risk,
    AlertEngine.evaluate_adl_risk.
  destruct (dec_leb (liquidation_distance_percent metrics) (Fin 0)).
  - destruct (should_alert self now (sub_id subaccount) liquidation) eqn:E1.
    + right. eexists (Build_Alert _ _ _ _ _).
        split; [reflexivity|]. split; [reflexivity|exact E1].
    + destruct (flag && dec_ltb (margin_ratio metrics) (Fin 2))%bool;
        [|left; reflexivity].
      destruct (should_alert self now (sub_id subaccount) adl_warning) eqn:E2;
        [|left; reflexivity].
      right. eexists (Build_Alert _ _ _ _ _).
        split; [reflexivity|]. split; [reflexivity|exact E2].
  - destruct (dec_leb (liquidation_distance_percent metrics)
                      (Fin (liquidation_threshold_percent subaccount))).
    + destruct (should_alert self now (sub_id subaccount) liquidation_warning)
        eqn:E1.
      * right. eexists (Build_Alert _ _ _ _ _).
        split; [reflexivity|]. split; [reflexivity|exact E1].
      * destruct (flag && dec_ltb (margin_ratio metrics) (Fin 2))%bool;
          [|left; reflexivity].
        destruct (should_alert self now (sub_id subaccount) adl_warning)
          eqn:E2; [|left; reflexivity].
        right. eexists (Build_Alert _ _ _ _ _).
        split; [reflexivity|]. split; [reflexivity|exact E2].
    + destruct (flag && dec_ltb (margin_ratio metrics) (Fin 2))%bool;
        [|left; reflexivity].
      destruct (should_alert self now (sub_id subaccount) adl_warning) eqn:E2;
        [|left; reflexivity].
      right. eexists (Build_Alert _ _ _ _ _).
        split; [reflexivity|]. split; [reflexivity|exact E2].
Qed.

(** The key carries a stamp that is not older than [since]. *)
Local Abbreviation stamped self key since :=
  (exists stamp, Py.lookup (alert_cooldowns self) key = Some stamp
                 /\ since <= stamp).

Lemma evaluate_keeps_stamps self now subaccount metrics flag key since :
  stamped self key since -> since <= now ->
  stamped (snd (evaluate self now subaccount metrics flag)) key since
  /\ cooldown_seconds (snd (evaluate self now subaccount metrics flag))
     = cooldown_seconds self.
Proof.
  intros (stamp & Hl & Hs) Hnow.
  destruct (evaluate_cases self now subaccount metrics flag)
    as [->|(a & -> & _)]; simpl.
  - split; [|reflexivity]. exists stamp. auto.
  - split; [|reflexivity].
    destruct (String.eqb key (cooldown_key (sub_id subaccount) (alert_type a)))
      eqn:E.
    + apply String.eqb_eq in E. subst key. exists now.
      split; [apply lookup_store_same|exact Hnow].
    + apply String.eqb_neq in E. exists stamp.
      rewrite lookup_store_other by exact E. auto.
Qed.

(** A stamped kind is not emitted again before the cooldown has run from
    the stamp, however many calls lie in between. *)
Lemma stamped_kind_waits calls :
  forall self since j tj b,
    (exists stamp,
        Py.lookup (alert_cooldowns self)
                  (cooldown_key (subaccount_id b) (alert_type b)) = Some stamp
        /\ since <= stamp) ->
    Forall (fun d => since <= call_time d) calls ->
    clock_ordered calls ->
    nth_error (run self calls) j = Some (tj, Some b) ->
    cooldown_seconds self <= tj - since.
Proof.
  induction calls as [|c rest IH]; intros self since j tj b Hst Hall Hord Hj.
  - destruct j; discriminate Hj.
  - simpl in Hj. inversion Hall as [|? ? Hc Hrest]; subst.
    destruct Hord as [Hfirst Hord].
    pose proof (evaluate_keeps_stamps self (call_time c) (call_subaccount c)
                  (call_metrics c) (call_insurance_fund_low c) _ since
                  Hst Hc) as [Hst' Hcd].
    destruct (evaluate_cases self (call_time c) (call_subaccount c)
                (call_metrics c) (call_insurance_fund_low c))
      as [E|(a & E & Hsub & Hshould)]; rewrite E in Hj, Hst', Hcd;
      simpl in Hst', Hcd.
    + destruct j as [|j]; [discriminate Hj|]. simpl in Hj.
      apply (IH self since j tj b Hst' Hrest Hord Hj).
    + destruct j as [|j]; simpl in Hj.
      * injection Hj as <- <-.
        destruct Hst as (stamp & Hl & Hs).
        unfold should_alert in Hshould. rewrite <- Hsub, Hl in Hshould.
        destruct (Qltb (call_time c - stamp) (cooldown_seconds self)) eqn:Eq;
          [discriminate Hshould|].
        apply Qltb_false in Eq. lra.
      * change (cooldown_seconds
                  (record_alert self (call_time c) (sub_id (call_subaccount c))
                                (alert_type a)) <= tj - since).
        apply (IH _ since j tj b); assumption.
Qed.

(** X6. On one engine, whatever its state at the start and whatever the
    accounts and metrics of the calls, two alerts of the same kind for the
    same account are at least [cooldown_seconds] apart, as long as the
    clock readings of the calls never go back. *)
Theorem same_alert_waits_for_the_cooldown calls :
  forall self i j ti tj a b,
    clock_ordered calls ->
    (i < j)%nat ->
    nth_error (run self calls) i = Some (ti, Some a) ->
    nth_error (run self calls) j = Some (tj, Some b) ->
    subaccount_id a = subaccount_id b ->
    alert_type a = alert_type b ->
    cooldown_seconds self <= tj - ti.
Proof.
  induction calls as [|c rest IH]; intros self i j ti tj a b Hord Hij Hi Hj
    Hsub Hkind.
  - destruct i; discriminate Hi.
  - destruct Hord as [Hfirst Hord]. simpl in Hi, Hj.
    destruct j as [|j]; [lia|].
    pose proof (evaluate_keeps_stamps self (call_time c) (call_subaccount c)
                  (call_metrics c) (call_insurance_fund_low c)) as Hkeep.
    destruct (evaluate_cases self (call_time c) (call_subaccount c)
                (call_metrics c) (call_insurance_fund_low c))
      as [E|(a0 & E & Hsub0 & Hshould)]; rewrite E in Hi, Hj, Hkeep;
      simpl in Hi, Hj, Hkeep.
    + destruct i as [|i]; [discriminate Hi|]. simpl in Hi.
      apply (IH self i j ti tj a b Hord ltac:(lia) Hi Hj Hsub Hkind).
    + destruct i as [|i]; simpl in Hi.
      * injection Hi as <- <-.
        change (cooldown_seconds
                  (record_alert self (call_time c) (sub_id (call_subaccount c))
                                (alert_type a0)) <= tj - call_time c).
        apply (stamped_kind_waits rest _ (call_time c) j tj b);
          [|exact Hfirst|exact Hord|exact Hj].
        exists (call_time c). simpl.
        rewrite <- Hsub, <- Hkind, Hsub0.
        split; [apply lookup_store_same|lra].
      * change (cooldown_seconds
                  (record_alert self (call_time c) (sub_id (call_subaccount c))
                                (alert_type a0)) <= tj - ti).
        apply (IH _ i j ti tj a b Hord ltac:(lia) Hi Hj Hsub Hkind).
Qed.

End EngineCooldown.

Section EngineCooldownRuns.

Import RiskCalculator AlertEngine.

Lemma same_alert_waits_for_the_cooldown_witness :
  cooldown_seconds new_engine <= 400 - 0.
Proof.
  eapply (same_alert_waits_for_the_cooldown plain_warning plain_alert
            plain_alert two_liquidated_polls new_engine 0 1 0 400).
  - simpl. repeat split; repeat constructor; simpl; lra.
  - lia.
  - cbv. reflexivity.
  - cbv. reflexivity.
  - reflexivity.
  - reflexivity.
Defined.

End EngineCooldownRuns.

(** ** Legacy engine: cooldown keys *)

Section CooldownKeys.

Import AlertEngine.

Lemma list_of_append (s x : string) :
  list_ascii_of_string (String.append s x)
  = (list_ascii_of_string s ++ list_ascii_of_string x)%list.
Proof.
  induction s as [|c s IH]; simpl; [reflexivity|]. rewrite IH. reflexivity.
Qed.

Lemma list_of_string_inj (s s' : string) :
  list_ascii_of_string s = list_ascii_of_string s' -> s = s'.
Proof.
  intro H. rewrite <- (string_of_list_ascii_of_string s),
             <- (string_of_list_ascii_of_string s'), H.
  reflexivity.
Qed.

Lemma append_inv_tail (s s' x : string) :
  String.append s x = String.append s' x -> s = s'.
Proof.
  intro H. apply (f_equal list_ascii_of_string) in H.
  rewrite !list_of_append in H. apply app_inv_tail in H.
  apply list_of_string_inj, H.
Qed.

(** Two equal strings end alike. *)
Lemma ends_agree (s s' x x' : string) (k : nat) :
  String.append s x = String.append s' x' ->
  (k <= length (list_ascii_of_string x))%nat ->
  (k <= length (list_ascii_of_string x'))%nat ->
  firstn k (rev (list_ascii_of_string x))
  = firstn k (rev (list_ascii_of_string x')).
Proof.
  intros H Hk Hk'. apply (f_equal list_ascii_of_string) in H.
  rewrite !list_of_append in H. apply (f_equal (@rev ascii)) in H.
  rewrite !rev_app_distr in H. apply (f_equal (firstn k)) in H.
  rewrite !firstn_app, !length_rev in H.
  replace (k - length (list_ascii_of_string x))%nat with 0%nat in H by lia.
  replace (k - length (list_ascii_of_string x'))%nat with 0%nat in H by lia.
  simpl in H. rewrite !app_nil_r in H. exact H.
Qed.

(** The key of a cooldown determines the account and the kind. *)
Lemma cooldown_key_injective (s s' : string) (t t' : AlertType) :
  cooldown_key s t = cooldown_key s' t' -> s = s' /\ t = t'.
Proof.
  unfold cooldown_key. intro H.
  destruct t, t'; simpl in H;
    try (split; [apply (append_inv_tail _ _ _ H)|reflexivity]);
    exfalso;
    solve [ apply (ends_agree _ _ _ _ 1) in H;
            [discriminate H|simpl; lia|simpl; lia]
          | apply (ends_agree _ _ _ _ 9) in H;
            [discriminate H|simpl; lia|simpl; lia] ].
Qed.

(** X7. Cooldowns do not interfere: recording an alert of one kind for one
    account changes the answer of [should_alert] for no other account and
    for no other kind, at any later time. *)
Theorem cooldowns_do_not_interfere self now later s t s' t' :
  (s, t) <> (s', t') ->
  should_alert (record_alert self now s t) later s' t'
  = should_alert self later s' t'.
Proof.
  intro Hne. unfold should_alert, record_alert. simpl.
  rewrite lookup_store_other; [reflexivity|].
  intro H. apply cooldown_key_injective in H. destruct H as [-> ->].
  apply Hne. reflexivity.
Qed.

Lemma cooldowns_do_not_interfere_witness :
  should_alert (record_alert new_engine 0 "sub-1" liquidation_warning) 15
               "sub-1" liquidation
  = should_alert new_engine 15 "sub-1" liquidation.
Proof.
  apply (cooldowns_do_not_interfere new_engine 0 15 "sub-1"
           liquidation_warning "sub-1" liquidation).
  intro H. discriminate H.
Defined.

End CooldownKeys.

(** ** Legacy engine and the risk status *)

Section EngineAndStatus.

Import RiskCalculator AlertEngine.

Variable format_liquidation_warning : Subaccount -> RiskMetrics -> string.
Variable format_liquidation_alert : Subaccount -> string.
Variable format_adl_warning : Subaccount -> string.

Local Abbreviation evaluate_liquidation_risk :=
  (AlertEngine.evaluate_liquidation_risk format_liquidation_warning
                                         format_liquidation_alert).
Local Abbreviation evaluate :=
  (AlertEngine.evaluate format_liquidation_warning format_liquidation_alert
                        format_adl_warning).

(** X8. The liquidation check of the engine and [get_risk_status] agree on
    the same distance and threshold: an alert of type liquidation is
    critical and goes with the status "liquidated"; a critical
    liquidation_warning goes with "critical" and a liquidation_warning of
    severity warning with "warning"; nothing else is emitted, so an account
    whose status is "safe" gets no alert from this check. *)
Theorem liquidation_alert_matches_status self now subaccount metrics :
  let status :=
    get_risk_status (liquidation_distance_percent metrics)
                    (liquidation_threshold_percent subaccount) in
  match fst (evaluate_liquidation_risk self now subaccount metrics) with
  | Some alert =>
      subaccount_id alert = sub_id subaccount
      /\ match alert_type alert, severity alert with
         | liquidation, critical => status = "liquidated"%string
         | liquidation_warning, critical => status = "critical"%string
         | liquidation_warning, warning => status = "warning"%string
         | _, _ => False
         end
  | None => True
  end.
Proof.
  unfold AlertEngine.evaluate_liquidation_risk, get_risk_status.
  destruct (liquidation_distance_percent metrics) as [d|[]]; simpl;
    try exact I.
  - destruct (Qleb d 0) eqn:E0.
    + destruct (should_alert self now (sub_id subaccount) liquidation);
        simpl; auto.
    + destruct (Qleb d (liquidation_threshold_percent subaccount)) eqn:Et;
        simpl; [|exact I].
      destruct (should_alert self now (sub_id subaccount) liquidation_warning);
        simpl; [|exact I].
      destruct (Qleb d 5); simpl; auto.
  - destruct (should_alert self now (sub_id subaccount) liquidation);
      simpl; auto.
Qed.

(** Metrics with both sentinels are safe and silent. *)
Lemma sentinel_metrics_are_silent self now subaccount metrics flag :
  margin_ratio metrics = Decimal_inf ->
  liquidation_distance_percent metrics = Decimal_inf ->
  get_risk_status (liquidation_distance_percent metrics)
                  (liquidation_threshold_percent subaccount) = "safe"%string
  /\ evaluate self now subaccount metrics flag = (None, self).
Proof.
  intros Hm Hd. unfold AlertEngine.evaluate,
    AlertEngine.evaluate_liquidation_risk, AlertEngine.evaluate_adl_risk.
  rewrite Hm, Hd. simpl. rewrite andb_false_r. split; reflexivity.
Qed.

(** X9. A snapshot the calculator cannot read is reported as safe and
    raises no alert: when the body of [calculate_risk_metrics] raises, or
    when the maintenance requirement it computes is zero, the status of the
    resulting metrics is "safe" and [evaluate] emits nothing and leaves the
    engine as it was, whatever the threshold, the cooldowns and the
    insurance-fund flag. *)
Theorem unreadable_snapshot_is_safe_and_silent
  sd markets self now subaccount flag :
  (exists e, risk_metrics_body sd markets = Raise e)
  \/ (exists positions total details,
         Py.get_default sd "positions" (Py.VDict []) = Ok positions
         /\ calculate_maintenance_requirement positions markets []
            = Ok (total, details)
         /\ total == 0) ->
  get_risk_status
    (liquidation_distance_percent (calculate_risk_metrics sd markets))
    (liquidation_threshold_percent subaccount) = "safe"%string
  /\ evaluate self now subaccount (calculate_risk_metrics sd markets) flag
     = (None, self).
Proof.
  intros [(e & He)|(positions & total & details & Hp & Hr & Hz)].
  - apply sentinel_metrics_are_silent;
      unfold calculate_risk_metrics; rewrite He; reflexivity.
  - destruct (zero_requirement_metrics sd markets positions total details
                Hp Hr Hz) as [Hm Hd].
    apply sentinel_metrics_are_silent; assumption.
Qed.

End EngineAndStatus.

Section EngineAndStatusRuns.

Import RiskCalculator AlertEngine.

Lemma unreadable_snapshot_is_safe_and_silent_witness :
  get_risk_status
    (liquidation_distance_percent (calculate_risk_metrics malformed_equity None))
    (liquidation_threshold_percent sample_subaccount) = "safe"%string
  /\ AlertEngine.evaluate plain_warning plain_alert plain_alert new_engine 0
       sample_subaccount (calculate_risk_metrics malformed_equity None) true
     = (None, new_engine).
Proof.
  apply (unreadable_snapshot_is_safe_and_silent plain_warning plain_alert
           plain_alert malformed_equity None new_engine 0 sample_subaccount
           true).
  left. exists InvalidOperation. vm_compute. reflexivity.
Defined.

End EngineAndStatusRuns.

(** ** The fillable price and the oracle price *)

Section FillablePrice.

Import RiskCalculator.



End FillablePrice.

(** ** The requirement loops: totals and details *)

Section RequirementLoops.

Import RiskCalculator.

Lemma sum_from (d : list (string * Q)) (a : Q) :
  fold_left (fun acc kv => acc + snd kv) d a == a + sum_values d.
Proof.
  unfold sum_values. revert a.
  induction d as [|[k v] d IH]; intro a; simpl; [ring|].
  rewrite (IH (a + v)), (IH (0 + v)). ring.
Qed.

Lemma sum_values_store (d : list (string * Q)) (k : string) (v : Q) :
  Py.lookup d k = None -> sum_values (Py.store d k v) == sum_values d + v.
Proof.
  induction d as [|[k0 v0] d IH]; simpl; intro H.
  - unfold sum_values. simpl. ring.
  - destruct (String.eqb k k0); [discriminate H|].
    unfold sum_values in *. simpl.
    rewrite (sum_from (Py.store d k v)), (sum_from d).
    unfold sum_values. rewrite (IH H). ring.
Qed.

Lemma lookup_absent {A} (d : list (string * A)) (k : string) :
  ~ In k (map fst d) -> Py.lookup d k = None.
Proof.
  induction d as [|[k0 v0] d IH]; simpl; intro H; [reflexivity|].
  destruct (String.eqb k k0) eqn:E.
  - apply String.eqb_eq in E. exfalso. apply H. left. symmetry. exact E.
  - apply IH. intro Hin. apply H. right. exact Hin.
Qed.

Lemma requirement_at_cons body market position rest k :
  requirement_at body ((market, position) :: rest) k
  = if String.eqb k market
    then match body market position with
         | Ok (Some r) => Some r
         | _ => None
         end
    else requirement_at body rest k.
Proof.
  unfold requirement_at. simpl.
  destruct (String.eqb k market) eqn:E; [|reflexivity].
  apply String.eqb_eq in E. subst k. reflexivity.
Qed.

(** The loop adds to the total what it adds to the details, and the
    details it adds are the requirements of the positions. *)
Lemma requirement_loop_spec body items :
  forall total details,
    NoDup (map fst items) ->
    (forall k, In k (map fst items) -> Py.lookup details k = None) ->
    fst (requirement_loop body items total details)
    - sum_values (snd (requirement_loop body items total details))
    == total - sum_values details
    /\ forall k,
         Py.lookup (snd (requirement_loop body items total details)) k
         = match Py.lookup details k with
           | Some r => Some r
           | None => requirement_at body items k
           end.
Proof.
  induction items as [|[market position] rest IH];
    intros total details Hnd Hfresh.
  - simpl. split; [reflexivity|].
    intro k. destruct (Py.lookup details k); reflexivity.
  - inversion Hnd as [|? ? Hnotin Hnd']; subst.
    assert (Hm : Py.lookup details market = None)
      by (apply Hfresh; left; reflexivity).
    assert (Hrest : forall k, In k (map fst rest) -> Py.lookup details k = None)
      by (intros k Hk; apply Hfresh; right; exact Hk).
    assert (Hgone : requirement_at body rest market = None)
      by (unfold requirement_at; rewrite (lookup_absent rest market Hnotin);
          reflexivity).
    cbn [requirement_loop].
    destruct (body market position) as [[r|]|e] eqn:Eb.
    + destruct (IH (total + r) (Py.store details market r) Hnd') as [Ht Hl].
      { intros k Hk. rewrite lookup_store_other; [apply Hrest, Hk|].
        intro E. subst k. apply Hnotin, Hk. }
      split.
      * rewrite Ht, (sum_values_store details market r Hm). ring.
      * intro k. rewrite Hl, requirement_at_cons, Eb.
        destruct (String.eqb k market) eqn:E.
        -- apply String.eqb_eq in E. subst k.
           rewrite lookup_store_same, Hm. reflexivity.
        -- rewrite lookup_store_other by (apply String.eqb_neq, E).
           reflexivity.
    + destruct (IH total details Hnd' Hrest) as [Ht Hl].
      split; [exact Ht|]. intro k. rewrite Hl, requirement_at_cons, Eb.
      destruct (Py.lookup details k); [reflexivity|].
      destruct (String.eqb k market) eqn:E; [|reflexivity].
      apply String.eqb_eq in E. subst k. exact Hgone.
    + destruct (IH total details Hnd' Hrest) as [Ht Hl].
      split; [exact Ht|]. intro k. rewrite Hl, requirement_at_cons, Eb.
      destruct (Py.lookup details k); [reflexivity|].
      destruct (String.eqb k market) eqn:E; [|reflexivity].
      apply String.eqb_eq in E. subst k. exact Hgone.
Qed.

(** X14. For a positions dict (its keys are distinct) the two requirement
    functions return normally; the total each returns is the sum of the
    per-market details it returns, and the detail of a market is the
    requirement of that market's position: a market whose position is
    skipped (no price, zero notional, or an exception in the body) has no
    detail and adds nothing to the total. *)
Theorem requirement_details_add_up markets items :
  NoDup (map fst items) ->
  (exists total details,
      calculate_maintenance_requirement (Py.VDict items) markets []
      = Ok (total, details)
      /\ total == sum_values details
      /\ forall market,
           Py.lookup details market
           = requirement_at (maintenance_requirement_of markets) items market)
  /\ (exists total details,
         calculate_initial_requirement (Py.VDict items) markets []
         = Ok (total, details)
         /\ total == sum_values details
         /\ forall market,
              Py.lookup details market
              = requirement_at (initial_requirement_of markets) items market).
Proof.
  intro Hnd.
  unfold calculate_maintenance_requirement, calculate_initial_requirement.
  simpl. split.
  - destruct (requirement_loop_spec (maintenance_requirement_of markets)
                items 0 [] Hnd) as [Ht Hl]; [reflexivity|].
    destruct (requirement_loop (maintenance_requirement_of markets) items 0 [])
      as [total details]. simpl in *.
    exists total, details. split; [reflexivity|]. split; [|exact Hl].
    unfold sum_values at 2 in Ht. simpl in Ht. lra.
  - destruct (requirement_loop_spec (initial_requirement_of markets)
                items 0 [] Hnd) as [Ht Hl]; [reflexivity|].
    destruct (requirement_loop (initial_requirement_of markets) items 0 [])
      as [total details]. simpl in *.
    exists total, details. split; [reflexivity|]. split; [|exact Hl].
    unfold sum_values at 2 in Ht. simpl in Ht. lra.
Qed.

Lemma requirement_details_add_up_witness :
  exists total details,
    calculate_maintenance_requirement
      (Py.VDict [("BIG-USD", Py.VDict [("size", Py.VStr "1");
                                       ("entryPrice", Py.VStr "19000000")])]%string)
      pricey_markets []
    = Ok (total, details)
    /\ total == sum_values details.
Proof.
  destruct (proj1 (requirement_details_add_up pricey_markets
              [("BIG-USD", Py.VDict [("size", Py.VStr "1");
                                     ("entryPrice", Py.VStr "19000000")])]%string
              ltac:(repeat constructor; simpl; intuition discriminate)))
    as (total & details & H & Hsum & _).
  exists total, details. split; [exact H|exact Hsum].
Defined.

End RequirementLoops.

(** ** calculate_risk_metrics: what the result is made of *)

Section MetricsFields.

Import RiskCalculator.

(** X15. The free collateral of the metrics is the value the snapshot
    reports under "free_collateral" or "freeCollateral" whenever the first
    truthy of the two reads as a decimal, and the equity minus the initial
    requirement of the metrics otherwise; a reported number zero is falsy
    and so counts as not reported. *)
Theorem free_collateral_source sd markets m :
  risk_metrics_body sd markets = Ok m ->
  exists snake camel equity_value requirement,
    Py.get sd "free_collateral" = Ok snake
    /\ Py.get sd "freeCollateral" = Ok camel
    /\ equity m = Fin equity_value
    /\ initial_requirement m = Fin requirement
    /\ free_collateral m
       = match _safe_decimal (Py.or_ snake camel) with
         | Some reported => Fin reported
         | None => Fin (equity_value - requirement)
         end
    /\ (forall q, snake = Py.VNum q -> q == 0 -> camel = Py.VNone ->
                  free_collateral m = Fin (equity_value - requirement)).
Proof.
  unfold risk_metrics_body. intro H.
  bind_inv H.
  destruct v4 as [total details].
  bind_inv H.
  destruct v4 as [initial initial_details].
  bind_inv H.
  injection H as <-. simpl.
  eexists v1, v2, v0, _.
  split; [exact E1|]. split; [exact E2|]. split; [reflexivity|].
  split; [reflexivity|].
  assert (Hfree :
            Fin match per_position_raw_initial v5 with
                | [] => match _safe_decimal (Py.or_ v1 v2) with
                        | Some f => f
                        | None => v0 - initial
                        end
                | _ :: _ =>
                    match _safe_decimal (Py.or_ v1 v2) with
                    | Some f => f
                    | None =>
                        v0 - match per_position_raw_initial v5 with
                             | [] => initial
                             | _ :: _ => sum_values (per_position_raw_initial v5)
                             end
                    end
                end
            = match _safe_decimal (Py.or_ v1 v2) with
              | Some reported => Fin reported
              | None =>
                  Fin (v0 - match per_position_raw_initial v5 with
                            | [] => initial
                            | _ :: _ =>
                                sum_values (per_position_raw_initial v5)
                            end)
              end).
  { destruct (_safe_decimal (Py.or_ v1 v2));
      destruct (per_position_raw_initial v5); reflexivity. }
  split; [exact Hfree|].
  intros q -> Hq ->. rewrite Hfree.
  unfold Py.or_. simpl. apply Qeqb_true in Hq. rewrite Hq. reflexivity.
Qed.

Lemma free_collateral_source_witness :
  exists snake camel equity_value requirement,
    Py.get no_positions_account "free_collateral" = Ok snake
    /\ Py.get no_positions_account "freeCollateral" = Ok camel
    /\ equity (calculate_risk_metrics no_positions_account None)
       = Fin equity_value
    /\ initial_requirement (calculate_risk_metrics no_positions_account None)
       = Fin requirement
    /\ free_collateral (calculate_risk_metrics no_positions_account None)
       = match _safe_decimal (Py.or_ snake camel) with
         | Some reported => Fin reported
         | None => Fin (equity_value - requirement)
         end.
Proof.
  destruct (free_collateral_source no_positions_account None
              (calculate_risk_metrics no_positions_account None))
    as (snake & camel & e & r & H1 & H2 & H3 & H4 & H5 & _).
  - vm_compute. reflexivity.
  - exists snake, camel, e, r. auto.
Defined.

End MetricsFields.

(** ** calculate_risk_metrics: one entry per open position *)

Section PositionEntries.

Import RiskCalculator.

(** Whatever the side, the sign resolution keeps the magnitude. *)
Lemma signed_size_magnitude position raw_size signed :
  signed_size position raw_size = Ok signed ->
  Qabs signed == Qabs raw_size.
Proof.
  unfold signed_size. intro H. bind_inv H.
  assert (Hneg : Qabs (- Qabs raw_size) == Qabs raw_size)
    by (rewrite Qabs_opp; apply Qabs_pos, Qabs_nonneg).
  assert (Hpos : Qabs (Qabs raw_size) == Qabs raw_size)
    by (apply Qabs_pos, Qabs_nonneg).
  destruct (Py.or_ v v0);
    repeat match type of H with
    | context [if ?c then _ else _] => destruct c
    end;
    injection H as <-; first [exact Hneg|exact Hpos|reflexivity].
Qed.

(** One step of the loop files one entry, under the market of the
    position, with the signed size. *)
Lemma position_step_entry markets equity total market position raw_size st st' :
  position_step markets equity total market position raw_size st = Ok st' ->
  exists entry signed,
    ls_position_metrics st'
    = Py.store (ls_position_metrics st) market entry
    /\ size entry = Some (FFin signed)
    /\ signed_size position raw_size = Ok signed.
Proof.
  unfold position_step. intro H.
  bind_inv H.
  cbv zeta in H.
  bind_inv H.
  injection H as <-. simpl.
  eexists. exists v. split; [reflexivity|]. split; [reflexivity|exact E].
Qed.

Lemma open_size_cases position :
  match open_size position with
  | Some raw_size =>
      exists raw, Py.get position "size" = Ok raw
                  /\ _safe_decimal raw = Some raw_size
                  /\ Qeqb raw_size 0 = false
  | None =>
      forall raw, Py.get position "size" = Ok raw ->
                  match _safe_decimal raw with
                  | Some raw_size => Qeqb raw_size 0 = true
                  | None => True
                  end
  end.
Proof.
  unfold open_size. destruct (Py.get position "size") as [raw|e].
  - destruct (_safe_decimal raw) as [q|] eqn:Er.
    + destruct (Qeqb q 0) eqn:Eq.
      * intros raw' Hr. injection Hr as <-. rewrite Er. exact Eq.
      * exists raw. auto.
    + intros raw' Hr. injection Hr as <-. rewrite Er. exact I.
  - intros raw Hr. discriminate Hr.
Qed.

(** What the loop leaves under a market: what was there before, or else
    the entry of the market's position if that position is open. *)
Lemma position_loop_entries markets equity total items :
  forall st st',
    position_loop markets equity total items st = Ok st' ->
    NoDup (map fst items) ->
    (forall k, In k (map fst items) ->
               Py.lookup (ls_position_metrics st) k = None) ->
    forall k,
      match Py.lookup (ls_position_metrics st) k with
      | Some e => Py.lookup (ls_position_metrics st') k = Some e
      | None =>
          match Py.lookup (ls_position_metrics st') k with
          | Some entry =>
              exists position raw_size signed,
                Py.lookup items k = Some position
                /\ open_size position = Some raw_size
                /\ size entry = Some (FFin signed)
                /\ Qabs signed == Qabs raw_size
          | None =>
              forall position,
                Py.lookup items k = Some position ->
                open_size position = None
          end
      end.
Proof.
  induction items as [|[market position] rest IH];
    intros st st' H Hnd Hfresh k.
  - simpl in H. injection H as <-.
    destruct (Py.lookup (ls_position_metrics st) k); [reflexivity|].
    intros position Hp. discriminate Hp.
  - inversion Hnd as [|? ? Hnotin Hnd']; subst.
    assert (Hm : Py.lookup (ls_position_metrics st) market = None)
      by (apply Hfresh; left; reflexivity).
    assert (Hrest : forall k, In k (map fst rest) ->
                              Py.lookup (ls_position_metrics st) k = None)
      by (intros k' Hk; apply Hfresh; right; exact Hk).
    assert (Habsent : Py.lookup rest market = None)
      by (apply lookup_absent, Hnotin).
    cbn [position_loop] in H.
    apply bind_ok_inv in H. destruct H as (raw & Eraw & H).
    pose proof (open_size_cases position) as Hopen.
    assert (Hskip :
              position_loop markets equity total rest st = Ok st' ->
              open_size position = None ->
              match Py.lookup (ls_position_metrics st) k with
              | Some e => Py.lookup (ls_position_metrics st') k = Some e
              | None =>
                  match Py.lookup (ls_position_metrics st') k with
                  | Some entry =>
                      exists position0 raw_size signed,
                        Py.lookup ((market, position) :: rest) k
                        = Some position0
                        /\ open_size position0 = Some raw_size
                        /\ size entry = Some (FFin signed)
                        /\ Qabs signed == Qabs raw_size
                  | None =>
                      forall position0,
                        Py.lookup ((market, position) :: rest) k
                        = Some position0 ->
                        open_size position0 = None
                  end
              end).
    { intros Hloop Hnone.
      pose proof (IH st st' Hloop Hnd' Hrest k) as Hk.
      destruct (Py.lookup (ls_position_metrics st) k) eqn:Ek; [exact Hk|].
      simpl. destruct (String.eqb k market) eqn:E.
      - apply String.eqb_eq in E. subst k. rewrite Habsent in Hk.
        destruct (Py.lookup (ls_position_metrics st') market).
        + destruct Hk as (other & ? & ? & Hother & _). discriminate Hother.
        + intros other Hother. injection Hother as <-. exact Hnone.
      - exact Hk. }
    unfold open_size in Hopen, Hskip. rewrite Eraw in Hopen, Hskip.
    destruct (_safe_decimal raw) as [raw_size|] eqn:Er; [|apply Hskip; auto].
    destruct (Qeqb raw_size 0) eqn:Ez; [apply Hskip; auto|].
    clear Hskip Hopen.
    apply bind_ok_inv in H. destruct H as (st1 & Estep & H).
    destruct (position_step_entry _ _ _ _ _ _ _ _ Estep)
      as (entry & signed & Hst1 & Hsize & Hsigned).
    assert (Hfresh1 : forall k', In k' (map fst rest) ->
                                 Py.lookup (ls_position_metrics st1) k' = None).
    { intros k' Hk. rewrite Hst1, lookup_store_other; [apply Hrest, Hk|].
      intro E. subst k'. apply Hnotin, Hk. }
    pose proof (IH st1 st' H Hnd' Hfresh1 k) as Hk.
    rewrite Hst1 in Hk.
    destruct (String.eqb k market) eqn:E.
    + apply String.eqb_eq in E. subst k.
      rewrite lookup_store_same in Hk. rewrite Hm, Hk.
      exists position, raw_size, signed. simpl. rewrite String.eqb_refl.
      split; [reflexivity|]. split.
      * unfold open_size. rewrite Eraw, Er, Ez. reflexivity.
      * split; [exact Hsize|].
        apply (signed_size_magnitude _ _ _ Hsigned).
    + rewrite lookup_store_other in Hk by (apply String.eqb_neq, E).
      destruct (Py.lookup (ls_position_metrics st) k); [exact Hk|].
      simpl. rewrite E. exact Hk.
Qed.

(** X16. When the body of [calculate_risk_metrics] runs to its end on a
    snapshot whose positions are a dict (its keys are distinct), the
    position metrics hold an entry for a market exactly when the position
    of that market is open, that is when its size is present, reads as a
    decimal and is not zero; the size of the entry has the magnitude of
    the size of the position, whatever sign the side gives it. *)
Theorem one_entry_per_open_position sd markets m items :
  risk_metrics_body sd markets = Ok m ->
  Py.get_default sd "positions" (Py.VDict []) = Ok (Py.VDict items) ->
  NoDup (map fst items) ->
  forall market,
    match Py.lookup (position_metrics m) market with
    | Some entry =>
        exists position raw_size signed,
          Py.lookup items market = Some position
          /\ open_size position = Some raw_size
          /\ size entry = Some (FFin signed)
          /\ Qabs signed == Qabs raw_size
    | None =>
        forall position,
          Py.lookup items market = Some position ->
          open_size position = None
    end.
Proof.
  unfold risk_metrics_body. intros H Hpos Hnd market.
  bind_inv H.
  destruct v4 as [total details].
  bind_inv H.
  destruct v4 as [initial initial_details].
  bind_inv H.
  injection H as <-. simpl.
  rewrite Hpos in E3. injection E3 as <-. simpl in E6. injection E6 as <-.
  apply (position_loop_entries _ _ _ _ _ _ E7 Hnd (fun _ _ => eq_refl) market).
Qed.

Lemma one_entry_per_open_position_witness :
  exists entry position raw_size signed,
    Py.lookup (position_metrics
                 (calculate_risk_metrics pricey_account pricey_markets))
              "BIG-USD" = Some entry
    /\ Py.lookup [("BIG-USD", Py.VDict [("size", Py.VStr "1");
                                        ("entryPrice", Py.VStr "19000000")])]%string
                 "BIG-USD" = Some position
    /\ open_size position = Some raw_size
    /\ size entry = Some (FFin signed)
    /\ Qabs signed == Qabs raw_size.
Proof.
  pose proof (one_entry_per_open_position pricey_account pricey_markets
                (calculate_risk_metrics pricey_account pricey_markets)
                [("BIG-USD", Py.VDict [("size", Py.VStr "1");
                                       ("entryPrice", Py.VStr "19000000")])]%string
                ltac:(vm_compute; reflexivity) ltac:(reflexivity)
                ltac:(repeat constructor; simpl; intuition discriminate)
                "BIG-USD"%string) as H.
  destruct (Py.lookup (position_metrics
                         (calculate_risk_metrics pricey_account pricey_markets))
                      "BIG-USD") as [entry|] eqn:E.
  - exists entry. destruct H as (position & raw_size & signed & H).
    exists position, raw_size, signed. split; [reflexivity|exact H].
  - exfalso. vm_compute in E. discriminate E.
Defined.

End PositionEntries.

(** ** Monitor service: the polling schedule *)

Section PollingSchedule.

Import MonitorService.

(** Spells out the divisions of [k], [- k] and [- (k + 1)] by [m]. *)
Ltac by_division k m mz :=
  pose proof (Nat.div_mod_eq k m);
  pose proof (Nat.mod_upper_bound k m ltac:(lia));
  pose proof (Z.div_mod (- Z.of_nat k) mz ltac:(lia));
  pose proof (Z.mod_pos_bound (- Z.of_nat k) mz ltac:(lia));
  pose proof (Z.div_mod (- Z.of_nat (S k)) mz ltac:(lia));
  pose proof (Z.mod_pos_bound (- Z.of_nat (S k)) mz ltac:(lia)).

Lemma markets_due (k : nat) :
  ((- Z.of_nat k) mod 5 =? 0)%Z = (k mod 5 =? 0)%nat.
Proof.
  by_division k 5%nat 5%Z.
  destruct (Nat.eqb_spec (k mod 5) 0); [apply Z.eqb_eq|apply Z.eqb_neq]; lia.
Qed.

Lemma markets_next (k : nat) :
  Z.max 0 ((if ((- Z.of_nat k) mod 5 =? 0)%Z
            then markets_interval else (- Z.of_nat k) mod 5) - 1)
  = ((- Z.of_nat (S k)) mod 5)%Z.
Proof.
  unfold markets_interval. by_division k 5%nat 5%Z.
  destruct (Z.eqb_spec ((- Z.of_nat k) mod 5) 0); lia.
Qed.

Lemma positions_due (k : nat) :
  ((- Z.of_nat k) mod 15 =? 0)%Z = (k mod 15 =? 0)%nat.
Proof.
  by_division k 15%nat 15%Z.
  destruct (Nat.eqb_spec (k mod 15) 0); [apply Z.eqb_eq|apply Z.eqb_neq]; lia.
Qed.

Lemma positions_next (k : nat) :
  Z.max 0 ((if ((- Z.of_nat k) mod 15 =? 0)%Z
            then positions_interval else (- Z.of_nat k) mod 15) - 1)
  = ((- Z.of_nat (S k)) mod 15)%Z.
Proof.
  unfold positions_interval. by_division k 15%nat 15%Z.
  destruct (Z.eqb_spec ((- Z.of_nat k) mod 15) 0); lia.
Qed.

(** From counters that stand where [k] iterations leave them, the
    iterations that follow keep the schedule. *)
Lemma polling_loop_from (n : nat) :
  forall (k : nat) (c : Counters) (i : nat),
    markets_counter c = ((- Z.of_nat k) mod 5)%Z ->
    positions_counter c = ((- Z.of_nat k) mod 15)%Z ->
    (i < n)%nat ->
    nth_error (polling_loop n c) i
    = Some {| refreshed_markets := ((k + i) mod 5 =? 0)%nat;
              refreshed_positions := ((k + i) mod 15 =? 0)%nat |}.
Proof.
  induction n as [|n IH]; intros k c i Hm Hp Hi; [lia|].
  cbn [polling_loop]. unfold polling_iteration.
  destruct i as [|i].
  - cbn [nth_error]. rewrite Nat.add_0_r, Hm, Hp, markets_due, positions_due.
    reflexivity.
  - cbn [nth_error].
    rewrite (IH (S k) _ i); [|cbn [markets_counter]; rewrite Hm;
                               apply markets_next
                             |cbn [positions_counter]; rewrite Hp;
                               apply positions_next
                             |lia].
    replace (S k + i)%nat with (k + S i)%nat by lia. reflexivity.
Qed.

(** X18. Started from zero counters, the polling loop refreshes the
    market table (and re-evaluates every account from its cached snapshot)
    on every fifth iteration, beginning with the first, and fetches the
    positions on every fifteenth; an iteration that fetches the positions
    therefore refreshes the markets first. *)
Theorem polling_schedule (n i : nat) :
  (i < n)%nat ->
  exists iteration,
    nth_error (polling_loop n initial_counters) i = Some iteration
    /\ refreshed_markets iteration = (i mod 5 =? 0)%nat
    /\ refreshed_positions iteration = (i mod 15 =? 0)%nat
    /\ (refreshed_positions iteration = true ->
        refreshed_markets iteration = true).
Proof.
  intro Hi. eexists. split.
  - apply (polling_loop_from n 0 initial_counters i); [reflexivity..|exact Hi].
  - cbn [refreshed_markets refreshed_positions Nat.add].
    split; [reflexivity|]. split; [reflexivity|].
    intro H. apply Nat.eqb_eq in H. apply Nat.eqb_eq.
    pose proof (Nat.div_mod_eq i 15). pose proof (Nat.div_mod_eq i 5).
    pose proof (Nat.mod_upper_bound i 5 ltac:(lia)). lia.
Qed.

Lemma polling_schedule_witness :
  exists iteration,
    nth_error (polling_loop 31 initial_counters) 30 = Some iteration
    /\ refreshed_markets iteration = true
    /\ refreshed_positions iteration = true.
Proof.
  destruct (polling_schedule 31 30 ltac:(lia))
    as (iteration & Hn & Hm & Hp & _).
  exists iteration. split; [exact Hn|]. split; [exact Hm|exact Hp].
Defined.

End PollingSchedule.

(** ** Monitor service: merging a markets update *)

Section MarketsUpdate.

Import MonitorService.

Lemma lookup_update {A} (other : list (string * A)) :
  forall d k,
    NoDup (map fst other) ->
    Py.lookup (update d other) k
    = match Py.lookup other k with
      | Some v => Some v
      | None => Py.lookup d k
      end.
Proof.
  unfold update.
  induction other as [|[k0 v0] other IH]; intros d k Hnd; [reflexivity|].
  inversion Hnd as [|? ? Hnotin Hnd']; subst.
  cbn [fold_left fst snd Py.lookup]. rewrite (IH _ k Hnd').
  destruct (String.eqb k k0) eqn:E.
  - apply String.eqb_eq in E. subst k.
    rewrite (lookup_absent other k0 Hnotin). apply lookup_store_same.
  - destruct (Py.lookup other k); [reflexivity|].
    apply lookup_store_other. apply String.eqb_neq, E.
Qed.

Lemma lookup_map_values {A B} (f : string -> A -> B) (l : list (string * A)) k :
  Py.lookup (map (fun kv => (fst kv, f (fst kv) (snd kv))) l) k
  = option_map (f k) (Py.lookup l k).
Proof.
  induction l as [|[k0 v0] l IH]; simpl; [reflexivity|].
  destruct (String.eqb k k0) eqn:E; [|exact IH].
  apply String.eqb_eq in E. subst k. reflexivity.
Qed.

(** X19. Merging a normalised markets update into the cached table: a
    market the update does not mention keeps its cached entry; a market it
    mentions gets the entry of the update, with the oracle price of the
    update if it has one and the cached oracle price otherwise, and with
    every other field taken from the update alone.  So an update never
    erases a known oracle price. *)
Theorem markets_update_keeps_oracle_prices market_info normalized market :
  NoDup (map fst normalized) ->
  let merged := process_markets_update market_info normalized in
  match Py.lookup normalized market with
  | None => Py.lookup merged market = Py.lookup market_info market
  | Some new_info =>
      exists entry,
        Py.lookup merged market = Some entry
        /\ oracle_price entry
           = match oracle_price new_info with
             | Some price => Some price
             | None =>
                 match Py.lookup market_info market with
                 | Some existing => oracle_price existing
                 | None => None
                 end
             end
        /\ with_oracle_price entry None = with_oracle_price new_info None
  end
  /\ (forall existing price,
         Py.lookup market_info market = Some existing ->
         oracle_price existing = Some price ->
         exists entry price',
           Py.lookup merged market = Some entry
           /\ oracle_price entry = Some price').
Proof.
  intros Hnd merged.
  assert (Hmerged :
            Py.lookup merged market
            = match Py.lookup normalized market with
              | Some new_info =>
                  Some (keep_oracle_price market_info market new_info)
              | None => Py.lookup market_info market
              end).
  { unfold merged, process_markets_update.
    destruct normalized as [|kv rest] eqn:En; [reflexivity|].
    rewrite <- En in *. rewrite lookup_update.
    - rewrite lookup_map_values.
      destruct (Py.lookup normalized market); reflexivity.
    - rewrite map_map. simpl. exact Hnd. }
  clearbody merged. rewrite Hmerged. split.
  - destruct (Py.lookup normalized market) as [new_info|]; [|reflexivity].
    eexists. split; [reflexivity|]. unfold keep_oracle_price.
    destruct (Py.lookup market_info market) as [existing|].
    + destruct (oracle_price new_info) eqn:En.
      * rewrite En. split; reflexivity.
      * destruct (oracle_price existing) eqn:Ee; simpl.
        -- split; reflexivity.
        -- rewrite En. split; reflexivity.
    + destruct (oracle_price new_info) eqn:En; rewrite ?En;
        split; reflexivity.
  - intros existing price Hl Hp.
    destruct (Py.lookup normalized market) as [new_info|].
    + unfold keep_oracle_price. rewrite Hl, Hp.
      destruct (oracle_price new_info) as [p|] eqn:En.
      * exists new_info, p. auto.
      * eexists. exists price. split; reflexivity.
    + exists existing, price. auto.
Qed.

Lemma markets_update_keeps_oracle_prices_witness :
  exists entry price,
    Py.lookup (process_markets_update cached_markets priceless_update)
              "ETH-USD" = Some entry
    /\ oracle_price entry = Some price.
Proof.
  apply (proj2 (markets_update_keeps_oracle_prices cached_markets
                  priceless_update "ETH-USD"
                  ltac:(repeat constructor; simpl; intuition discriminate))
               (market_with (3 # 100) (Some 3000)) 3000);
    reflexivity.
Defined.

End MarketsUpdate.

(** ** Legacy engine: what [evaluate] can emit *)

Section EngineAlertKinds.

Import RiskCalculator AlertEngine.

Variable format_liquidation_warning : Subaccount -> RiskMetrics -> string.
Variable format_liquidation_alert : Subaccount -> string.
Variable format_adl_warning : Subaccount -> string.

Local Abbreviation evaluate :=
  (AlertEngine.evaluate format_liquidation_warning format_liquidation_alert
                        format_adl_warning).
Local Abbreviation evaluate_liquidation_risk :=
  (AlertEngine.evaluate_liquidation_risk format_liquidation_warning
                                         format_liquidation_alert).

(** X21. [evaluate] gives the liquidation check priority and never emits
    an alert of type adl.  An adl_warning is emitted only when the
    liquidation check emitted nothing, the insurance-fund flag is set and
    the margin ratio is below 2, and it has severity warning; without the
    flag, which is how [update_subaccount_via_rest] calls it, the result of
    [evaluate] is the result of the liquidation check. *)
Theorem evaluate_alert_kinds self now subaccount metrics flag :
  match fst (evaluate self now subaccount metrics flag) with
  | Some alert =>
      alert_type alert <> adl
      /\ (alert_type alert = adl_warning ->
          flag = true
          /\ dec_ltb (margin_ratio metrics) (Fin 2) = true
          /\ severity alert = warning
          /\ evaluate_liquidation_risk self now subaccount metrics
             = (None, self))
      /\ (alert_type alert <> adl_warning ->
          evaluate_liquidation_risk self now subaccount metrics
          = evaluate self now subaccount metrics flag)
  | None => True
  end
  /\ evaluate self now subaccount metrics false
     = evaluate_liquidation_risk self now subaccount metrics.
Proof.
  unfold AlertEngine.evaluate, AlertEngine.evaluate_adl_risk.
  split.
  - unfold AlertEngine.evaluate_liquidation_risk.
    repeat match goal with
    | |- context [if ?c then _ else _] =>
        match c with
        | context [if _ then _ else _] => fail 1
        | _ => destruct c eqn:?
        end
    end; simpl;
    repeat match goal with
    | H : (_ && _)%bool = true |- _ =>
        apply andb_true_iff in H; destruct H
    end;
    try exact I;
    (split; [discriminate|]);
    (split; [intro; try discriminate; auto|intro Hk; try reflexivity]);
    exfalso; apply Hk; reflexivity.
  - destruct (AlertEngine.evaluate_liquidation_risk
                format_liquidation_warning format_liquidation_alert self now
                subaccount metrics) as [[alert|] self'] eqn:E;
      [reflexivity|].
    simpl.
    unfold AlertEngine.evaluate_liquidation_risk in E.
    repeat match type of E with
    | context [if ?c then _ else _] =>
        match c with
        | context [if _ then _ else _] => fail 1
        | _ => destruct c
        end
    end; try discriminate E; injection E as <-; reflexivity.
Qed.

End EngineAlertKinds.

(** ** calculate_risk_metrics: reported requirements and the ratio *)

Section ReportedRequirements.

Import RiskCalculator.

(** [d[k] = v] on a key [d] does not have appends the pair. *)
Lemma store_fresh {A} (d : list (string * A)) (k : string) (v : A) :
  Py.lookup d k = None -> Py.store d k v = d ++ [(k, v)].
Proof.
  induction d as [|[k' v'] d IH]; simpl; [reflexivity|].
  destruct (String.eqb k k'); [discriminate|].
  intro H. rewrite (IH H). reflexivity.
Qed.

(** One step of the loop records the requirement its position reports. *)
Lemma position_step_reported markets equity total market position raw_size st st' :
  position_step markets equity total market position raw_size st = Ok st' ->
  exists raw,
    Py.get position "maintenanceMarginRequirement" = Ok raw
    /\ per_position_raw_maintenance st'
       = match _safe_decimal raw with
         | Some r => Py.store (per_position_raw_maintenance st) market r
         | None => per_position_raw_maintenance st
         end.
Proof.
  unfold position_step. intro H.
  bind_inv H.
  cbv zeta in H.
  bind_inv H.
  injection H as <-. simpl.
  eexists. split; [eassumption|reflexivity].
Qed.

(** The loop collects the reported requirements in the order of the
    positions. *)
Lemma position_loop_reported markets equity total items :
  forall st st',
    position_loop markets equity total items st = Ok st' ->
    NoDup (map fst items) ->
    (forall k, In k (map fst items) ->
               Py.lookup (per_position_raw_maintenance st) k = None) ->
    per_position_raw_maintenance st'
    = per_position_raw_maintenance st ++ reported_requirements items.
Proof.
  induction items as [|[market position] rest IH];
    intros st st' H Hnd Hfresh.
  - simpl in H. injection H as <-. simpl. rewrite app_nil_r. reflexivity.
  - inversion Hnd as [|? ? Hnotin Hnd']; subst.
    assert (Hm : Py.lookup (per_position_raw_maintenance st) market = None)
      by (apply Hfresh; left; reflexivity).
    assert (Hrest : forall k', In k' (map fst rest) ->
                Py.lookup (per_position_raw_maintenance st) k' = None)
      by (intros k' Hk; apply Hfresh; right; exact Hk).
    cbn [position_loop reported_requirements] in H |- *.
    unfold reported_by, open_size.
    apply bind_ok_inv in H. destruct H as (raw & Eraw & H).
    rewrite Eraw.
    destruct (_safe_decimal raw) as [raw_size|]; [|apply (IH _ _ H Hnd' Hrest)].
    destruct (Qeqb raw_size 0); [apply (IH _ _ H Hnd' Hrest)|].
    apply bind_ok_inv in H. destruct H as (st1 & Estep & H).
    destruct (position_step_reported _ _ _ _ _ _ _ _ Estep)
      as (reported & Hget & Hst1).
    rewrite Hget.
    assert (Hfresh1 : forall k', In k' (map fst rest) ->
                Py.lookup (per_position_raw_maintenance st1) k' = None).
    { intros k' Hk. rewrite Hst1.
      destruct (_safe_decimal reported); [|apply Hrest, Hk].
      rewrite lookup_store_other; [apply Hrest, Hk|].
      intro E. subst k'. apply Hnotin, Hk. }
    rewrite (IH st1 st' H Hnd' Hfresh1), Hst1.
    destruct (_safe_decimal reported) as [r|]; [|reflexivity].
    rewrite (store_fresh _ _ _ Hm), <- app_assoc. reflexivity.
Qed.

(** X22. When the body of [calculate_risk_metrics] runs to its end, the
    margin ratio and the liquidation distance of the result are computed
    from the equity and the maintenance requirement that
    [calculate_maintenance_requirement] computes, whereas the maintenance
    requirement the result carries is the sum of the requirements the open
    positions of the snapshot report themselves as soon as one of them
    reports one, and the computed requirement only when none does. *)
Theorem reported_requirements_replace_the_total sd markets m items :
  risk_metrics_body sd markets = Ok m ->
  Py.get_default sd "positions" (Py.VDict []) = Ok (Py.VDict items) ->
  NoDup (map fst items) ->
  exists equity_value computed details,
    equity m = Fin equity_value
    /\ calculate_maintenance_requirement (Py.VDict items) markets []
       = Ok (computed, details)
    /\ margin_ratio m = calculate_margin_ratio equity_value computed
    /\ liquidation_distance_percent m
       = calculate_liquidation_distance
           (calculate_margin_ratio equity_value computed)
    /\ maintenance_requirement m
       = Fin match reported_requirements items with
             | [] => computed
             | _ :: _ => sum_values (reported_requirements items)
             end.
Proof.
  unfold risk_metrics_body. intros H Hpos Hnd.
  bind_inv H.
  destruct v4 as [total details].
  bind_inv H.
  destruct v4 as [initial initial_details].
  bind_inv H.
  injection H as <-. simpl.
  rewrite Hpos in E3. injection E3 as <-. simpl in E6. injection E6 as <-.
  exists v0, total, details.
  split; [reflexivity|]. split; [exact E4|]. split; [reflexivity|].
  split; [reflexivity|].
  rewrite (position_loop_reported _ _ _ _ _ _ E7 Hnd (fun _ _ => eq_refl)).
  reflexivity.
Qed.

Lemma reported_requirements_replace_the_total_witness :
  exists equity_value computed details,
    equity (calculate_risk_metrics reporting_account wide_spread_markets)
    = Fin equity_value
    /\ calculate_maintenance_requirement (Py.VDict reporting_positions)
         wide_spread_markets []
       = Ok (computed, details)
    /\ margin_ratio (calculate_risk_metrics reporting_account
                                            wide_spread_markets)
       = calculate_margin_ratio equity_value computed
    /\ liquidation_distance_percent
         (calculate_risk_metrics reporting_account wide_spread_markets)
       = calculate_liquidation_distance
           (calculate_margin_ratio equity_value computed)
    /\ maintenance_requirement
         (calculate_risk_metrics reporting_account wide_spread_markets)
       = Fin match reported_requirements reporting_positions with
             | [] => computed
             | _ :: _ => sum_values (reported_requirements reporting_positions)
             end.
Proof.
  apply (reported_requirements_replace_the_total reporting_account
           wide_spread_markets
           (calculate_risk_metrics reporting_account wide_spread_markets)
           reporting_positions).
  - vm_compute. reflexivity.
  - reflexivity.
  - repeat constructor. simpl. intuition discriminate.
Defined.

(** On the sample account the one reported requirement, 400, replaces the
    computed total. *)
Example reported_requirement_of_the_sample :
  reported_requirements reporting_positions = [("ETH-USD"%string, 400)]
  /\ maintenance_requirement
       (calculate_risk_metrics reporting_account wide_spread_markets)
     = Fin 400.
Proof. split; vm_compute; reflexivity. Qed.

End ReportedRequirements.
